(** * Batch multi-model assessment pipeline: a shallow embedding

    This development embeds the batch pipeline of
    [xlwings_lite_scripts/main_v2.py] (request construction, response
    parsing, reconciliation, batching, the result and metrics tables, the
    dashboard arithmetic, the manual test payload and the judge payload)
    and states the properties of its specification over that embedding.

    Conventions.
    - Python [int] is [Z]; Python [float] quantities (latency, prices,
      costs, averages) are idealised as rationals [Q]; one worked
      instance is also evaluated in binary64.
    - A Python [dict] used as a map from identifiers is a [gmap]; a JSON
      object is an association list in which the first binding of a key
      is the one [dict] lookup sees.
    - Code that can raise returns [result]; code that performs HTTP
      requests runs in the monad [M], which threads the list of requests
      sent so far and keeps it when an exception escapes. *)

From Stdlib Require Import ZArith NArith QArith Qround Lia Lqa Ascii String.
From Stdlib Require Import Floats.PrimFloat Numbers.Cyclic.Int63.Uint63.
From stdpp Require Import base option list strings gmap pretty.

Set Default Proof Using "Type".
Open Scope Z_scope.

(* ================================================================== *)
(** * Part I. The embedding                                            *)
(* ================================================================== *)

(** ** Python exceptions and fallible computations *)

Inductive exn : Type :=
  | ValueError (msg : string)
  | AttributeError
  | TypeError
  | KeyError
  | IndexError
  | JSONDecodeError
  | ZeroDivisionError.

Definition result (A : Type) : Type := exn + A.

Definition ok {A} (a : A) : result A := inr a.
Definition raise {A} (e : exn) : result A := inl e.

Definition rbind {A B} (r : result A) (k : A -> result B) : result B :=
  match r with
  | inl e => inl e
  | inr a => k a
  end.

Declare Scope result_scope.
Delimit Scope result_scope with result.
Notation "x <- r ;; k" := (rbind r (fun x => k))
  (at level 100, r at next level, right associativity) : result_scope.

(** ** Python sequence helpers *)

(** [range(n)] *)
Definition py_range (n : Z) : list Z :=
  map Z.of_nat (seq 0 (Z.to_nat n)).

(** Normalisation of one slice bound against a sequence of length [len]:
    a negative bound counts from the end, and both are clamped into
    [0, len]. *)
Definition clamp_index (len i : Z) : Z :=
  if i <? 0 then Z.max 0 (len + i) else Z.min i len.

(** [df.iloc[a:b]] (and [l[a:b]]) *)
Definition iloc_slice {A} (a b : Z) (l : list A) : list A :=
  let len := Z.of_nat (length l) in
  let s := clamp_index len a in
  let e := clamp_index len b in
  take (Z.to_nat (e - s)) (drop (Z.to_nat s) l).

(** ** Python string helpers *)

(** The characters removed by [str.strip()] among the code points below
    128: space, tab, newline, vertical tab, form feed, carriage return and
    the four separators 28 to 31. *)
Definition is_space (a : ascii) : bool :=
  let n := N_of_ascii a in
  ((n =? 32) || ((9 <=? n) && (n <=? 13)) || ((28 <=? n) && (n <=? 31)))%N.

Fixpoint lstrip (s : string) : string :=
  match s with
  | String a s' => if is_space a then lstrip s' else s
  | EmptyString => EmptyString
  end.

Definition rstrip (s : string) : string :=
  String.rev (lstrip (String.rev s)).

(** [s.strip()] *)
Definition py_strip (s : string) : string := rstrip (lstrip s).

(** [s.startswith(p)] *)
Definition startswith (p s : string) : bool := String.prefix p s.

(** [s.endswith(p)] *)
Definition endswith (p s : string) : bool :=
  String.prefix (String.rev p) (String.rev s).

(** [p in s] for strings *)
Definition str_contains (p s : string) : bool :=
  bool_decide (is_Some (String.index 0 p s)).

(** [s[n:]] and [s[:-n]] for a non-negative literal [n]. *)
Definition str_drop (n : nat) (s : string) : string :=
  String.substring n (String.length s - n) s.

Definition str_drop_end (n : nat) (s : string) : string :=
  String.substring 0 (String.length s - n) s.

Definition ascii_lower (a : ascii) : ascii :=
  let n := N_of_ascii a in
  if ((65 <=? n) && (n <=? 90))%N then ascii_of_N (n + 32) else a.

(** [s.lower()] on the letters A to Z. *)
Fixpoint str_lower (s : string) : string :=
  match s with
  | String a s' => String (ascii_lower a) (str_lower s')
  | EmptyString => EmptyString
  end.

(** [s.split(sep)] for a one-character separator: the result always has
    at least one element. *)
Fixpoint split_on (sep : ascii) (s : string) : list string :=
  match s with
  | EmptyString => [EmptyString]
  | String a s' =>
      if Ascii.eqb a sep then EmptyString :: split_on sep s'
      else match split_on sep s' with
           | w :: ws => String a w :: ws
           | [] => [String a EmptyString]
           end
  end.

(** [s.find(c)] and [s.rfind(c)] for a one-character needle; [None] is
    Python's [-1]. *)
Fixpoint find_char (c : ascii) (s : string) : option nat :=
  match s with
  | EmptyString => None
  | String a s' => if Ascii.eqb a c then Some 0%nat else S <$> find_char c s'
  end.

Definition rfind_char (c : ascii) (s : string) : option nat :=
  (fun i => (String.length s - 1 - i)%nat) <$> find_char c (String.rev s).

(** [s.replace(old, new)], left to right without overlap; [old] is not
    empty at any call site. The recursion is on the text. *)
Fixpoint str_replace_go (old new : string) (skip : nat) (s : string) : string :=
  match s with
  | EmptyString => EmptyString
  | String a s' =>
      match skip with
      | S k => str_replace_go old new k s'
      | O =>
          if String.prefix old s
          then new +:+ str_replace_go old new (String.length old - 1) s'
          else String a (str_replace_go old new 0 s')
      end
  end.

Definition str_replace (old new s : string) : string :=
  str_replace_go old new 0 s.

(** Decimal digits of a string read as a natural number. *)
Fixpoint digits_value (acc : Z) (s : string) : option Z :=
  match s with
  | EmptyString => Some acc
  | String a s' =>
      let n := Z.of_N (N_of_ascii a) in
      if (48 <=? n) && (n <=? 57) then digits_value (10 * acc + (n - 48)) s'
      else None
  end.

(** [int(s)] for a string: surrounding blanks, an optional sign, at least
    one decimal digit. (Python also admits single underscores between
    digits and non-ASCII digits; those spellings are read as errors
    here.) *)
Definition int_of_string (s : string) : option Z :=
  match py_strip s with
  | EmptyString => None
  | String "-" ((String _ _) as d) => Z.opp <$> digits_value 0 d
  | String "+" ((String _ _) as d) => digits_value 0 d
  | d => digits_value 0 d
  end.

(** ** JSON values, as [json.loads] and [response.json()] build them *)

(** [JNull] is Python's [None]. A number is kept by its integral value:
    Python compares and hashes [1] and [1.0] alike, so one constructor
    serves both; numbers with a fractional part do not occur in the
    fields this pipeline inspects. An object keeps its members in a
    list, looked up by the first binding of a key. *)
#[warnings="-register-all"]
Inductive json : Type :=
  | JNull
  | JBool (b : bool)
  | JNum (z : Z)
  | JStr (s : string)
  | JArr (l : list json)
  | JObj (kv : list (string * json)).

(** Lookup in the members of an object. *)
Fixpoint assoc {V} (k : string) (kv : list (string * V)) : option V :=
  match kv with
  | [] => None
  | (k', v) :: kv' => if String.eqb k' k then Some v else assoc k kv'
  end.

(** Truth value of [if x:]. *)
Definition py_truthy (j : json) : bool :=
  match j with
  | JNull => false
  | JBool b => b
  | JNum z => negb (z =? 0)
  | JStr s => negb (String.eqb s "")
  | JArr l => match l with [] => false | _ => true end
  | JObj kv => match kv with [] => false | _ => true end
  end.

(** The number a value compares as, for [==], [>] and [in [0, 1]]:
    [True] and [False] are the integers 1 and 0. *)
Definition py_number (j : json) : option Z :=
  match j with
  | JNum z => Some z
  | JBool b => Some (if b then 1 else 0)
  | _ => None
  end.

(** [j == n] for an integer literal [n]; never raises. *)
Definition py_eq_int (j : json) (n : Z) : bool :=
  match py_number j with
  | Some z => z =? n
  | None => false
  end.

(** [j > n] for an integer literal [n]; ordering a non-number against an
    integer raises [TypeError]. *)
Definition py_gt_int (j : json) (n : Z) : result bool :=
  match py_number j with
  | Some z => ok (n <? z)
  | None => raise TypeError
  end.

(** [j.get(k, d)]: only a dict has the method. *)
Definition dict_get (j : json) (k : string) (d : json) : result json :=
  match j with
  | JObj kv => ok (default d (assoc k kv))
  | _ => raise AttributeError
  end.

(** [j[k]] for a string key [k]. *)
Definition subscript (j : json) (k : string) : result json :=
  match j with
  | JObj kv =>
      match assoc k kv with
      | Some v => ok v
      | None => raise KeyError
      end
  | _ => raise TypeError
  end.

(** [j[0]] *)
Definition subscript0 (j : json) : result json :=
  match j with
  | JArr (x :: _) => ok x
  | JArr [] => raise IndexError
  | JStr (String a _) => ok (JStr (String a EmptyString))
  | JStr EmptyString => raise IndexError
  | JObj _ => raise KeyError
  | _ => raise TypeError
  end.

(** [k in j] for a string [k]: key membership for a dict, element
    membership for a list, substring test for a string; [TypeError] for
    a value that is not iterable. *)
Definition py_in (k : string) (j : json) : result bool :=
  match j with
  | JObj kv => ok (bool_decide (is_Some (assoc k kv)))
  | JArr l =>
      ok (existsb (fun x => match x with
                            | JStr s => String.eqb s k
                            | _ => false
                            end) l)
  | JStr s => ok (str_contains k s)
  | _ => raise TypeError
  end.

(** ** Item identifiers as dictionary keys *)

(** The hashable JSON values. [True] and [1] are the same key. *)
Inductive qid : Type :=
  | QNone
  | QInt (z : Z)
  | QStr (s : string).

#[global] Instance qid_eq_dec : EqDecision qid.
Proof. solve_decision. Defined.

Definition qid_to_sum (q : qid) : unit + (Z + string) :=
  match q with
  | QNone => inl tt
  | QInt z => inr (inl z)
  | QStr s => inr (inr s)
  end.

Definition qid_of_sum (x : unit + (Z + string)) : qid :=
  match x with
  | inl _ => QNone
  | inr (inl z) => QInt z
  | inr (inr s) => QStr s
  end.

#[global] Instance qid_countable : Countable qid.
Proof.
  apply (inj_countable' qid_to_sum qid_of_sum). by intros [].
Defined.

(** The key under which a value is stored in a dict; a list or a dict is
    unhashable. *)
Definition hashable (j : json) : result qid :=
  match j with
  | JNull => ok QNone
  | JBool b => ok (QInt (if b then 1 else 0))
  | JNum z => ok (QInt z)
  | JStr s => ok (QStr s)
  | _ => raise TypeError
  end.

(** ** Batching (assess_questions, step 5 and the head of the loop) *)

Section Batching.
Context {A : Type}.

(** [total_batches = (len(df_to_process) + batch_size - 1) // batch_size] *)
Definition total_batches (batch_size : Z) (df_to_process : list A)
  : result Z :=
  if batch_size =? 0 then raise ZeroDivisionError
  else ok ((Z.of_nat (length df_to_process) + batch_size - 1) / batch_size).

(** [batch_df = df_to_process.iloc[i*batch_size : i*batch_size + batch_size]] *)
Definition batch_df (batch_size : Z) (df_to_process : list A) (i : Z)
  : list A :=
  let batch_start_index := i * batch_size in
  let batch_end_index := batch_start_index + batch_size in
  iloc_slice batch_start_index batch_end_index df_to_process.

(** The batches visited by [for i in range(total_batches)], in order. *)
Definition batches (batch_size : Z) (df_to_process : list A)
  : result (list (list A)) :=
  (n <- total_batches batch_size df_to_process ;;
   ok (map (batch_df batch_size df_to_process) (py_range n)))%result.
End Batching.

(** ** Configuration (the dictionary built by load_config) *)

(** The three model slots, in the order the loops visit them. *)
Inductive model_key : Type := model_1 | model_2 | model_3.

#[global] Instance model_key_eq_dec : EqDecision model_key.
Proof. solve_decision. Defined.

Definition model_key_index (k : model_key) : nat :=
  match k with model_1 => 0 | model_2 => 1 | model_3 => 2 end.

Definition model_key_of_index (n : nat) : model_key :=
  match n with 0%nat => model_1 | 1%nat => model_2 | _ => model_3 end.

#[global] Instance model_key_countable : Countable model_key.
Proof.
  apply (inj_countable' model_key_index model_key_of_index). by intros [].
Defined.

(** [['model_1', 'model_2', 'model_3']] *)
Definition model_keys : list model_key := [model_1; model_2; model_3].

(** The value of a worksheet cell as xlwings hands it over: [None] for an
    empty cell, a float for a number, a bool, or text. *)
Inductive cell : Type :=
  | CBlank
  | CNum (q : Q)
  | CBool (b : bool)
  | CText (s : string).

Record Config : Type := {
  model_name_of : model_key -> string;   (* config['model_1'], ... *)
  model_tag : model_key -> Z;            (* config['model_1_tag'], ... *)
  temperature : Q;
  top_p : Q;
  max_tokens : Z;
  batch_size : Z;
  start_row : Z;
  end_row : option Z;
  request_delay_seconds : Q;
  thinking_budget_gemini : cell;
  reasoning_effort_openai : string;
  system_prompt : string
}.

(** [config.get(f'{model_key}_tag') != 1] is the test that skips a slot. *)
Definition enabled (config : Config) (k : model_key) : bool :=
  model_tag config k =? 1.

(** [full.split('/')[-1]] when the name has a slash, the name itself
    otherwise (which is the same value). *)
Definition get_short_model_name (full_model_string : string) : string :=
  if str_contains "/" full_model_string
  then List.last (split_on "/" full_model_string) full_model_string
  else full_model_string.

(** ** Request construction (the head of call_openrouter_api) *)

(** The text of a message: literal text, or the rendering by
    [json.dumps(_, indent=2)] of a value. *)
Inductive content : Type :=
  | Text (s : string)
  | JsonDump (j : json).

Record message : Type := { role : string; msg_content : content }.

(** The request body. The two optional members are the keys
    ['thinking_budget'] and ['reasoning_effort'], absent when [None]. *)
Record payload : Type := {
  p_model : string;
  p_messages : list message;
  p_temperature : Q;
  p_top_p : Q;
  p_max_tokens : Z;
  p_thinking_budget : option Z;
  p_reasoning_effort : option string
}.

(** [thinking_models_lookup.get(model_name) == 1] *)
Definition is_thinking_model (thinking_models_lookup : gmap string cell)
    (model_name : string) : bool :=
  match thinking_models_lookup !! model_name with
  | Some (CNum q) => Qeq_bool q 1
  | Some (CBool b) => b
  | _ => false
  end.

(** [budget_val is None or str(budget_val).strip() == ''] *)
Definition cell_is_blank (c : cell) : bool :=
  match c with
  | CBlank => true
  | CText s => String.eqb (py_strip s) ""
  | _ => false
  end.

(** [int(q)] for a float: truncation towards zero. *)
Definition Qtrunc (q : Q) : Z := Z.quot (Qnum q) (Zpos (Qden q)).

(** [int(budget_val)] *)
Definition int_of_cell (c : cell) : result Z :=
  match c with
  | CNum q => ok (Qtrunc q)
  | CBool b => ok (if b then 1 else 0)
  | CText s =>
      match int_of_string s with
      | Some z => ok z
      | None => raise (ValueError "invalid literal for int()")
      end
  | CBlank => raise TypeError
  end.

(** [is_pro = 'pro' in model_name.lower()] and the two bounds chosen by
    it. *)
Definition is_pro (model_name : string) : bool :=
  str_contains "pro" (str_lower model_name).

Definition min_val (model_name : string) : Z :=
  if is_pro model_name then 128 else 512.

Definition max_val (model_name : string) : Z :=
  if is_pro model_name then 32768 else 24576.

(** The Gemini branch: the value sent as ['thinking_budget'], [None] when
    the key is left out of the request. *)
Definition gemini_thinking_budget (model_name : string) (budget_val : cell)
    : result (option Z) :=
  (budget <- (if cell_is_blank budget_val then ok 0
              else int_of_cell budget_val) ;;
   let budget :=
     if 0 <? budget then
       if budget <? min_val model_name then min_val model_name
       else if max_val model_name <? budget then max_val model_name
       else budget
     else budget in
   ok (if budget =? 0 then None else Some budget))%result.

(** The OpenAI branch: the value sent as ['reasoning_effort'], [None] when
    the key is left out; an effort outside the table's list raises. *)
Definition openai_reasoning_effort (model_name : string) (user_effort : string)
    (thinking_values_lookup : gmap string string) : result (option string) :=
  if negb (String.eqb user_effort "")
     && negb (String.eqb (py_strip user_effort) "")
  then
    match thinking_values_lookup !! model_name with
    | Some valid_efforts_str =>
        if String.eqb valid_efforts_str ""
           || String.eqb (py_strip valid_efforts_str) ""
        then raise (ValueError "model does not support reasoning_effort")
        else
          let valid_efforts := py_strip <$> split_on "," valid_efforts_str in
          if bool_decide (user_effort ∈ valid_efforts)
          then ok (Some user_effort)
          else raise (ValueError "invalid reasoning_effort")
    | None => raise (ValueError "model does not support reasoning_effort")
    end
  else ok None.

(** The request body that call_openrouter_api builds before it sends
    anything. *)
Definition build_payload (model_name : string) (messages : list message)
    (config : Config) (thinking_models_lookup : gmap string cell)
    (thinking_values_lookup : gmap string string) : result payload :=
  let base budget effort :=
    {| p_model := model_name;
       p_messages := messages;
       p_temperature := temperature config;
       p_top_p := top_p config;
       p_max_tokens := max_tokens config;
       p_thinking_budget := budget;
       p_reasoning_effort := effort |} in
  if is_thinking_model thinking_models_lookup model_name then
    if startswith "google/" model_name then
      (budget <- gemini_thinking_budget model_name
                   (thinking_budget_gemini config) ;;
       ok (base budget None))%result
    else if startswith "openai/" model_name then
      (effort <- openai_reasoning_effort model_name
                   (reasoning_effort_openai config) thinking_values_lookup ;;
       ok (base None effort))%result
    else ok (base None None)
  else ok (base None None).

(** ** The gateway (the tail of call_openrouter_api) *)

(** What [requests.post] did: it timed out, it raised another exception
    whose text is [msg], or it returned a response with a status code, a
    body text, and the value [response.json()] decodes ([None] when the
    body is not JSON). *)
Inductive http_outcome : Type :=
  | Timeout
  | RequestException (msg : string)
  | Response (status_code : Z) (text : string) (body : option json).

(** The world outside the program: the answer and the measured latency
    of the [n]-th request (counting from 0), and [json.loads] on a text
    ([None] when it raises [JSONDecodeError]). *)
Class Oracles : Type := {
  http_post : payload -> nat -> http_outcome * Q;
  json_loads : string -> option json
}.

(** Computations that send requests: the state is the list of requests
    sent so far, oldest first; it survives an exception. *)
Definition M (A : Type) : Type := list payload -> result A * list payload.

Definition mret {A} (a : A) : M A := fun sent => (ok a, sent).

Definition mbind {A B} (m : M A) (k : A -> M B) : M B :=
  fun sent =>
    match m sent with
    | (inl e, sent') => (inl e, sent')
    | (inr a, sent') => k a sent'
    end.

Definition lift {A} (r : result A) : M A := fun sent => (r, sent).

Declare Scope M_scope.
Delimit Scope M_scope with M.
Notation "x <- m ;; k" := (mbind m (fun x => k))
  (at level 100, m at next level, right associativity) : M_scope.

(** [requests.post(url, headers=headers, json=payload, timeout=timeout)] *)
Definition send `{Oracles} (p : payload) : M (http_outcome * Q) :=
  fun sent => (ok (http_post p (length sent)), sent ++ [p]).

(** The pair [(response, error_message)] returned for an outcome; the
    first component is [JNull] for Python's [None]. The provider's error
    detail appended to an ["HTTP <code>"] message is left out of the
    text. *)
Definition classify (o : http_outcome) : json * option string :=
  match o with
  | Timeout => (JNull, Some "Timeout after 30s")
  | RequestException msg => (JNull, Some msg)
  | Response status_code text body =>
      if status_code =? 200 then
        if String.eqb text "" || String.eqb (py_strip text) ""
        then (JNull, Some "Empty response from OpenRouter")
        else match body with
             | Some response_json => (response_json, None)
             | None => (JNull, Some "Invalid JSON response")
             end
      else
        let error_msg := "HTTP " +:+ pretty status_code in
        let error_msg :=
          if status_code =? 401
          then error_msg +:+ " (AUTHENTICATION FAILED - Check your OPENROUTER_API_KEY in MASTER sheet)"
          else error_msg in
        (JNull, Some error_msg)
  end.

(** call_openrouter_api: build the request (which may raise), send it,
    classify the outcome. Returns [(response, error, latency)]. *)
Definition call_openrouter_api `{Oracles} (model_name : string)
    (messages : list message) (config : Config)
    (thinking_models_lookup : gmap string cell)
    (thinking_values_lookup : gmap string string)
    : M (json * option string * Q) :=
  (p <- lift (build_payload model_name messages config
                thinking_models_lookup thinking_values_lookup) ;;
   answer <- send p ;;
   let '(outcome, latency) := answer in
   mret (classify outcome, latency))%M.

(** ** Response parsing *)

(** [response["choices"][0]["message"]["content"]] *)
Definition response_content (response : json) : result json :=
  (choices <- subscript response "choices" ;;
   first <- subscript0 choices ;;
   msg <- subscript first "message" ;;
   subscript msg "content")%result.

(** The receiver of a [str] method: anything but a string has no
    [strip]. *)
Definition as_str (j : json) : result string :=
  match j with
  | JStr s => ok s
  | _ => raise AttributeError
  end.

(** [content[start_idx:end_idx+1]] *)
Definition str_slice (start_idx end_idx : nat) (s : string) : string :=
  String.substring start_idx (S end_idx - start_idx) s.

(** The cleaning steps of parse_llm_batch_response: trim, drop one
    opening and one closing code fence, then, when the text does not
    start with a bracket, cut from the first ['['] to the last [']']. *)
Definition clean_batch_content (content : string) : string :=
  let content := py_strip content in
  let content :=
    if startswith "```json" content then py_strip (str_drop 7 content)
    else if startswith "```" content then py_strip (str_drop 3 content)
    else content in
  let content :=
    if endswith "```" content then py_strip (str_drop_end 3 content)
    else content in
  if startswith "[" content then content
  else
    match find_char "[" content with
    | Some start_idx =>
        match rfind_char "]" content with
        | Some end_idx => str_slice start_idx end_idx content
        | None => content
        end
    | None => content
    end.

(** One turn of the loop [for item in parsed_array]: an item carrying a
    ['questionid'] is stored under it, replacing an earlier item with the
    same identifier; another item is ignored. *)
Definition record_item (results_map : gmap qid json) (item : json)
    : result (gmap qid json) :=
  (has <- py_in "questionid" item ;;
   if has : bool then
     (v <- subscript item "questionid" ;;
      k <- hashable v ;;
      ok (<[k := item]> results_map))
   else ok results_map)%result.

Fixpoint record_items (results_map : gmap qid json) (items : list json)
    : result (gmap qid json) :=
  match items with
  | [] => ok results_map
  | item :: rest =>
      (results_map' <- record_item results_map item ;;
       record_items results_map' rest)%result
  end.

(** The text shown for an exception in an error message. *)
Definition exn_text (e : exn) : string :=
  match e with
  | ValueError msg => msg
  | AttributeError => "AttributeError"
  | TypeError => "TypeError"
  | KeyError => "KeyError"
  | IndexError => "IndexError"
  | JSONDecodeError => "JSONDecodeError"
  | ZeroDivisionError => "ZeroDivisionError"
  end.

(** A table of items: only the identifier column matters to the batch
    step; the other columns are used for the request and the result
    rows. *)
Record row : Type := {
  questionid : qid;
  question : option string;          (* None: the cell is empty (NaN) *)
  questionImage : bool;              (* pd.notna(row.get('questionImage')) *)
  totalanswers : Z;
  answers : list (option string);    (* answer1, answer2, ... *)
  answerImages : list bool           (* pd.notna of answer1Image, ... *)
}.

(** The body of the [try] block of parse_llm_batch_response. *)
Definition parse_llm_batch_response_body `{Oracles} (response : json)
    : result (gmap qid json * option string) :=
  (content <- response_content response ;;
   content <- as_str content ;;
   let content := clean_batch_content content in
   match json_loads content with
   | None => raise JSONDecodeError
   | Some (JArr parsed_array) =>
       results_map <- record_items ∅ parsed_array ;;
       ok (results_map, None)
   | Some _ => ok (∅, Some "LLM response was not a JSON array.")
   end)%result.

(** parse_llm_batch_response: the pair [(results_map, error)]. The
    handler catches [KeyError], [IndexError], [JSONDecodeError] and
    [TypeError]; any other exception leaves the function. *)
Definition parse_llm_batch_response `{Oracles} (response : json)
    (batch_df : list row) : result (gmap qid json * option string) :=
  match parse_llm_batch_response_body response with
  | inr r => ok r
  | inl e =>
      match e with
      | KeyError | IndexError | JSONDecodeError | TypeError =>
          ok (∅, Some ("Failed to parse LLM batch response: " +:+ exn_text e))
      | _ => raise e
      end
  end.

(** [d[k] = v] on the members of a dict: the binding is replaced where
    the key is present and added at the end otherwise. *)
Fixpoint dict_set (k : string) (v : json) (kv : list (string * json))
    : list (string * json) :=
  match kv with
  | [] => [(k, v)]
  | (k', v') :: kv' =>
      if String.eqb k' k then (k', v) :: kv'
      else (k', v') :: dict_set k v kv'
  end.

(** [x.get(k, '').strip() == ''] for a feedback entry [x] that is a
    dict. *)
Definition blank_member (kv : list (string * json)) (k : string)
    : result bool :=
  (s <- as_str (default (JStr "") (assoc k kv)) ;;
   ok (String.eqb (py_strip s) ""))%result.

(** The treatment of one feedback entry in parse_llm_response. *)
Definition normalize_feedback_item (item_feedback : json) : result json :=
  match item_feedback with
  | JObj kv =>
      (blank_issue <- blank_member kv "issue" ;;
       if blank_issue : bool then
         (blank_rewrite <- blank_member kv "rewrite" ;;
          if blank_rewrite : bool
          then ok (JObj (dict_set "issue" (JStr "No changes needed.") kv))
          else ok item_feedback)
       else ok item_feedback)%result
  | _ => ok (JObj [("issue", JStr "Invalid feedback format.");
                   ("rewrite", JStr "")])
  end.

Fixpoint normalize_feedback (feedback : list (string * json))
    : result (list (string * json)) :=
  match feedback with
  | [] => ok []
  | (item_key, item_feedback) :: rest =>
      (item_feedback' <- normalize_feedback_item item_feedback ;;
       rest' <- normalize_feedback rest ;;
       ok ((item_key, item_feedback') :: rest'))%result
  end.

(** [len(content)] and [content[:100]] in the debug prints, then the
    [str] methods: the content has to be a string. A [None], a number or
    a bool has no [len]; a list has no [strip]; a dict cannot be
    sliced. *)
Definition as_printable_str (j : json) : result string :=
  match j with
  | JStr s => ok s
  | JArr _ => raise AttributeError
  | _ => raise TypeError
  end.

(** The cleaning steps of parse_llm_response. *)
Definition clean_single_content (content : string) : string :=
  let content := py_strip content in
  let content :=
    if startswith "```json" content then str_drop 7 content else content in
  let content :=
    if startswith "```" content then str_drop 3 content else content in
  let content :=
    if endswith "```" content then str_drop_end 3 content else content in
  py_strip content.

(** The body of the [try] block of parse_llm_response; [None] is the
    Python [None] it returns for a rejected response. *)
Definition parse_llm_response_body `{Oracles} (response : json)
    : result (option json) :=
  (content <- response_content response ;;
   content <- as_printable_str content ;;
   let content := clean_single_content content in
   match json_loads content with
   | None => ok None
   | Some parsed =>
       has_flag <- py_in "change_required" parsed ;;
       has_feedback <- py_in "feedback" parsed ;;
       if negb (has_flag && has_feedback) then ok None
       else
         flag <- subscript parsed "change_required" ;;
         if negb (py_eq_int flag 0 || py_eq_int flag 1) then ok None
         else
           feedback <- subscript parsed "feedback" ;;
           match feedback, parsed with
           | JObj fb, JObj members =>
               match assoc "question" fb with
               | None => ok None
               | Some _ =>
                   fb' <- normalize_feedback fb ;;
                   ok (Some (JObj (dict_set "feedback" (JObj fb') members)))
               end
           | _, _ => ok None
           end
   end)%result.

(** parse_llm_response: the handler catches [KeyError], [IndexError] and
    [JSONDecodeError] and returns [None] for them. *)
Definition parse_llm_response `{Oracles} (response : json)
    : result (option json) :=
  match parse_llm_response_body response with
  | inr r => ok r
  | inl e =>
      match e with
      | KeyError | IndexError | JSONDecodeError => ok None
      | _ => raise e
      end
  end.

(** ** The request payload for a batch *)

(** The one-character text holding a double quote. *)
Definition double_quote : string := String (ascii_of_N 34) EmptyString.

(** _clean_text: an empty cell gives the empty text; otherwise five HTML
    entities are replaced and the text is trimmed. *)
Definition _clean_text (text : option string) : string :=
  match text with
  | None => ""
  | Some text_str =>
      let text_str := str_replace "&nbsp;" " " text_str in
      let text_str := str_replace "&lt;" "<" text_str in
      let text_str := str_replace "&gt;" ">" text_str in
      let text_str := str_replace "&quot;" double_quote text_str in
      let text_str := str_replace "&amp;" "&" text_str in
      py_strip text_str
  end.

Definition json_of_qid (q : qid) : json :=
  match q with
  | QNone => JNull
  | QInt z => JNum z
  | QStr s => JStr s
  end.

Definition image_note : string :=
  " [Image present - visual content not assessed]".

(** [f'answer{i}'] *)
Definition answer_key (i : Z) : string := "answer" +:+ pretty i.

(** The object built for one row by prepare_question_batch_payload. A
    column the table lacks reads as the empty text, so an answer index
    past the stored answers gives [""]. *)
Definition question_obj (r : row) : json :=
  let question_text := _clean_text (question r) in
  let question_text :=
    if questionImage r then question_text +:+ image_note
    else question_text in
  let answer (i : Z) : string * json :=
    let n := Z.to_nat (i - 1) in
    let answer_text :=
      _clean_text (default (Some EmptyString) (answers r !! n)) in
    let answer_text :=
      if default false (answerImages r !! n)
      then answer_text +:+ image_note else answer_text in
    (answer_key i, JStr answer_text) in
  JObj ([("questionid", json_of_qid (questionid r));
         ("question", JStr question_text)]
        ++ (answer <$> ((fun i => i + 1) <$> py_range (totalanswers r)))).

(** prepare_question_batch_payload, before [json.dumps]. *)
Definition prepare_question_batch_payload (batch_df : list row) : json :=
  JArr (question_obj <$> batch_df).

(** ** Verdicts *)

(** The dict [tokens]; each member is what [usage.get] returned. *)
Record token_counts : Type := {
  tok_input : json;
  tok_output : json;
  tok_reasoning : json;
  tok_total : json
}.

(** The dict [model_batch_info], shared by all verdicts of one model for
    one batch. *)
Record model_batch_info : Type := {
  info_model_key : model_key;
  info_model_name : string;
  latency : Q;
  tokens : token_counts;
  raw_response : option json    (* json.dumps(response) if response else None *)
}.

(** The dict [{'error': e, **result_for_qid, **model_batch_info}] stored
    for one item and one model. [explicit_error] is the member written
    first ([JNull] for [None]); [result_members] are the members spread
    from the parsed object (none for an error verdict); the members of
    [info] are written last and win over both. *)
Record verdict : Type := {
  explicit_error : json;
  result_members : list (string * json);
  info : model_batch_info
}.

(** [v.get('error')]: a member ['error'] of the parsed object replaces
    the explicit one. *)
Definition verdict_error (v : verdict) : json :=
  default (explicit_error v) (assoc "error" (result_members v)).

(** [v.get(k)] for a key that is neither ['error'] nor a key of
    [model_batch_info]; [JNull] when the key is absent. *)
Definition verdict_member (v : verdict) (k : string) : json :=
  default JNull (assoc k (result_members v)).

Definition error_verdict (error : string) (i : model_batch_info) : verdict :=
  {| explicit_error := JStr error; result_members := []; info := i |}.

Definition parsed_verdict (members : list (string * json))
    (i : model_batch_info) : verdict :=
  {| explicit_error := JNull; result_members := members; info := i |}.

Definition missing_response : string := "Response missing for this questionid".

(** [batch_results]: item identifier, then model key. *)
Abbreviation batch_results_t := (gmap qid (gmap model_key verdict)).

(** [batch_results.setdefault(qid, {})[model_key] = v] *)
Definition set_verdict (batch_results : batch_results_t) (q : qid)
    (k : model_key) (v : verdict) : batch_results_t :=
  <[q := <[k := v]> (default ∅ (batch_results !! q))]> batch_results.

(** [if error:] for an optional text. *)
Definition error_truthy (error : option string) : bool :=
  match error with
  | Some msg => negb (String.eqb msg "")
  | None => false
  end.

(** ** assess_question_batch *)

(** The token bookkeeping between the call and the verdicts. *)
Definition extract_model_batch_info (k : model_key) (full_model_name : string)
    (response : json) (lat : Q) : result model_batch_info :=
  (usage <- (if py_truthy response then dict_get response "usage" (JObj [])
             else ok (JObj [])) ;;
   completion_details <- dict_get usage "completion_tokens_details" (JObj []) ;;
   reasoning_tokens_nested <-
     dict_get completion_details "reasoning_tokens" (JNum 0) ;;
   let reasoning_tokens := reasoning_tokens_nested in
   reasoning_tokens_top <- dict_get usage "reasoning_tokens" (JNum 0) ;;
   let reasoning_tokens :=
     if py_eq_int reasoning_tokens 0 then reasoning_tokens_top
     else reasoning_tokens in
   thinking_tokens_top <- dict_get usage "thinking_tokens" (JNum 0) ;;
   let reasoning_tokens :=
     if py_eq_int reasoning_tokens 0 then thinking_tokens_top
     else reasoning_tokens in
   prompt_tokens <- dict_get usage "prompt_tokens" (JNum 0) ;;
   completion_tokens <- dict_get usage "completion_tokens" (JNum 0) ;;
   total_tokens <- dict_get usage "total_tokens" (JNum 0) ;;
   _ <- py_gt_int reasoning_tokens 0 ;;
   ok {| info_model_key := k;
         info_model_name := full_model_name;
         latency := lat;
         tokens := {| tok_input := prompt_tokens;
                      tok_output := completion_tokens;
                      tok_reasoning := reasoning_tokens;
                      tok_total := total_tokens |};
         raw_response := if py_truthy response then Some response else None
      |})%result.

(** [for qid in batch_df['questionid']: batch_results.setdefault(qid,
    {})[model_key] = {'error': error, **model_batch_info}] *)
Definition fail_batch (batch_df : list row) (k : model_key) (error : string)
    (i : model_batch_info) (batch_results : batch_results_t)
    : batch_results_t :=
  foldl (fun acc r => set_verdict acc (questionid r) k (error_verdict error i))
        batch_results batch_df.

(** The verdict of one item after a successful parse. *)
Definition reconcile_item (parsed_results_map : gmap qid json) (q : qid)
    (i : model_batch_info) : result verdict :=
  match parsed_results_map !! q with
  | Some result_for_qid =>
      if py_truthy result_for_qid then
        match result_for_qid with
        | JObj members => ok (parsed_verdict members i)
        | _ => raise TypeError
        end
      else ok (error_verdict missing_response i)
  | None => ok (error_verdict missing_response i)
  end.

(** The loop that maps the parsed results back to the items. *)
Fixpoint reconcile (parsed_results_map : gmap qid json) (batch_df : list row)
    (k : model_key) (i : model_batch_info) (batch_results : batch_results_t)
    : result batch_results_t :=
  match batch_df with
  | [] => ok batch_results
  | r :: rest =>
      (v <- reconcile_item parsed_results_map (questionid r) i ;;
       reconcile parsed_results_map rest k i
         (set_verdict batch_results (questionid r) k v))%result
  end.

(** One turn of the loop over the model slots. *)
Definition assess_slot `{Oracles} (batch_df : list row) (config : Config)
    (thinking_models_lookup : gmap string cell)
    (thinking_values_lookup : gmap string string)
    (messages : list message) (batch_results : batch_results_t)
    (k : model_key) : M batch_results_t :=
  if negb (enabled config k) then mret batch_results
  else
    let full_model_name := model_name_of config k in
    (answer <- call_openrouter_api full_model_name messages config
                 thinking_models_lookup thinking_values_lookup ;;
     let '(response, error, lat) := answer in
     i <- lift (extract_model_batch_info k full_model_name response lat) ;;
     if error_truthy error then
       mret (fail_batch batch_df k (default "" error) i batch_results)
     else
       parsed <- lift (parse_llm_batch_response response batch_df) ;;
       let '(parsed_results_map, parse_error) := parsed in
       if error_truthy parse_error then
         mret (fail_batch batch_df k (default "" parse_error) i batch_results)
       else
         lift (reconcile parsed_results_map batch_df k i batch_results))%M.

(** Left-to-right loop with an accumulator, in [M]. *)
Fixpoint foldM {A B} (f : A -> B -> M A) (a : A) (l : list B) : M A :=
  match l with
  | [] => mret a
  | b :: l' => (a' <- f a b ;; foldM f a' l')%M
  end.

(** assess_question_batch. The batch number only selects extra console
    output and is left out. *)
Definition assess_question_batch `{Oracles} (batch_df : list row)
    (config : Config) (thinking_models_lookup : gmap string cell)
    (thinking_values_lookup : gmap string string) : M batch_results_t :=
  let messages :=
    [ {| role := "system"; msg_content := Text (system_prompt config) |};
      {| role := "user";
         msg_content := JsonDump (prepare_question_batch_payload batch_df) |} ] in
  foldM (assess_slot batch_df config thinking_models_lookup
           thinking_values_lookup messages)
        ∅ model_keys.

(** ** The result and metrics tables *)

(** A row of [results_data]: the empty dict appended as a separator, or a
    labelled row. The five answer cells are kept in a list. *)
Record item_row : Type := {
  Model : string;
  row_questionid : qid;
  Item : string;
  Change_Required : json;
  Question : json;
  Answers : list json
}.

Inductive results_row : Type :=
  | SeparatorRow
  | ItemRow (r : item_row).

(** A row of [api_metrics_data] (the timestamp is left out). *)
Record metrics_row : Type := {
  Question_ID : string;
  Model_Name : string;
  Model_Key : model_key;
  Status : string;
  Input_Tokens : json;
  Output_Tokens : json;
  Reasoning_Tokens : json;
  Total_Tokens : json;
  Latency_Seconds : Q;
  Raw_Response : option json;
  Error_Message : json
}.

(** Rounding of a rational to the nearest integer, ties to even: Python's
    [round(x)]. *)
Definition round_half_even (q : Q) : Z :=
  let f := Qfloor q in
  let twice_frac := (2 * (q - inject_Z f))%Q in
  if Qle_bool twice_frac 1 && negb (Qeq_bool twice_frac 1) then f
  else if Qeq_bool twice_frac 1 then (if Z.even f then f else f + 1)
  else f + 1.

(** [round(x, 2)] *)
Definition round2 (q : Q) : Q := (round_half_even (q * 100) # 100)%Q.

(** [feedback.get(k, {}).get(field, d)] *)
Definition feedback_cell (feedback : json) (k field : string) (d : json)
    : result json :=
  (entry <- dict_get feedback k (JObj []) ;;
   dict_get entry field d)%result.

(** [{f'Answer {j}': feedback.get(f'answer{j}', {}).get(field, '') for j
    in range(1, 6)}] *)
Fixpoint answer_cells (feedback : json) (field : string) (js : list Z)
    : result (list json) :=
  match js with
  | [] => ok []
  | j :: rest =>
      (c <- feedback_cell feedback (answer_key j) field (JStr "") ;;
       cs <- answer_cells feedback field rest ;;
       ok (c :: cs))%result
  end.

Definition one_to_five : list Z := [1; 2; 3; 4; 5].

(** [model_result.get('change_required')], where [model_result] is
    [assessment_for_question.get(model_key, {})]. *)
Definition change_required_of (model_result : option verdict) : json :=
  match model_result with
  | Some v => verdict_member v "change_required"
  | None => JNull
  end.

(** The four rows appended for one item and one enabled model.
    [model_result] is [assessment_for_question.get(model_key, {})],
    [None] standing for the empty dict. *)
Definition rows_for_model (config : Config) (r : row)
    (model_result : option verdict) (k : model_key)
    : result (list results_row) :=
  let display_model_name := get_short_model_name (model_name_of config k) in
  let change_required_val := change_required_of model_result in
  let feedback :=
    match model_result with
    | Some v => default (JObj []) (assoc "feedback" (result_members v))
    | None => JObj []
    end in
  let error :=
    match model_result with
    | Some v => verdict_error v
    | None => JStr ""
    end in
  let labelled item q a :=
    ItemRow {| Model := display_model_name;
               row_questionid := questionid r;
               Item := item;
               Change_Required := change_required_val;
               Question := q;
               Answers := a |} in
  let original :=
    labelled "Original" (JStr (_clean_text (question r)))
      ((fun j => JStr (_clean_text
                         (default (Some EmptyString)
                            (answers r !! Z.to_nat (j - 1)))))
       <$> one_to_five) in
  (rq <- feedback_cell feedback "question" "rewrite" (JStr "") ;;
   ra <- answer_cells feedback "rewrite" one_to_five ;;
   iq <- feedback_cell feedback "question" "issue" error ;;
   ia <- answer_cells feedback "issue" one_to_five ;;
   ok [original; labelled "Rewrite" rq ra; labelled "Issues" iq ia;
       SeparatorRow])%result.

(** The rows of one item: the loop over the model slots, skipping the
    disabled ones. *)
Fixpoint rows_for_item (config : Config) (r : row)
    (assessment_for_question : gmap model_key verdict) (ks : list model_key)
    : result (list results_row) :=
  match ks with
  | [] => ok []
  | k :: rest =>
      if negb (enabled config k)
      then rows_for_item config r assessment_for_question rest
      else
        (rows <- rows_for_model config r (assessment_for_question !! k) k ;;
         more <- rows_for_item config r assessment_for_question rest ;;
         ok (rows ++ more))%result
  end.

(** The rows of one batch: the loop over its items. *)
Fixpoint rows_for_batch (config : Config) (batch_df : list row)
    (batch_assessment_results : batch_results_t)
    : result (list results_row) :=
  match batch_df with
  | [] => ok []
  | r :: rest =>
      (rows <- rows_for_item config r
                 (default ∅ (batch_assessment_results !! questionid r))
                 model_keys ;;
       more <- rows_for_batch config rest batch_assessment_results ;;
       ok (rows ++ more))%result
  end.

(** The metrics record of one model for one batch, read off the verdict
    of the first item of the batch. *)
Definition metrics_row_of (batch_number : Z) (k : model_key) (v : verdict)
    : metrics_row :=
  {| Question_ID := "Batch_" +:+ pretty batch_number;
     Model_Name := info_model_name (info v);
     Model_Key := k;
     Status := match verdict_error v with
               | JNull => "SUCCESS"
               | _ => "ERROR"
               end;
     Input_Tokens := tok_input (tokens (info v));
     Output_Tokens := tok_output (tokens (info v));
     Reasoning_Tokens := tok_reasoning (tokens (info v));
     Total_Tokens := tok_total (tokens (info v));
     Latency_Seconds := round2 (latency (info v));
     Raw_Response := raw_response (info v);
     Error_Message := if py_truthy (verdict_error v) then verdict_error v
                      else JStr "" |}.

(** The metrics loop of one batch. [batch_df['questionid'].iloc[0]] is
    evaluated for every enabled slot and raises on an empty batch. *)
Fixpoint metrics_for_batch (config : Config) (batch_number : Z)
    (batch_df : list row) (batch_assessment_results : batch_results_t)
    (ks : list model_key) : result (list metrics_row) :=
  match ks with
  | [] => ok []
  | k :: rest =>
      if negb (enabled config k)
      then metrics_for_batch config batch_number batch_df
             batch_assessment_results rest
      else
        match batch_df with
        | [] => raise IndexError
        | first :: _ =>
            let model_result_for_first_q :=
              default ∅ (batch_assessment_results !! questionid first) !! k in
            (more <- metrics_for_batch config batch_number batch_df
                       batch_assessment_results rest ;;
             ok (match model_result_for_first_q with
                 | Some v => metrics_row_of batch_number k v :: more
                 | None => more
                 end))%result
        end
  end.

(** ** The dashboard (build_and_write_dashboard) *)

(** The prices of one model in the table T_COST, per million tokens. *)
Record price : Type := { INPUT : Q; OUTPUT : Q }.

(** [cost_lookup.get(name, {'INPUT': 0, 'OUTPUT': 0})] *)
Definition model_costs (cost_lookup : gmap string price) (name : string)
    : price :=
  default {| INPUT := 0; OUTPUT := 0 |} (cost_lookup !! name).

(** The cost expression of the per-model loop,
    [(i / 1_000_000) * input + (o / 1_000_000) * output
     + (r / 1_000_000) * output], evaluated in IEEE binary64, the
    arithmetic of Python's [float], for token counts below 2^53. It is
    used to check that the rational idealisation hides no rounding in
    the worked instance of the specification. *)
Definition binary64_total_cost (i o r : Z) (input_rate output_rate : float)
    : float :=
  let tokens z := PrimFloat.of_uint63 (Uint63.of_Z z) in
  PrimFloat.add
    (PrimFloat.add
       (PrimFloat.mul (PrimFloat.div (tokens i) 1000000%float) input_rate)
       (PrimFloat.mul (PrimFloat.div (tokens o) 1000000%float) output_rate))
    (PrimFloat.mul (PrimFloat.div (tokens r) 1000000%float) output_rate).

(** A duration as format_time_hms prints it: hours, minutes, seconds. *)
Record hms : Type := { hours : Z; minutes : Z; secs : Z }.

(** [x % m] for floats, with the sign of [m]. *)
Definition Qmod (x m : Q) : Q := (x - m * inject_Z (Qfloor (x / m)))%Q.

Definition format_time_hms (seconds : Q) : hms :=
  if Qeq_bool seconds 0 then {| hours := 0; minutes := 0; secs := 0 |}
  else
    {| hours := Qfloor (seconds / 3600);
       minutes := Qfloor (Qmod seconds 3600 / 60);
       secs := Qtrunc (Qmod seconds 60) |}.

(** [a / b], which raises when [b] is zero. *)
Definition checked_div (a b : Q) : result Q :=
  if Qeq_bool b 0 then raise ZeroDivisionError else ok (a / b)%Q.

(** [(a / b) if b > 0 else 0], the guard used throughout the dashboard. *)
Definition div_if_positive (a b : Q) : result Q :=
  if Qle_bool b 0 then ok 0%Q else checked_div a b.

(** [int(column.sum())] for a column of token counts: an empty cell is
    skipped, a value that is not a number cannot be added. *)
Fixpoint column_sum (l : list json) : result Z :=
  match l with
  | [] => ok 0
  | JNull :: rest => column_sum rest
  | j :: rest =>
      match py_number j with
      | Some z => (t <- column_sum rest ;; ok (z + t))%result
      | None => raise TypeError
      end
  end.

Definition Qsum (l : list Q) : Q := foldr Qplus 0%Q l.

(** [results_df[results_df['Model'] == display_model_name]]: the
    separator rows have no model and are dropped. *)
Definition model_results_of (display_model_name : string)
    (results_data : list results_row) : list item_row :=
  omap (fun r => match r with
                 | ItemRow x =>
                     if String.eqb (Model x) display_model_name
                     then Some x else None
                 | SeparatorRow => None
                 end) results_data.

(** [pd.notna] on a cell holding a JSON value. *)
Definition notna (j : json) : bool :=
  match j with
  | JNull => false
  | _ => true
  end.

(** [model_results['Change Required?'].notna().sum()] *)
Definition count_notna (model_results : list item_row) : Z :=
  Z.of_nat (length (filter (fun x => notna (Change_Required x) = true)
                      model_results)).

(** [(model_results['Change Required?'] == 1).sum()] *)
Definition count_eq_1 (model_results : list item_row) : Z :=
  Z.of_nat (length (filter (fun x => py_eq_int (Change_Required x) 1 = true)
                      model_results)).

(** One entry of [dashboard_data]. The three averages in seconds are the
    local variables of the loop; the dashboard shows them through
    format_time_hms. *)
Record dashboard_row : Type := {
  d_Model : string;
  Total_API_Calls : Z;
  Successful_API_Calls : Z;
  Total_Items : Q;
  Successful_Items : Q;
  Failed_Items : Q;
  Changes_Recommended : Z;
  Change_Rate : Q;
  total_time_seconds : Q;
  time_per_question_seconds : Q;
  time_per_api_call_seconds : Q;
  Total_Time : hms;
  Time_per_Question : hms;
  Time_per_API_Call : hms;
  Total_Input_Tokens : Z;
  Total_Output_Tokens : Z;
  Total_Reasoning_Tokens : Z;
  Total_Tokens_All : Z;
  System_Prompt_Tokens : Z;
  Total_System_Prompt_Tokens : Z;
  Prompt_Share_of_Input : Q;
  Input_Cost : Q;
  Output_Cost : Q;
  Reasoning_Cost : Q;
  Total_Cost : Q;
  Cost_per_1K_Questions : Q;
  Cost_per_100K_Questions : Q;
  Total_Time_per_100K_Questions : hms
}.

(** The body of the per-model loop. *)
Definition dashboard_entry (config : Config) (cost_lookup : gmap string price)
    (system_prompt_tokens : Z) (metrics_data : list metrics_row)
    (results_data : list results_row) (k : model_key) : result dashboard_row :=
  let full_model_name := model_name_of config k in
  let display_model_name := get_short_model_name full_model_name in
  let model_metrics :=
    filter (fun m => Model_Key m = k) metrics_data in
  let model_results := model_results_of display_model_name results_data in
  let total_api_calls := Z.of_nat (length model_metrics) in
  (total_input_tokens <- column_sum (Input_Tokens <$> model_metrics) ;;
   total_output_tokens <- column_sum (Output_Tokens <$> model_metrics) ;;
   total_reasoning_tokens <- column_sum (Reasoning_Tokens <$> model_metrics) ;;
   let total_prompt_tokens := system_prompt_tokens * total_api_calls in
   prompt_share_of_input <-
     div_if_positive (inject_Z total_prompt_tokens)
       (inject_Z total_input_tokens) ;;
   let costs := model_costs cost_lookup full_model_name in
   let input_cost :=
     (inject_Z total_input_tokens / 1000000 * INPUT costs)%Q in
   let output_cost :=
     (inject_Z total_output_tokens / 1000000 * OUTPUT costs)%Q in
   let reasoning_cost :=
     (inject_Z total_reasoning_tokens / 1000000 * OUTPUT costs)%Q in
   let total_cost := (input_cost + output_cost + reasoning_cost)%Q in
   let successful_items := (inject_Z (count_notna model_results) / 3)%Q in
   let changes_recommended := (inject_Z (count_eq_1 model_results) / 3)%Q in
   let total_time := Qsum (Latency_Seconds <$> model_metrics) in
   let total_questions_processed :=
     inject_Z (total_api_calls * batch_size config) in
   time_per_question <- div_if_positive total_time total_questions_processed ;;
   time_per_api_call <-
     div_if_positive total_time (inject_Z total_api_calls) ;;
   cost_per_question <- div_if_positive total_cost total_questions_processed ;;
   change_rate <- div_if_positive changes_recommended successful_items ;;
   let total_items := (inject_Z (Z.of_nat (length model_results)) / 3)%Q in
   ok {| d_Model := display_model_name;
         Total_API_Calls := total_api_calls;
         Successful_API_Calls :=
           Z.of_nat (length (filter (fun m => Status m = "SUCCESS")
                               model_metrics));
         Total_Items := total_items;
         Successful_Items := successful_items;
         Failed_Items := (total_items - successful_items)%Q;
         Changes_Recommended := Qtrunc changes_recommended;
         Change_Rate := change_rate;
         total_time_seconds := total_time;
         time_per_question_seconds := time_per_question;
         time_per_api_call_seconds := time_per_api_call;
         Total_Time := format_time_hms total_time;
         Time_per_Question := format_time_hms time_per_question;
         Time_per_API_Call := format_time_hms time_per_api_call;
         Total_Input_Tokens := total_input_tokens;
         Total_Output_Tokens := total_output_tokens;
         Total_Reasoning_Tokens := total_reasoning_tokens;
         Total_Tokens_All :=
           total_input_tokens + total_output_tokens + total_reasoning_tokens;
         System_Prompt_Tokens := system_prompt_tokens;
         Total_System_Prompt_Tokens := total_prompt_tokens;
         Prompt_Share_of_Input := prompt_share_of_input;
         Input_Cost := input_cost;
         Output_Cost := output_cost;
         Reasoning_Cost := reasoning_cost;
         Total_Cost := total_cost;
         Cost_per_1K_Questions := (cost_per_question * 1000)%Q;
         Cost_per_100K_Questions := (cost_per_question * 100000)%Q;
         Total_Time_per_100K_Questions :=
           format_time_hms (time_per_question * 100000)%Q |})%result.

(** [metrics_df['Model_Key'].unique()]: the keys in order of first
    appearance. *)
Definition active_models (metrics_data : list metrics_row) : list model_key :=
  remove_dups (Model_Key <$> metrics_data).

Fixpoint dashboard_entries (config : Config) (cost_lookup : gmap string price)
    (system_prompt_tokens : Z) (metrics_data : list metrics_row)
    (results_data : list results_row) (ks : list model_key)
    : result (list dashboard_row) :=
  match ks with
  | [] => ok []
  | k :: rest =>
      (e <- dashboard_entry config cost_lookup system_prompt_tokens
              metrics_data results_data k ;;
       es <- dashboard_entries config cost_lookup system_prompt_tokens
               metrics_data results_data rest ;;
       ok (e :: es))%result
  end.

(** The per-model part of build_and_write_dashboard: [dashboard_data].
    [None] when there is nothing to show or when the [except] clause of
    the function swallowed an exception. The "Total" column, the
    parameter rows and the sheet formatting are not part of the
    embedding. *)
Definition build_and_write_dashboard (config : Config)
    (cost_lookup : gmap string price) (metrics_data : list metrics_row)
    (results_data : list results_row) (system_prompt_text : string)
    : option (list dashboard_row) :=
  match metrics_data with
  | [] => None
  | _ =>
      let system_prompt_tokens :=
        round_half_even (Z.of_nat (String.length system_prompt_text) # 4) in
      let has_model_column :=
        existsb (fun r => match r with ItemRow _ => true | _ => false end)
                results_data in
      if has_model_column then
        match dashboard_entries config cost_lookup system_prompt_tokens
                metrics_data results_data (active_models metrics_data) with
        | inr rows => Some rows
        | inl _ => None
        end
      else None
  end.

(** ** assess_questions *)

(** Step 4: the rows selected by the 1-based sheet rows [start_row] to
    [end_row] (row 1 is the header). *)
Definition select_rows (config : Config) (df_all : list row) : list row :=
  let len := Z.of_nat (length df_all) in
  let start_idx := start_row config - 2 in
  let start_idx := if start_idx <? 0 then 0 else start_idx in
  let end_idx :=
    match end_row config with
    | None => len
    | Some e =>
        let end_idx := e - 1 in
        if len <? end_idx then len else end_idx
    end in
  iloc_slice start_idx end_idx df_all.

(** The three run-scoped accumulators. *)
Record accumulators : Type := {
  all_batch_results : batch_results_t;
  results_data : list results_row;
  api_metrics_data : list metrics_row
}.

(** One turn of the loop over the batches (the pause between batches has
    no effect on the data and is left out). *)
Definition process_batch `{Oracles} (config : Config)
    (thinking_models_lookup : gmap string cell)
    (thinking_values_lookup : gmap string string)
    (df_to_process : list row) (acc : accumulators) (i : Z)
    : M accumulators :=
  let batch := batch_df (batch_size config) df_to_process i in
  (batch_assessment_results <-
     assess_question_batch batch config thinking_models_lookup
       thinking_values_lookup ;;
   rows <- lift (rows_for_batch config batch batch_assessment_results) ;;
   metrics <- lift (metrics_for_batch config (i + 1) batch
                      batch_assessment_results model_keys) ;;
   mret {| all_batch_results :=
             batch_assessment_results ∪ all_batch_results acc;
           results_data := results_data acc ++ rows;
           api_metrics_data := api_metrics_data acc ++ metrics |})%M.

(** What a completed run hands to the result sink. *)
Record run_output : Type := {
  out_results : list results_row;
  out_metrics : list metrics_row;
  out_all_batch_results : batch_results_t;
  out_dashboard : option (list dashboard_row)
}.

(** assess_questions, from the loaded tables to the data written out. An
    exception that reaches the outer handler of the script (the "FATAL
    ERROR" path) is the [inl] result. *)
Definition assess_questions `{Oracles} (config : Config)
    (thinking_models_lookup : gmap string cell)
    (thinking_values_lookup : gmap string string)
    (cost_lookup : gmap string price) (df_all : list row) : M run_output :=
  let df_to_process := select_rows config df_all in
  (n <- lift (total_batches (batch_size config) df_to_process) ;;
   acc <- foldM (process_batch config thinking_models_lookup
                   thinking_values_lookup df_to_process)
            {| all_batch_results := ∅; results_data := [];
               api_metrics_data := [] |}
            (py_range n) ;;
   mret {| out_results := results_data acc;
           out_metrics := api_metrics_data acc;
           out_all_batch_results := all_batch_results acc;
           out_dashboard :=
             build_and_write_dashboard config cost_lookup
               (api_metrics_data acc) (results_data acc)
               (system_prompt config) |})%M.

(** ** get_manual_test_payload *)

(** What get_manual_test_payload writes to cell A1 (before [json.dumps]):
    the request array of the first batch of the configured range. An
    exception, which the script only prints, is the [inl] result. *)
Definition get_manual_test_payload (config : Config)
    (questions_df : list row) : result json :=
  let start_row := start_row config in
  let end_row :=
    match end_row config with
    | Some e => if e =? 0 then Z.of_nat (length questions_df) + 1 else e
    | None => Z.of_nat (length questions_df) + 1
    end in
  let batch_size := batch_size config in
  let batch_end_row := Z.min (start_row + batch_size - 1) end_row in
  let first_batch_df :=
    iloc_slice (start_row - 2) (batch_end_row - 1) questions_df in
  let total_questions := end_row - start_row + 1 in
  (total_batches <-
     (if batch_size =? 0 then raise ZeroDivisionError
      else ok ((total_questions + batch_size - 1) / batch_size)) ;;
   ok (prepare_question_batch_payload first_batch_df))%result.

(** ** _create_judge_json_output *)

(** An element of [answers_list] and an element of [judge_payload]. *)
Record judge_answer : Type := {
  answer_id : string;
  original_answer : string;
  answer_rewrite : json;
  answer_reason : json
}.

Record judge_item : Type := {
  question_id : qid;
  assessing_model : string;
  original_question : string;
  question_rewrite : json;
  question_reason : json;
  judge_answers : list judge_answer
}.

(** [original_questions_df.set_index('questionid').to_dict('index')]:
    pandas refuses an index that is not unique. *)
Definition originals_lookup (original_questions_df : list row)
    : result (gmap qid row) :=
  if bool_decide (NoDup (questionid <$> original_questions_df))
  then ok (list_to_map ((fun r => (questionid r, r))
                        <$> original_questions_df))
  else raise (ValueError "DataFrame index must be unique for orient='index'.").

(** [answer_key in original_data and pd.notna(original_data[answer_key])
    and original_data[answer_key] != ''] *)
Definition answer_present (original_data : row) (i : Z) : bool :=
  match answers original_data !! Z.to_nat (i - 1) with
  | Some (Some text) => negb (String.eqb text "")
  | _ => false
  end.

(** The loop [for i in range(1, 6)] that builds [answers_list]. *)
Fixpoint judge_answers_of (original_data : row) (feedback : json)
    (js : list Z) : result (list judge_answer) :=
  match js with
  | [] => ok []
  | i :: rest =>
      if answer_present original_data i then
        (answer_feedback <- dict_get feedback (answer_key i) (JObj []) ;;
         rewrite <- dict_get answer_feedback "rewrite" (JStr "") ;;
         reason <- dict_get answer_feedback "issue" (JStr "") ;;
         more <- judge_answers_of original_data feedback rest ;;
         ok ({| answer_id := answer_key i;
                original_answer :=
                  _clean_text (default (Some EmptyString)
                                 (answers original_data !! Z.to_nat (i - 1)));
                answer_rewrite := rewrite;
                answer_reason := reason |} :: more))%result
      else judge_answers_of original_data feedback rest
  end.

(** The body of the inner loop: [None] when the assessment is skipped. *)
Definition judge_item_of (q : qid) (original_data : row) (result' : verdict)
    : result (option judge_item) :=
  if py_truthy (verdict_error result') then ok None
  else
    let feedback :=
      default (JObj []) (assoc "feedback" (result_members result')) in
    (answers_list <- judge_answers_of original_data feedback one_to_five ;;
     rewrite <- feedback_cell feedback "question" "rewrite" (JStr "") ;;
     reason <- feedback_cell feedback "question" "issue" (JStr "") ;;
     ok (Some {| question_id := q;
                 assessing_model := info_model_name (info result');
                 original_question := _clean_text (question original_data);
                 question_rewrite := rewrite;
                 question_reason := reason;
                 judge_answers := answers_list |}))%result.

Fixpoint judge_items_of_models (q : qid) (original_data : row)
    (models_assessment : list (model_key * verdict))
    : result (list judge_item) :=
  match models_assessment with
  | [] => ok []
  | (_, result') :: rest =>
      (item <- judge_item_of q original_data result' ;;
       more <- judge_items_of_models q original_data rest ;;
       ok (match item with
           | Some judge_item => judge_item :: more
           | None => more
           end))%result
  end.

Fixpoint judge_items_of_results (originals : gmap qid row)
    (all_results : list (qid * list (model_key * verdict)))
    : result (list judge_item) :=
  match all_results with
  | [] => ok []
  | (q, models_assessment) :: rest =>
      match originals !! q with
      | None => judge_items_of_results originals rest
      | Some original_data =>
          (items <- judge_items_of_models q original_data models_assessment ;;
           more <- judge_items_of_results originals rest ;;
           ok (items ++ more))%result
      end
  end.

(** _create_judge_json_output. The two dicts are taken as the lists
    their [items()] iterate over, in insertion order. *)
Definition _create_judge_json_output
    (all_results : list (qid * list (model_key * verdict)))
    (original_questions_df : list row) : result (list judge_item) :=
  (originals <- originals_lookup original_questions_df ;;
   judge_items_of_results originals all_results)%result.

(** ** Vocabulary of the statements *)

(** The verdict stored for an item and a model, if any. *)
Definition lookup_verdict (results : batch_results_t) (q : qid)
    (k : model_key) : option verdict :=
  results !! q ≫= (.!! k).

(** The three shapes a stored verdict can have: the object parsed for
    the item, a per-item error carrying the (non-empty) message of the
    failed call or parse, and the explicit missing-response error. *)
Inductive verdict_shape : verdict -> Prop :=
  | shape_parsed members i :
      verdict_shape (parsed_verdict members i)
  | shape_item_error msg i :
      msg <> "" -> verdict_shape (error_verdict msg i)
  | shape_missing_response i :
      verdict_shape (error_verdict missing_response i).

(** A result set is structurally complete for a batch: each pair of a
    requested item and an enabled model has one verdict, and no other
    pair has any. *)
Definition complete (config : Config) (batch : list row)
    (results : batch_results_t) : Prop :=
  forall q k,
    if bool_decide (q ∈ questionid <$> batch) && enabled config k
    then exists v, lookup_verdict results q k = Some v /\ verdict_shape v
    else lookup_verdict results q k = None.

(** A member that is a number when it is present. *)
Definition numeric_if_present (kv : list (string * json)) (k : string) : bool :=
  match assoc k kv with
  | Some j => bool_decide (is_Some (py_number j))
  | None => true
  end.

(** The usage object of the wire contract: an object whose optional
    reasoning counts are numbers and whose optional
    [completion_tokens_details] is an object of the same kind. *)
Definition well_formed_usage (usage : json) : bool :=
  match usage with
  | JObj kv =>
      match assoc "completion_tokens_details" kv with
      | Some (JObj details) => numeric_if_present details "reasoning_tokens"
      | Some _ => false
      | None => true
      end
      && numeric_if_present kv "reasoning_tokens"
      && numeric_if_present kv "thinking_tokens"
  | _ => false
  end.

(** A response of the wire contract: when it is not empty it is an
    object whose usage, if present, is well formed, and when the path to
    the message content resolves the content is text. *)
Definition well_formed_response (response : json) : bool :=
  (if py_truthy response then
     match response with
     | JObj kv =>
         match assoc "usage" kv with
         | Some usage => well_formed_usage usage
         | None => true
         end
     | _ => false
     end
   else true)
  && match response_content response with
     | inr (JStr _) => true
     | inr _ => false
     | inl _ => true
     end.

(** Every answer of the gateway follows the wire contract. *)
Definition well_formed_world `{Oracles} : Prop :=
  forall p n, well_formed_response (classify (http_post p n).1).1 = true.

(** No enabled slot has a configuration that makes request construction
    raise. *)
Definition requests_build (config : Config)
    (thinking_models_lookup : gmap string cell)
    (thinking_values_lookup : gmap string string) : Prop :=
  forall k messages,
    enabled config k = true ->
    exists p,
      build_payload (model_name_of config k) messages config
        thinking_models_lookup thinking_values_lookup = ok p.

(** The items recorded by the batch parser are non-empty objects. *)
Definition recorded_objects (results_map : gmap qid json) : Prop :=
  map_Forall (fun _ v => exists kv, v = JObj kv /\ kv <> []) results_map.

(** Slot [k] is enabled and bound to an effort-family model with
    extended reasoning, and the configured effort is not blank and is not
    among the efforts the table lists for that model. *)
Definition invalid_effort_for (config : Config)
    (thinking_models_lookup : gmap string cell)
    (thinking_values_lookup : gmap string string) (k : model_key) : Prop :=
  let model_name := model_name_of config k in
  let user_effort := reasoning_effort_openai config in
  enabled config k = true /\
  is_thinking_model thinking_models_lookup model_name = true /\
  startswith "openai/" model_name = true /\
  user_effort <> "" /\
  py_strip user_effort <> "" /\
  forall legal,
    thinking_values_lookup !! model_name = Some legal ->
    user_effort ∉ py_strip <$> split_on "," legal.

(** Every request a computation adds to the list of sent requests
    satisfies [P]. *)
Definition sends_only {A} (P : payload -> Prop) (m : M A) : Prop :=
  forall sent, Forall P sent -> Forall P (m sent).2.

(** The enabled slots, in loop order. *)
Definition enabled_keys (config : Config) : list model_key :=
  filter (fun k => enabled config k = true) model_keys.

(** The pairs of an item and an enabled slot, in the order the loops of
    assess_questions visit them. *)
Definition item_pairs (config : Config) (items : list row)
    : list (row * model_key) :=
  r ← items; (fun k => (r, k)) <$> enabled_keys config.

(** The name under which a slot appears in the result rows. *)
Definition display_name (config : Config) (k : model_key) : string :=
  get_short_model_name (model_name_of config k).

(** The four rows of one item and one model: "Original", "Rewrite" and
    "Issues", all three for the same model and item and with the same
    change-required value [cr], then the empty separator row. *)
Definition is_block (config : Config) (r : row) (k : model_key) (cr : json)
    (rows : list results_row) : Prop :=
  exists o w i,
    rows = [ItemRow o; ItemRow w; ItemRow i; SeparatorRow] /\
    Item o = "Original" /\ Item w = "Rewrite" /\ Item i = "Issues" /\
    Forall (fun x => Model x = display_name config k /\
                     row_questionid x = questionid r /\
                     Change_Required x = cr) [o; w; i].

(** A result table that consists of one block per listed triple of an
    item, a slot and a change-required value, in order. *)
Inductive laid_out (config : Config)
    : list (row * model_key * json) -> list results_row -> Prop :=
  | laid_out_nil : laid_out config [] []
  | laid_out_cons r k cr block triples rows :
      is_block config r k cr block ->
      laid_out config triples rows ->
      laid_out config ((r, k, cr) :: triples) (block ++ rows).

(** The triples of a given slot that satisfy a test on the
    change-required value. *)
Definition count_triples (k : model_key) (test : json -> bool)
    (triples : list (row * model_key * json)) : Z :=
  Z.of_nat (length (filter (fun t => t.1.2 = k /\ test t.2 = true) triples)).

(** A feedback entry that [feedback.get(k, {}).get(...)] can read: absent,
    or an object. *)
Definition entry_ok (fb : list (string * json)) (k : string) : bool :=
  match assoc k fb with
  | Some (JObj _) => true
  | Some _ => false
  | None => true
  end.

(** A feedback map from which the result rows can be built: an object
    whose entries for the question and the five answers, where present,
    are objects. *)
Definition well_formed_feedback (feedback : json) : bool :=
  match feedback with
  | JObj fb =>
      entry_ok fb "question"
      && forallb (fun j => entry_ok fb (answer_key j)) one_to_five
  | _ => false
  end.

(** [members.get('feedback', {})] is such a map. *)
Definition well_formed_members (members : list (string * json)) : Prop :=
  well_formed_feedback (default (JObj []) (assoc "feedback" members)) = true.

(** Every object of a decoded array has a well-formed feedback map. *)
Definition well_formed_verdicts `{Oracles} : Prop :=
  forall text items,
    json_loads text = Some (JArr items) ->
    Forall (fun item => match item with
                        | JObj members => well_formed_members members
                        | _ => True
                        end) items.

(** The objects recorded by the batch parser have well-formed feedback
    maps, and so have the verdicts of a result set. *)
Definition recorded_well_formed (results_map : gmap qid json) : Prop :=
  map_Forall (fun _ v => match v with
                         | JObj members => well_formed_members members
                         | _ => True
                         end) results_map.

Definition verdicts_well_formed (results : batch_results_t) : Prop :=
  forall q k v,
    lookup_verdict results q k = Some v ->
    well_formed_members (result_members v).

(** *** Vocabulary of the further properties *)

(** A text that does not start with a blank. *)
Definition head_not_space (s : string) : Prop :=
  match s with
  | String a _ => is_space a = false
  | EmptyString => True
  end.

(** The identifier under which the batch parser files an item of the
    decoded array: the hashable ['questionid'] member of an object. *)
Definition item_id (item : json) : option qid :=
  match item with
  | JObj kv =>
      match assoc "questionid" kv with
      | Some v =>
          match hashable v with
          | inr q => Some q
          | inl _ => None
          end
      | None => None
      end
  | _ => None
  end.

(** A feedback entry as parse_llm_response leaves it: an object that
    does not have both a blank issue and a blank rewrite. *)
Definition normalized_entry (entry : json) : Prop :=
  exists kv,
    entry = JObj kv /\
    ~ (blank_member kv "issue" = ok true /\ blank_member kv "rewrite" = ok true).

(** The [model_batch_info] of a call that brought no response: the
    measured latency, all token counts 0, no raw response. *)
Definition empty_batch_info (k : model_key) (full_model_name : string)
    (lat : Q) : model_batch_info :=
  {| info_model_key := k;
     info_model_name := full_model_name;
     latency := lat;
     tokens := {| tok_input := JNum 0; tok_output := JNum 0;
                  tok_reasoning := JNum 0; tok_total := JNum 0 |};
     raw_response := None |}.

(** The two messages of the request for a batch: the system prompt, then
    the JSON of the batch. *)
Definition batch_messages (config : Config) (batch_df : list row)
    : list message :=
  [ {| role := "system"; msg_content := Text (system_prompt config) |};
    {| role := "user";
       msg_content := JsonDump (prepare_question_batch_payload batch_df) |} ].

(** The requests of one batch: one for each of the listed slots, in
    order, each the payload built for that slot's model from the
    messages of the batch. *)
Definition batch_requests (config : Config)
    (thinking_models_lookup : gmap string cell)
    (thinking_values_lookup : gmap string string) (batch_df : list row)
    (ks : list model_key) (ps : list payload) : Prop :=
  Forall2 (fun k p =>
             build_payload (model_name_of config k)
               (batch_messages config batch_df) config
               thinking_models_lookup thinking_values_lookup = ok p)
          ks ps.

(** A request that respects the configuration: it is addressed to the
    model of an enabled slot, carries the three sampling parameters of the
    configuration, and has at most one of the two reasoning members; a
    thinking budget is sent only to a model of the budget family, is never
    0 and, when positive, lies within the bounds of the model; a reasoning
    effort is sent only to a model of the effort family, is the configured
    one, and is among the efforts the table lists for the model. *)
Definition request_within_limits (config : Config)
    (thinking_values_lookup : gmap string string) (p : payload) : Prop :=
  (exists k, enabled config k = true /\ p_model p = model_name_of config k) /\
  p_temperature p = temperature config /\
  p_top_p p = top_p config /\
  p_max_tokens p = max_tokens config /\
  match p_thinking_budget p, p_reasoning_effort p with
  | None, None => True
  | Some budget, None =>
      startswith "google/" (p_model p) = true /\
      budget <> 0 /\
      (0 < budget -> min_val (p_model p) <= budget <= max_val (p_model p))
  | None, Some effort =>
      startswith "openai/" (p_model p) = true /\
      effort = reasoning_effort_openai config /\
      exists legal,
        thinking_values_lookup !! p_model p = Some legal /\
        effort ∈ py_strip <$> split_on "," legal
  | Some _, Some _ => False
  end.

(** The label and the slot of the metrics records of batch number
    [batch_number], one for each of the listed slots. *)
Definition batch_calls (batch_number : Z) (ks : list model_key)
    : list (string * model_key) :=
  (fun k => ("Batch_" +:+ pretty batch_number, k)) <$> ks.

(** The assessments that reach the judge: those of an item of the table
    whose verdict has no error. *)
Definition judged (all_results : list (qid * list (model_key * verdict)))
    (original_questions_df : list row) : list (qid * string) :=
  qm ← all_results;
  if bool_decide (qm.1 ∈ questionid <$> original_questions_df)
  then (fun kv => (qm.1, info_model_name (info kv.2)))
       <$> filter (fun kv => py_truthy (verdict_error kv.2) = false) qm.2
  else [].

(** The answers of a row that are listed for the judge. *)
Definition listed_answers (original_data : row) : list string :=
  answer_key
  <$> filter (fun i => answer_present original_data i = true) one_to_five.

(** An entry of the judge payload that shows an item of the table: its
    identifier, its cleaned question and its listed answers. *)
Definition judge_item_ok (original_questions_df : list row) (j : judge_item)
    : Prop :=
  exists original_data,
    original_data ∈ original_questions_df /\
    questionid original_data = question_id j /\
    original_question j = _clean_text (question original_data) /\
    answer_id <$> judge_answers j = listed_answers original_data.

(** The output of a run that processed nothing. *)
Definition empty_run : run_output :=
  {| out_results := []; out_metrics := []; out_all_batch_results := ∅;
     out_dashboard := None |}.

(** ** Sample inputs *)

(** The inputs used in the worked examples of Part II. *)

Definition sample_models (k : model_key) : string :=
  match k with
  | model_1 => "anthropic/claude-3-5-haiku-20241022"
  | model_2 => "openai/gpt-5-mini"
  | model_3 => "google/gemini-2.5-flash"
  end.

Definition only (k0 : model_key) (k : model_key) : Z :=
  if decide (k = k0) then 1 else 0.

Definition sample_config (tags : model_key -> Z) (size : Z) (budget : cell)
    (effort : string) : Config :=
  {| model_name_of := sample_models;
     model_tag := tags;
     temperature := 3 # 10;
     top_p := 9 # 10;
     max_tokens := 2000;
     batch_size := size;
     start_row := 2;
     end_row := None;
     request_delay_seconds := 0;
     thinking_budget_gemini := budget;
     reasoning_effort_openai := effort;
     system_prompt := "Assess each question against the guidelines." |}.

(** T_COST: both reasoning models are marked, the OpenAI one lists its
    efforts; prices per million tokens. *)
Definition sample_thinking_models : gmap string cell :=
  {[ "openai/gpt-5-mini" := CNum 1; "google/gemini-2.5-flash" := CNum 1 ]}.

Definition sample_thinking_values : gmap string string :=
  {[ "openai/gpt-5-mini" := "minimal, low, medium, high" ]}.

Definition sample_costs : gmap string price :=
  {[ "anthropic/claude-3-5-haiku-20241022" := {| INPUT := 2; OUTPUT := 8 |} ]}.

Definition sample_item (z : Z) : row :=
  {| questionid := QInt z;
     question := Some "What is 2 + 2?";
     questionImage := false;
     totalanswers := 2;
     answers := [Some "3"; Some "4"];
     answerImages := [] |}.

(** A verdict object as the prompt asks for it, with nothing to report. *)
Definition sample_object (z flag : Z) : json :=
  JObj [("questionid", JNum z);
        ("change_required", JNum flag);
        ("feedback",
         JObj [("question", JObj [("issue", JStr ""); ("rewrite", JStr "")])])].

(** A chat-completion body whose message text is [text]. *)
Definition sample_body (text : string) (prompt_tokens completion_tokens : Z)
    : json :=
  JObj [("choices",
         JArr [JObj [("message", JObj [("content", JStr text)])]]);
        ("usage",
         JObj [("prompt_tokens", JNum prompt_tokens);
               ("completion_tokens", JNum completion_tokens);
               ("total_tokens", JNum (prompt_tokens + completion_tokens))])].

(** A world that answers the n-th request with the n-th scripted outcome
    (a timeout once the script is exhausted) and decodes exactly the
    listed texts. *)
Definition scripted (answers : list (http_outcome * Q))
    (decodes : list (string * json)) : Oracles :=
  {| http_post := fun _ n => default (Timeout, 0%Q) (answers !! n);
     json_loads := fun text => assoc text decodes |}.

Definition answer_ok (text : string) (prompt_tokens completion_tokens : Z)
    (lat : Q) : http_outcome * Q :=
  (Response 200 "{}" (Some (sample_body text prompt_tokens completion_tokens)),
   lat).

(** The first two slots enabled, the third disabled. *)
Definition first_two (k : model_key) : Z :=
  match k with
  | model_3 => 0
  | _ => 1
  end.

(** One successful call followed by a timed-out one, ten seconds each. *)
Definition one_call_fails : Oracles :=
  scripted [answer_ok "[v1]" 100 20 10; (Timeout, 10%Q)]
           [("[v1]", JArr [sample_object 1 1])].

(** A metrics table with one call that used 1,000,000 input and 500,000
    output tokens. *)
Definition million_token_call : list metrics_row :=
  [ {| Question_ID := "Batch_1";
       Model_Name := "anthropic/claude-3-5-haiku-20241022";
       Model_Key := model_1;
       Status := "SUCCESS";
       Input_Tokens := JNum 1000000;
       Output_Tokens := JNum 500000;
       Reasoning_Tokens := JNum 0;
       Total_Tokens := JNum 1500000;
       Latency_Seconds := 4;
       Raw_Response := None;
       Error_Message := JStr "" |} ].

(** One call, answered with verdicts for the items 102 and 103 only. *)
Definition two_of_three : Oracles :=
  scripted [answer_ok "[two verdicts]" 100 20 (3 # 2)]
           [("[two verdicts]", JArr [sample_object 102 0; sample_object 103 1])].

(** One call, answered with verdicts for the items 101 and 103 only. *)
Definition first_and_last : Oracles :=
  scripted [answer_ok "[two verdicts]" 100 20 (3 # 2)]
           [("[two verdicts]", JArr [sample_object 101 0; sample_object 103 1])].

(** An object whose flag is 5 and which has no feedback map. *)
Definition misshapen_object : json :=
  JObj [("questionid", JNum 1); ("change_required", JNum 5)].

(** One call, answered with the misshapen object alone; the same object
    is also what the text of a single-item answer decodes to. *)
Definition misshapen_answer : Oracles :=
  scripted [answer_ok "[misshapen]" 100 20 (3 # 2)]
           [("[misshapen]", JArr [misshapen_object]);
            ("{misshapen}", misshapen_object)].

(** One call, answered with a well-shaped verdict whose only feedback
    entry has an empty issue and an empty rewrite. *)
Definition blank_answer : Oracles :=
  scripted [answer_ok "[blank]" 100 20 (3 # 2)]
           [("[blank]", JArr [sample_object 1 0]);
            ("{blank}", sample_object 1 0)].

(** One call, answered with a body whose message content is [null]. *)
Definition null_content_answer : Oracles :=
  scripted
    [(Response 200 "{}"
        (Some (JObj [("choices",
                      JArr [JObj [("message", JObj [("content", JNull)])]])])),
      1%Q)]
    [].

(** Two slots bound to models of two providers with the same short
    name. *)
Definition twin_config : Config :=
  {| model_name_of := fun k =>
       match k with
       | model_1 => "openai/gpt-4o-mini"
       | model_2 => "azure/gpt-4o-mini"
       | model_3 => "google/gemini-2.5-flash"
       end;
     model_tag := first_two;
     temperature := 3 # 10;
     top_p := 9 # 10;
     max_tokens := 2000;
     batch_size := 3;
     start_row := 2;
     end_row := None;
     request_delay_seconds := 0;
     thinking_budget_gemini := CBlank;
     reasoning_effort_openai := "";
     system_prompt := "Assess each question against the guidelines." |}.

(** Two calls, each answered with a verdict for item 1 that recommends a
    change. *)
Definition two_answers : Oracles :=
  scripted [answer_ok "[v1]" 100 20 1; answer_ok "[v1]" 100 20 1]
           [("[v1]", JArr [sample_object 1 1])].

(** Two calls of ten seconds: the first answered with verdicts for the
    items 1 and 2, the second with a verdict for the item 3. *)
Definition partial_last_batch : Oracles :=
  scripted [answer_ok "[v1 v2]" 100 20 10; answer_ok "[v3]" 100 20 10]
           [("[v1 v2]", JArr [sample_object 1 0; sample_object 2 0]);
            ("[v3]", JArr [sample_object 3 0])].

(** *** Further sample inputs *)

(** No slot enabled. *)
Definition all_off (k : model_key) : Z := 0.

(** The request built for the first slot of the sample configuration. *)
Definition sample_request (messages : list message) : payload :=
  {| p_model := "anthropic/claude-3-5-haiku-20241022";
     p_messages := messages;
     p_temperature := 3 # 10;
     p_top_p := 9 # 10;
     p_max_tokens := 2000;
     p_thinking_budget := None;
     p_reasoning_effort := None |}.

(** A world in which every request times out. *)
Definition no_answer : Oracles := scripted [] [].

(** The sheet rows [first] to [last], in batches of [size], for the first
    slot. *)
Definition sample_range (first last size : Z) : Config :=
  {| model_name_of := sample_models;
     model_tag := only model_1;
     temperature := 3 # 10;
     top_p := 9 # 10;
     max_tokens := 2000;
     batch_size := size;
     start_row := first;
     end_row := Some last;
     request_delay_seconds := 0;
     thinking_budget_gemini := CBlank;
     reasoning_effort_openai := "";
     system_prompt := "Assess each question against the guidelines." |}.

(** A parsed verdict and an error verdict of the first slot. *)
Definition sample_info : model_batch_info :=
  empty_batch_info model_1 "anthropic/claude-3-5-haiku-20241022" 1.

Definition sample_assessments : list (qid * list (model_key * verdict)) :=
  [ (QInt 101,
     [(model_1,
       parsed_verdict
         [("questionid", JNum 101); ("change_required", JNum 0);
          ("feedback", JObj [])] sample_info)]);
    (QInt 102, [(model_1, error_verdict "Timeout after 30s" sample_info)]) ].

(* ================================================================== *)
(** * Part II. Properties                                              *)
(* ================================================================== *)

Section BatchingFacts.
Context {A : Type}.
Implicit Types (l : list A) (B : Z).

Lemma iloc_slice_nonneg a b l :
  0 <= a -> a <= b ->
  iloc_slice a b l = take (Z.to_nat (b - a)) (drop (Z.to_nat a) l).
Proof.
  intros Ha Hab. unfold iloc_slice, clamp_index.
  assert (Hb : 0 <= b) by lia.
  destruct (Z.ltb_spec a 0) as [?|_]; [lia|].
  destruct (Z.ltb_spec b 0) as [?|_]; [lia|].
  set (len := Z.of_nat (length l)).
  destruct (Z.le_gt_cases len a) as [Hge|Hlt].
  - rewrite (Z.min_r a len) by lia.
    rewrite (Z.min_r b len) by lia.
    rewrite Z.sub_diag, !drop_ge by (subst len; lia).
    by rewrite !take_nil.
  - rewrite (Z.min_l a len) by lia.
    destruct (Z.le_gt_cases b len) as [Hb'|Hb'].
    + by rewrite (Z.min_l b len) by lia.
    + rewrite (Z.min_r b len) by lia.
      rewrite !take_ge; [done| |]; rewrite length_drop; subst len; lia.
Qed.

Lemma batch_df_take_drop B l (i : nat) :
  0 < B ->
  batch_df B l (Z.of_nat i)
  = take (Z.to_nat B) (drop (i * Z.to_nat B) l).
Proof.
  intros HB. unfold batch_df. rewrite iloc_slice_nonneg by lia.
  f_equal; [f_equal; lia|f_equal; lia].
Qed.

Lemma concat_chunks (b : nat) l (k : nat) :
  concat (map (fun i : nat => take b (drop (i * b) l)) (seq 0 k))
  = take (k * b) l.
Proof.
  induction k as [|k IH]; [done|].
  rewrite seq_S, map_app, concat_app, IH. simpl.
  rewrite app_nil_r, take_take_drop. f_equal. lia.
Qed.

Lemma total_batches_bounds B l q :
  0 < B ->
  q = (Z.of_nat (length l) + B - 1) / B ->
  0 <= q /\ B * (q - 1) < Z.of_nat (length l) <= B * q.
Proof.
  intros HB ->. set (L := Z.of_nat (length l)).
  assert (0 <= L) by (subst L; lia).
  pose proof (Z.mul_div_le (L + B - 1) B HB).
  pose proof (Z.mul_succ_div_gt (L + B - 1) B HB).
  assert (0 <= (L + B - 1) / B) by (apply Z.div_pos; lia).
  lia.
Qed.

Lemma batches_eq B l :
  0 < B ->
  batches B l
  = ok (map (fun i : nat => take (Z.to_nat B) (drop (i * Z.to_nat B) l))
          (seq 0 (Z.to_nat ((Z.of_nat (length l) + B - 1) / B)))).
Proof.
  intros HB. unfold batches, total_batches.
  destruct (Z.eqb_spec B 0) as [?|_]; [lia|]. simpl. f_equal.
  unfold py_range. rewrite map_map. apply map_ext.
  intros i. by apply batch_df_take_drop.
Qed.

(** C2. For a batch size [B > 0] the orchestrator visits exactly
    ceil(L / B) batches; they are the consecutive slices of [B] items of
    the selected range, in order, so that their concatenation is the
    range itself (no gap, no overlap, order kept) and their sizes sum to
    L; every batch is non-empty and at most [B] long, and every batch
    but the last has exactly [B] items. *)
Theorem batches_partition B (df_to_process : list A) :
  0 < B ->
  exists bs,
    batches B df_to_process = ok bs /\
    B * (Z.of_nat (length bs) - 1) < Z.of_nat (length df_to_process)
      <= B * Z.of_nat (length bs) /\
    concat bs = df_to_process /\
    sum_list (length <$> bs) = length df_to_process /\
    forall (i : nat) b, bs !! i = Some b ->
      b = take (Z.to_nat B) (drop (i * Z.to_nat B) df_to_process) /\
      (0 < length b <= Z.to_nat B)%nat /\
      (S i < length bs -> length b = Z.to_nat B)%nat.
Proof.
  intros HB. rewrite batches_eq by done.
  set (q := (Z.of_nat (length df_to_process) + B - 1) / B).
  destruct (total_batches_bounds B df_to_process q HB eq_refl)
    as (Hq & Hlo & Hhi).
  eexists; split; [reflexivity|].
  rewrite length_map, length_seq, Z2Nat.id by done.
  assert (Hcat : concat
    (map (fun i : nat => take (Z.to_nat B) (drop (i * Z.to_nat B) df_to_process))
       (seq 0 (Z.to_nat q))) = df_to_process).
  { rewrite concat_chunks. apply take_ge. nia. }
  split; [lia|]. split; [done|]. split.
  { rewrite <- length_concat. by rewrite Hcat. }
  intros i b Hi.
  change (map ?f ?l) with (f <$> l) in Hi.
  apply list_lookup_fmap_Some in Hi as (j & -> & Hj).
  apply lookup_seq in Hj as [-> Hlt]. simpl in *.
  split; [done|]. rewrite length_take, length_drop. split; [nia|].
  intros Hnext. nia.
Qed.
End BatchingFacts.

(** A run of the partition theorem on three items in batches of two. *)
Lemma batches_partition_witness :
  0 < 2 /\
  exists bs,
    batches 2 [10; 20; 30] = ok bs /\
    2 * (Z.of_nat (length bs) - 1) < 3 <= 2 * Z.of_nat (length bs) /\
    concat bs = [10; 20; 30] /\
    sum_list (length <$> bs) = 3%nat /\
    forall (i : nat) b, bs !! i = Some b ->
      b = take (Z.to_nat 2) (drop (i * Z.to_nat 2) [10; 20; 30]) /\
      (0 < length b <= Z.to_nat 2)%nat /\
      (S i < length bs -> length b = Z.to_nat 2)%nat.
Proof. split; [lia | apply (batches_partition 2 [10; 20; 30]); lia]. Defined.


(** ** Request construction *)

Section RequestFacts.
Context (messages : list message) (config : Config).
Context (thinking_models_lookup : gmap string cell).
Context (thinking_values_lookup : gmap string string).

Lemma min_val_le_max_val model_name :
  0 < min_val model_name <= max_val model_name.
Proof. unfold min_val, max_val. destruct (is_pro model_name); lia. Qed.

Lemma build_payload_google model_name :
  is_thinking_model thinking_models_lookup model_name = true ->
  startswith "google/" model_name = true ->
  build_payload model_name messages config thinking_models_lookup
    thinking_values_lookup
  = rbind (gemini_thinking_budget model_name (thinking_budget_gemini config))
      (fun budget =>
         ok {| p_model := model_name; p_messages := messages;
               p_temperature := temperature config; p_top_p := top_p config;
               p_max_tokens := max_tokens config;
               p_thinking_budget := budget; p_reasoning_effort := None |}).
Proof. intros Ht Hg. unfold build_payload. by rewrite Ht, Hg. Qed.

(** C4, as the code has it. For a Gemini model with extended reasoning: a
    blank budget leaves the parameter out; a positive budget below the
    minimum of the model's variant is raised to it; a budget above the
    maximum is capped; a positive budget inside the range is sent as it
    is; a budget of zero leaves the parameter out; a negative budget is
    not clamped and is sent unchanged. *)
Theorem gemini_budget_clamping model_name :
  is_thinking_model thinking_models_lookup model_name = true ->
  startswith "google/" model_name = true ->
  (cell_is_blank (thinking_budget_gemini config) = true ->
   exists p,
     build_payload model_name messages config thinking_models_lookup
       thinking_values_lookup = ok p /\
     p_thinking_budget p = None /\ p_reasoning_effort p = None) /\
  (forall b,
     cell_is_blank (thinking_budget_gemini config) = false ->
     int_of_cell (thinking_budget_gemini config) = ok b ->
     exists p,
       build_payload model_name messages config thinking_models_lookup
         thinking_values_lookup = ok p /\
       p_reasoning_effort p = None /\
       (0 < b < min_val model_name ->
        p_thinking_budget p = Some (min_val model_name)) /\
       (max_val model_name < b ->
        p_thinking_budget p = Some (max_val model_name)) /\
       (min_val model_name <= b <= max_val model_name ->
        p_thinking_budget p = Some b) /\
       (b = 0 -> p_thinking_budget p = None) /\
       (b < 0 -> p_thinking_budget p = Some b)).
Proof.
  intros Ht Hg. rewrite build_payload_google by done.
  unfold gemini_thinking_budget.
  pose proof (min_val_le_max_val model_name) as Hmm.
  split.
  - intros ->. simpl. eauto.
  - intros b -> ->. simpl. eexists; split; [reflexivity|]. simpl.
    split; [done|].
    destruct (Z.ltb_spec 0 b) as [Hpos|Hnpos].
    + destruct (Z.ltb_spec b (min_val model_name)) as [Hlo|Hlo].
      * destruct (Z.eqb_spec (min_val model_name) 0) as [?|_]; [lia|].
        repeat split; intros; first [done | lia].
      * destruct (Z.ltb_spec (max_val model_name) b) as [Hhi|Hhi].
        -- destruct (Z.eqb_spec (max_val model_name) 0) as [?|_]; [lia|].
           repeat split; intros; first [done | lia].
        -- destruct (Z.eqb_spec b 0) as [?|_]; [lia|].
           repeat split; intros; first [done | lia].
    + destruct (Z.eqb_spec b 0) as [->|Hne].
      * repeat split; intros; first [done | lia].
      * repeat split; intros; first [done | lia].
Qed.
End RequestFacts.

(** ** The dashboard arithmetic *)

Lemma div_if_positive_spec (a b : Q) :
  exists q, div_if_positive a b = ok q /\
    ((0 < b)%Q -> q = (a / b)%Q) /\
    ((b <= 0)%Q -> q = 0%Q).
Proof.
  unfold div_if_positive, checked_div.
  destruct (Qle_bool b 0) eqn:Hle.
  - apply Qle_bool_iff in Hle. exists 0%Q. split; [done|].
    split; [|done]. intros Hlt. exfalso.
    apply (Qlt_irrefl 0). eapply Qlt_le_trans; eauto.
  - assert (Hpos : (0 < b)%Q).
    { apply Qnot_le_lt. intros H. apply Qle_bool_iff in H. congruence. }
    destruct (Qeq_bool b 0) eqn:Heq.
    + apply Qeq_bool_iff in Heq. rewrite Heq in Hpos.
      by apply Qlt_irrefl in Hpos.
    + exists (a / b)%Q. split; [done|]. split; [done|].
      intros Hle'. exfalso.
      apply (Qlt_irrefl 0). eapply Qlt_le_trans; eauto.
Qed.

Lemma div_if_positive_never_raises (a b : Q) e :
  div_if_positive a b <> raise e.
Proof.
  destruct (div_if_positive_spec a b) as (q & -> & _). discriminate.
Qed.

Section DashboardFacts.
Context (config : Config) (cost_lookup : gmap string price).
Context (system_prompt_tokens : Z).
Context (metrics_data : list metrics_row) (results_data : list results_row).
Context (k : model_key).

Let full_model_name := model_name_of config k.
Let model_metrics := filter (fun m => Model_Key m = k) metrics_data.
Let model_results :=
  model_results_of (get_short_model_name full_model_name) results_data.
Let total_api_calls := Z.of_nat (length model_metrics).
Let total_time := Qsum (Latency_Seconds <$> model_metrics).
Let successful_items := (inject_Z (count_notna model_results) / 3)%Q.
Let changes_recommended := (inject_Z (count_eq_1 model_results) / 3)%Q.

(** Every field of a dashboard entry, given the three token sums. *)
Lemma dashboard_entry_fields i o r :
  column_sum (Input_Tokens <$> model_metrics) = ok i ->
  column_sum (Output_Tokens <$> model_metrics) = ok o ->
  column_sum (Reasoning_Tokens <$> model_metrics) = ok r ->
  exists e,
    dashboard_entry config cost_lookup system_prompt_tokens metrics_data
      results_data k = ok e /\
    Total_API_Calls e = total_api_calls /\
    Total_Input_Tokens e = i /\ Total_Output_Tokens e = o /\
    Total_Reasoning_Tokens e = r /\
    Input_Cost e
      = (inject_Z i / 1000000 * INPUT (model_costs cost_lookup full_model_name))%Q /\
    Output_Cost e
      = (inject_Z o / 1000000 * OUTPUT (model_costs cost_lookup full_model_name))%Q /\
    Reasoning_Cost e
      = (inject_Z r / 1000000 * OUTPUT (model_costs cost_lookup full_model_name))%Q /\
    Total_Cost e = (Input_Cost e + Output_Cost e + Reasoning_Cost e)%Q /\
    total_time_seconds e = total_time /\
    div_if_positive total_time (inject_Z (total_api_calls * batch_size config))
      = ok (time_per_question_seconds e) /\
    div_if_positive total_time (inject_Z total_api_calls)
      = ok (time_per_api_call_seconds e) /\
    div_if_positive changes_recommended successful_items
      = ok (Change_Rate e) /\
    Total_Items e = (inject_Z (Z.of_nat (length model_results)) / 3)%Q /\
    Successful_Items e = successful_items /\
    Changes_Recommended e = Qtrunc changes_recommended.
Proof.
  intros Hi Ho Hr. unfold dashboard_entry.
  fold full_model_name. fold model_metrics. fold model_results.
  rewrite Hi, Ho, Hr. simpl.
  destruct (div_if_positive_spec
              (inject_Z (system_prompt_tokens * total_api_calls)) (inject_Z i))
    as (q1 & E1 & _).
  fold total_api_calls. rewrite E1. simpl.
  fold total_time.
  destruct (div_if_positive_spec total_time
              (inject_Z (total_api_calls * batch_size config)))
    as (q2 & E2 & _).
  rewrite E2. simpl.
  destruct (div_if_positive_spec total_time (inject_Z total_api_calls))
    as (q3 & E3 & _).
  rewrite E3. simpl.
  match goal with
  | |- context [rbind (div_if_positive ?a ?b) _] =>
      destruct (div_if_positive_spec a b) as (q4 & E4 & _); rewrite E4
  end. simpl.
  fold successful_items. fold changes_recommended.
  destruct (div_if_positive_spec changes_recommended successful_items)
    as (q5 & E5 & _).
  rewrite E5. simpl.
  eexists. split; [reflexivity|]. simpl. repeat split; done.
Qed.
End DashboardFacts.

(** C8. For a model slot whose three token columns sum to [i], [o] and
    [r], the dashboard entry exists and its total cost is
    [i / 1,000,000 * input rate + o / 1,000,000 * output rate
     + r / 1,000,000 * output rate]: reasoning tokens are billed at the
    output rate. The instance of the specification (1,000,000 input and
    500,000 output tokens at rates 2 and 8 cost 6) is worked out below. *)
Theorem total_cost_formula (config : Config) (cost_lookup : gmap string price)
    (system_prompt_tokens : Z) (metrics_data : list metrics_row)
    (results_data : list results_row) (k : model_key) (i o r : Z) :
  let model_metrics := filter (fun m => Model_Key m = k) metrics_data in
  let rates := model_costs cost_lookup (model_name_of config k) in
  column_sum (Input_Tokens <$> model_metrics) = ok i ->
  column_sum (Output_Tokens <$> model_metrics) = ok o ->
  column_sum (Reasoning_Tokens <$> model_metrics) = ok r ->
  exists e,
    dashboard_entry config cost_lookup system_prompt_tokens metrics_data
      results_data k = ok e /\
    Reasoning_Cost e = (inject_Z r / 1000000 * OUTPUT rates)%Q /\
    Total_Cost e
    = (inject_Z i / 1000000 * INPUT rates
       + inject_Z o / 1000000 * OUTPUT rates
       + inject_Z r / 1000000 * OUTPUT rates)%Q.
Proof.
  intros model_metrics rates Hi Ho Hr.
  destruct (dashboard_entry_fields config cost_lookup system_prompt_tokens
              metrics_data results_data k i o r Hi Ho Hr)
    as (e & He & _ & _ & _ & _ & Hic & Hoc & Hrc & Htc & _).
  exists e. split; [done|]. split; [done|].
  by rewrite Htc, Hic, Hoc, Hrc.
Qed.

(** The time per question of a slot, as the code computes it: the total
    latency divided by the number of calls times the configured batch
    size, the slot's [total_questions_processed], and zero when that
    product is not positive. The divisor counts every batch as a full
    one. *)
Lemma time_per_question_counts_full_batches (config : Config)
    (cost_lookup : gmap string price) (system_prompt_tokens : Z)
    (metrics_data : list metrics_row) (results_data : list results_row)
    (k : model_key) (i o r : Z) :
  let model_metrics := filter (fun m => Model_Key m = k) metrics_data in
  let calls := Z.of_nat (length model_metrics) in
  let total := Qsum (Latency_Seconds <$> model_metrics) in
  column_sum (Input_Tokens <$> model_metrics) = ok i ->
  column_sum (Output_Tokens <$> model_metrics) = ok o ->
  column_sum (Reasoning_Tokens <$> model_metrics) = ok r ->
  exists e,
    dashboard_entry config cost_lookup system_prompt_tokens metrics_data
      results_data k = ok e /\
    (0 < calls * batch_size config ->
     time_per_question_seconds e
     = (total / inject_Z (calls * batch_size config))%Q) /\
    (calls * batch_size config <= 0 -> time_per_question_seconds e = 0%Q).
Proof.
  intros model_metrics calls total Hi Ho Hr.
  destruct (dashboard_entry_fields config cost_lookup system_prompt_tokens
              metrics_data results_data k i o r Hi Ho Hr)
    as (e & He & _ & _ & _ & _ & _ & _ & _ & _ & _ & Hq & _).
  fold model_metrics in Hq. fold calls in Hq. fold total in Hq.
  exists e. split; [done|].
  destruct (div_if_positive_spec total (inject_Z (calls * batch_size config)))
    as (q2 & E2 & P2 & Z2).
  rewrite E2 in Hq. injection Hq as <-.
  split.
  - intros Hpos. apply P2. change 0%Q with (inject_Z 0). by rewrite <- Zlt_Qlt.
  - intros Hle. apply Z2. change 0%Q with (inject_Z 0). by rewrite <- Zle_Qle.
Qed.

(** C9, as the code has it. The entry of a model slot always exists (no
    division by zero is reached). Its time per API call is the total
    latency divided by the number of calls of the slot, successful or
    not, and zero when there is none; its change rate is the changes
    recommended divided by the successful items, and zero when there is
    no successful item. *)
Theorem time_averages_and_change_rate (config : Config)
    (cost_lookup : gmap string price) (system_prompt_tokens : Z)
    (metrics_data : list metrics_row) (results_data : list results_row)
    (k : model_key) (i o r : Z) :
  let model_metrics := filter (fun m => Model_Key m = k) metrics_data in
  let model_results :=
    model_results_of (get_short_model_name (model_name_of config k))
      results_data in
  let calls := Z.of_nat (length model_metrics) in
  let total := Qsum (Latency_Seconds <$> model_metrics) in
  let successful_items := (inject_Z (count_notna model_results) / 3)%Q in
  let changes_recommended := (inject_Z (count_eq_1 model_results) / 3)%Q in
  column_sum (Input_Tokens <$> model_metrics) = ok i ->
  column_sum (Output_Tokens <$> model_metrics) = ok o ->
  column_sum (Reasoning_Tokens <$> model_metrics) = ok r ->
  exists e,
    dashboard_entry config cost_lookup system_prompt_tokens metrics_data
      results_data k = ok e /\
    total_time_seconds e = total /\
    (0 < calls -> time_per_api_call_seconds e = (total / inject_Z calls)%Q) /\
    (calls = 0 -> time_per_api_call_seconds e = 0%Q) /\
    (0 < count_notna model_results ->
     Change_Rate e = (changes_recommended / successful_items)%Q) /\
    (count_notna model_results = 0 -> Change_Rate e = 0%Q).
Proof.
  intros model_metrics model_results calls total successful_items
    changes_recommended Hi Ho Hr.
  destruct (dashboard_entry_fields config cost_lookup system_prompt_tokens
              metrics_data results_data k i o r Hi Ho Hr)
    as (e & He & _ & _ & _ & _ & _ & _ & _ & _ & Htot & _ & Hc & Hrate & _).
  fold model_metrics in Hc, Htot. fold model_results in Hrate.
  fold calls in Hc. fold total in Hc, Htot.
  fold successful_items changes_recommended in Hrate.
  exists e. split; [done|]. split; [done|].
  destruct (div_if_positive_spec total (inject_Z calls)) as (q1 & E1 & P1 & Z1).
  destruct (div_if_positive_spec changes_recommended successful_items)
    as (q3 & E3 & P3 & Z3).
  rewrite E1 in Hc. rewrite E3 in Hrate.
  injection Hc as <-. injection Hrate as <-.
  assert (Hinj : forall z, 0 < z -> (0 < inject_Z z)%Q).
  { intros z Hz. change 0%Q with (inject_Z 0). by rewrite <- Zlt_Qlt. }
  assert (Hinj' : forall z, z <= 0 -> (inject_Z z <= 0)%Q).
  { intros z Hz. change 0%Q with (inject_Z 0). by rewrite <- Zle_Qle. }
  assert (Hthird : forall z, 0 < z -> (0 < inject_Z z / 3)%Q).
  { intros z Hz. apply Qlt_shift_div_l; [done|]. rewrite Qmult_0_l. by apply Hinj. }
  repeat split.
  - intros H. apply P1. by apply Hinj.
  - intros H. apply Z1. apply Hinj'. lia.
  - intros H. apply P3. by apply Hthird.
  - intros H. apply Z3. unfold successful_items. rewrite H. done.
Qed.

(** *** Worked instances *)

(** A budget of 100 for a non-pro Gemini model is sent as 512. *)
Lemma gemini_budget_clamping_witness :
  exists p,
    build_payload "google/gemini-2.5-flash" []
      (sample_config (only model_3) 5 (CNum 100) "")
      sample_thinking_models sample_thinking_values = ok p /\
    p_thinking_budget p = Some 512.
Proof.
  destruct (gemini_budget_clamping []
              (sample_config (only model_3) 5 (CNum 100) "")
              sample_thinking_models sample_thinking_values
              "google/gemini-2.5-flash" eq_refl eq_refl) as [_ H].
  destruct (H 100 eq_refl eq_refl) as (p & Hp & _ & Hlow & _).
  exists p. split; [exact Hp|]. apply Hlow. vm_compute. split; reflexivity.
Defined.

(** A budget of -1 lies below the minimum of 512 and is nevertheless
    sent as -1, not as 512. *)
Lemma gemini_negative_budget_not_raised :
  exists p,
    build_payload "google/gemini-2.5-flash" []
      (sample_config (only model_3) 5 (CNum (-1)) "")
      sample_thinking_models sample_thinking_values = ok p /\
    int_of_cell (CNum (-1)) = ok (-1) /\
    -1 < min_val "google/gemini-2.5-flash" /\
    p_thinking_budget p = Some (-1) /\
    p_thinking_budget p <> Some (min_val "google/gemini-2.5-flash").
Proof.
  eexists. split; [vm_compute; reflexivity|].
  split; [reflexivity|]. split; [reflexivity|]. split; [reflexivity|].
  vm_compute. discriminate.
Qed.

(** 1,000,000 input tokens and 500,000 output tokens at the rates 2 and 8
    per million cost 6. *)
Lemma total_cost_formula_witness :
  exists e,
    dashboard_entry (sample_config (only model_1) 5 CBlank "") sample_costs 11
      million_token_call [] model_1 = ok e /\
    (Total_Cost e == 6)%Q.
Proof.
  destruct (total_cost_formula (sample_config (only model_1) 5 CBlank "")
              sample_costs 11 million_token_call [] model_1
              1000000 500000 0 eq_refl eq_refl eq_refl)
    as (e & He & _ & Hc).
  exists e. split; [exact He|]. rewrite Hc. vm_compute. reflexivity.
Defined.

(** The same instance in binary64 arithmetic: the result is exactly 6.0. *)
Remark total_cost_example_binary64 :
  binary64_total_cost 1000000 500000 0 2%float 8%float = 6%float.
Proof. vm_compute. reflexivity. Qed.

(** Two calls of ten seconds, one of them failed: the time per API call
    is ten seconds, the total divided by the two calls, and not the
    twenty seconds that the successful call alone would give. *)
Lemma averages_divide_by_all_calls :
  exists out sent e,
    @assess_questions one_call_fails (sample_config (only model_1) 1 CBlank "")
      sample_thinking_models sample_thinking_values sample_costs
      [sample_item 1; sample_item 2] [] = (inr out, sent) /\
    out_dashboard out = Some [e] /\
    Total_API_Calls e = 2 /\
    Successful_API_Calls e = 1 /\
    (total_time_seconds e == 20)%Q /\
    (time_per_api_call_seconds e == 10)%Q /\
    ~ (time_per_api_call_seconds e
       == total_time_seconds e / inject_Z (Successful_API_Calls e))%Q.
Proof.
  eexists _, _, _. split; [vm_compute; reflexivity|].
  split; [reflexivity|].
  repeat split; try (vm_compute; reflexivity);
    vm_compute; intros H; discriminate H.
Qed.

(** The time per API call and the change rate of a slot with one call
    of four seconds and no result row. *)
Lemma time_averages_and_change_rate_witness :
  exists e,
    dashboard_entry (sample_config (only model_1) 5 CBlank "") sample_costs 11
      million_token_call [] model_1 = ok e /\
    time_per_api_call_seconds e = (4 / 1)%Q /\
    Change_Rate e = 0%Q.
Proof.
  destruct (time_averages_and_change_rate
              (sample_config (only model_1) 5 CBlank "")
              sample_costs 11 million_token_call [] model_1
              1000000 500000 0 eq_refl eq_refl eq_refl)
    as (e & He & _ & Hc & _ & _ & Hz).
  exists e. split; [exact He|].
  split; [exact (Hc eq_refl)|].
  exact (Hz eq_refl).
Defined.

(** Three items in batches of two, both calls answered after ten
    seconds: the last batch holds one item, the dashboard counts two
    calls and three items, and its time per question is five seconds,
    the twenty seconds divided by two calls times the batch size, where
    the description of the metric (Total Time / Total Items) gives twenty
    thirds. *)
Lemma partial_batch_time_per_question :
  exists out sent e,
    @assess_questions partial_last_batch
      (sample_config (only model_1) 2 CBlank "")
      sample_thinking_models sample_thinking_values sample_costs
      [sample_item 1; sample_item 2; sample_item 3] [] = (inr out, sent) /\
    length sent = 2%nat /\
    out_dashboard out = Some [e] /\
    Total_API_Calls e = 2 /\
    Successful_API_Calls e = 2 /\
    (Total_Items e == 3)%Q /\
    (Successful_Items e == 3)%Q /\
    (total_time_seconds e == 20)%Q /\
    (time_per_question_seconds e == 5)%Q /\
    ~ (time_per_question_seconds e
       == total_time_seconds e / Total_Items e)%Q.
Proof.
  eexists _, _, _. split; [vm_compute; reflexivity|].
  split; [reflexivity|]. split; [reflexivity|].
  repeat split; try (vm_compute; reflexivity);
    vm_compute; intros H; discriminate H.
Qed.

(** ** Parsing and reconciliation on concrete answers *)

(** C7, at the input where the code departs from it. A batch of the
    items 101, 102, 103 is answered with verdicts for 102 and 103. The
    reconciler produces two normal verdicts and one missing-response
    verdict, as claimed; the metrics record of the call, read off the
    verdict of the first item, carries ERROR instead of SUCCESS. *)
Lemma missing_first_item_marks_call_error :
  exists out sent v1 v2 v3 m,
    @assess_questions two_of_three (sample_config (only model_1) 3 CBlank "")
      sample_thinking_models sample_thinking_values sample_costs
      [sample_item 101; sample_item 102; sample_item 103] []
    = (inr out, sent) /\
    length sent = 1%nat /\
    out_all_batch_results out !! QInt 101 ≫= (.!! model_1) = Some v1 /\
    out_all_batch_results out !! QInt 102 ≫= (.!! model_1) = Some v2 /\
    out_all_batch_results out !! QInt 103 ≫= (.!! model_1) = Some v3 /\
    verdict_error v1 = JStr missing_response /\
    verdict_error v2 = JNull /\
    verdict_error v3 = JNull /\
    out_metrics out = [m] /\
    Status m = "ERROR" /\
    Error_Message m = JStr missing_response.
Proof.
  eexists _, _, _, _, _, _. split; [vm_compute; reflexivity|].
  repeat split; vm_compute; reflexivity.
Qed.

(** The same batch answered with verdicts for 101 and 103: the item in
    the middle is the missing one and the call is recorded as SUCCESS. *)
Lemma missing_later_item_keeps_success :
  exists out sent v1 v2 v3 m,
    @assess_questions first_and_last (sample_config (only model_1) 3 CBlank "")
      sample_thinking_models sample_thinking_values sample_costs
      [sample_item 101; sample_item 102; sample_item 103] []
    = (inr out, sent) /\
    out_all_batch_results out !! QInt 101 ≫= (.!! model_1) = Some v1 /\
    out_all_batch_results out !! QInt 102 ≫= (.!! model_1) = Some v2 /\
    out_all_batch_results out !! QInt 103 ≫= (.!! model_1) = Some v3 /\
    verdict_error v1 = JNull /\
    verdict_error v2 = JStr missing_response /\
    verdict_error v3 = JNull /\
    out_metrics out = [m] /\
    Status m = "SUCCESS".
Proof.
  eexists _, _, _, _, _, _. split; [vm_compute; reflexivity|].
  repeat split; vm_compute; reflexivity.
Qed.

(** C5, at the input where the code departs from it. The array of a batch
    answer holds one object whose flag is 5 and which has no feedback
    map. parse_llm_batch_response reports no error and returns the
    object under its identifier; the item gets a normal verdict carrying
    the flag 5. parse_llm_response, given the same object as a
    single-item answer, rejects it. *)
Lemma batch_parser_accepts_misshapen_object :
  exists results sent v,
    @parse_llm_batch_response misshapen_answer
      (sample_body "[misshapen]" 100 20) [sample_item 1]
    = ok ({[ QInt 1 := misshapen_object ]}, None) /\
    @assess_question_batch misshapen_answer [sample_item 1]
      (sample_config (only model_1) 3 CBlank "")
      sample_thinking_models sample_thinking_values []
    = (inr results, sent) /\
    results !! QInt 1 ≫= (.!! model_1) = Some v /\
    verdict_error v = JNull /\
    verdict_member v "change_required" = JNum 5 /\
    @parse_llm_response misshapen_answer (sample_body "{misshapen}" 100 20)
    = ok None.
Proof.
  eexists _, _, _. split; [vm_compute; reflexivity|].
  split; [vm_compute; reflexivity|].
  repeat split; vm_compute; reflexivity.
Qed.

(** C6, at the input where the code departs from it. The answer is a
    well-shaped verdict whose feedback entry for the question has an
    empty issue and an empty rewrite. The verdict kept for the item
    still has the empty issue, and the "Issues" row written for it shows
    an empty question cell. parse_llm_response, given the same object as
    a single-item answer, sets the issue to "No changes needed." *)
Lemma batch_parser_leaves_blank_feedback :
  exists out sent v original rewrite issues,
    @assess_questions blank_answer (sample_config (only model_1) 3 CBlank "")
      sample_thinking_models sample_thinking_values sample_costs
      [sample_item 1] []
    = (inr out, sent) /\
    out_all_batch_results out !! QInt 1 ≫= (.!! model_1) = Some v /\
    verdict_error v = JNull /\
    feedback_cell (verdict_member v "feedback") "question" "issue" JNull
    = ok (JStr "") /\
    out_results out
    = [ItemRow original; ItemRow rewrite; ItemRow issues; SeparatorRow] /\
    Item issues = "Issues" /\
    Question issues = JStr "" /\
    exists parsed,
      @parse_llm_response blank_answer (sample_body "{blank}" 100 20)
      = ok (Some parsed) /\
      feedback_cell (default JNull (match parsed with
                                    | JObj members => assoc "feedback" members
                                    | _ => None
                                    end)) "question" "issue" JNull
      = ok (JStr "No changes needed.").
Proof.
  eexists _, _, _, _, _, _. split; [vm_compute; reflexivity|].
  split; [vm_compute; reflexivity|].
  split; [vm_compute; reflexivity|].
  split; [vm_compute; reflexivity|].
  split; [vm_compute; reflexivity|].
  split; [vm_compute; reflexivity|].
  split; [vm_compute; reflexivity|].
  eexists. split; vm_compute; reflexivity.
Qed.

(** ** Computations in [M] *)

Lemma mbind_inr {A B} (m : M A) (f : A -> M B) sent b sent' :
  mbind m f sent = (inr b, sent') ->
  exists a s1, m sent = (inr a, s1) /\ f a s1 = (inr b, sent').
Proof.
  unfold mbind. destruct (m sent) as [[e|a] s1]; [discriminate|]. eauto.
Qed.

Lemma lift_inr {A} (r : result A) sent a sent' :
  lift r sent = (inr a, sent') -> r = inr a /\ sent' = sent.
Proof. unfold lift. intros [= -> ->]. done. Qed.

Lemma mret_inr {A} (x : A) sent a sent' :
  mret x sent = (inr a, sent') -> a = x /\ sent' = sent.
Proof. unfold mret, ok. intros [= -> ->]. done. Qed.

Lemma mbind_ok {A B} (m : M A) (f : A -> M B) sent a s1 :
  m sent = (ok a, s1) -> mbind m f sent = f a s1.
Proof. unfold mbind. by intros ->. Qed.

Lemma mbind_lift_ok {A B} (a : A) (f : A -> M B) sent :
  mbind (lift (ok a)) f sent = f a sent.
Proof. done. Qed.

Lemma rbind_ok {A B} (r : result A) (f : A -> result B) b :
  rbind r f = ok b -> exists a, r = ok a /\ f a = ok b.
Proof. destruct r as [e|a]; [discriminate|]. simpl. eauto. Qed.

(** ** Verdict bookkeeping *)

Section VerdictFacts.
Implicit Types (results : batch_results_t) (batch : list row).

Lemma lookup_verdict_empty q k : lookup_verdict ∅ q k = None.
Proof. unfold lookup_verdict. by rewrite lookup_empty. Qed.

Lemma lookup_verdict_set results q k v q' k' :
  lookup_verdict (set_verdict results q k v) q' k'
  = if decide (q' = q /\ k' = k) then Some v else lookup_verdict results q' k'.
Proof.
  unfold lookup_verdict, set_verdict.
  destruct (decide (q = q')) as [->|Hq].
  - rewrite lookup_insert_eq. simpl.
    destruct (decide (k = k')) as [->|Hk].
    + rewrite lookup_insert_eq. by rewrite decide_True.
    + rewrite lookup_insert_ne by done.
      rewrite decide_False by (intros [_ ->]; done).
      by destruct (results !! q').
  - rewrite lookup_insert_ne by done.
    by rewrite decide_False by (intros [-> _]; done).
Qed.

Lemma lookup_verdict_fail_batch batch k error i results q' k' :
  lookup_verdict (fail_batch batch k error i results) q' k'
  = if decide (q' ∈ questionid <$> batch /\ k' = k)
    then Some (error_verdict error i)
    else lookup_verdict results q' k'.
Proof.
  unfold fail_batch. revert results.
  induction batch as [|r rest IH]; intros results; cbn [foldl].
  - rewrite decide_False; [done|]. intros [Hin _]. by apply elem_of_nil in Hin.
  - rewrite IH, lookup_verdict_set, fmap_cons.
    destruct (decide (q' ∈ questionid <$> rest /\ k' = k)) as [[Hin ->]|Hn].
    + rewrite decide_True; [done|]. split; [by right|done].
    + destruct (decide (q' = questionid r /\ k' = k)) as [[-> ->]|Hn'].
      * rewrite decide_True; [done|]. split; [by left|done].
      * rewrite decide_False; [done|]. intros [Hin ->].
        apply elem_of_cons in Hin as [->|Hin]; [by apply Hn'|by apply Hn].
Qed.

Lemma reconcile_item_shape parsed_results_map q i v :
  reconcile_item parsed_results_map q i = ok v -> verdict_shape v.
Proof.
  unfold reconcile_item.
  destruct (parsed_results_map !! q) as [j|].
  - destruct (py_truthy j).
    + destruct j; intros [= <-]; apply shape_parsed.
    + intros [= <-]. apply shape_missing_response.
  - intros [= <-]. apply shape_missing_response.
Qed.

Lemma reconcile_lookup parsed_results_map batch k i results results' :
  reconcile parsed_results_map batch k i results = ok results' ->
  forall q' k',
    if decide (q' ∈ questionid <$> batch /\ k' = k)
    then exists v, lookup_verdict results' q' k' = Some v /\
                   reconcile_item parsed_results_map q' i = ok v
    else lookup_verdict results' q' k' = lookup_verdict results q' k'.
Proof.
  revert results. induction batch as [|r rest IH]; intros results;
    cbn [reconcile].
  - intros [= <-] q' k'. rewrite decide_False; [done|].
    intros [Hin _]. by apply elem_of_nil in Hin.
  - intros Hrun. apply rbind_ok in Hrun as (v & Hv & Hrest).
    intros q' k'. specialize (IH _ Hrest q' k'). rewrite fmap_cons.
    destruct (decide (q' ∈ questionid <$> rest /\ k' = k)) as [[Hin ->]|Hn].
    + rewrite decide_True; [done|]. split; [by right|done].
    + rewrite lookup_verdict_set in IH.
      destruct (decide (q' = questionid r /\ k' = k)) as [[-> ->]|Hn'].
      * rewrite decide_True by (split; [by left|done]).
        by exists v.
      * rewrite decide_False; [done|]. intros [Hin ->].
        apply elem_of_cons in Hin as [->|Hin]; [by apply Hn'|by apply Hn].
Qed.
End VerdictFacts.

(** ** assess_question_batch *)

Lemma error_truthy_nonempty (error : option string) :
  error_truthy error = true -> default "" error <> "".
Proof.
  destruct error as [msg|]; [|discriminate]. simpl.
  intros Hne ->. discriminate.
Qed.

Lemma decide_and_bool (P Q : Prop) `{!Decision P, !Decision Q} (b : bool)
    (X Y : Prop) :
  b = true ->
  (if decide (P /\ Q) then X else Y) ->
  if bool_decide P && b && bool_decide Q then X else Y.
Proof.
  intros ->. destruct (decide (P /\ Q)) as [[HP HQ]|Hn].
  - by rewrite !bool_decide_eq_true_2.
  - destruct (decide P); destruct (decide Q);
      rewrite ?bool_decide_eq_true_2, ?bool_decide_eq_false_2 by done;
      simpl; tauto.
Qed.

Section AssessFacts.
Context `{Oracles}.
Context (config : Config).
Context (thinking_models_lookup : gmap string cell).
Context (thinking_values_lookup : gmap string string).

(** What one turn of the slot loop does to the stored verdicts. *)
Lemma assess_slot_post batch messages results k sent results' sent' :
  assess_slot batch config thinking_models_lookup thinking_values_lookup
    messages results k sent = (inr results', sent') ->
  forall q' k',
    if bool_decide (q' ∈ questionid <$> batch) && enabled config k
       && bool_decide (k' = k)
    then exists v, lookup_verdict results' q' k' = Some v /\ verdict_shape v
    else lookup_verdict results' q' k' = lookup_verdict results q' k'.
Proof.
  unfold assess_slot. destruct (enabled config k) eqn:He; simpl.
  - intros Hrun q' k'.
    apply mbind_inr in Hrun as ([[response error] lat] & s1 & _ & Hrun).
    apply mbind_inr in Hrun as (i & s2 & _ & Hrun).
    apply decide_and_bool; [done|].
    destruct (error_truthy error) eqn:Herr.
    { apply mret_inr in Hrun as [-> _].
      rewrite lookup_verdict_fail_batch. case_decide; [|done].
      eexists; split; [done|].
      by apply shape_item_error, error_truthy_nonempty. }
    apply mbind_inr in Hrun as ([parsed_results_map parse_error] & s3 & _ & Hrun).
    destruct (error_truthy parse_error) eqn:Hperr.
    { apply mret_inr in Hrun as [-> _].
      rewrite lookup_verdict_fail_batch. case_decide; [|done].
      eexists; split; [done|].
      by apply shape_item_error, error_truthy_nonempty. }
    apply lift_inr in Hrun as [Hrec _].
    pose proof (reconcile_lookup _ _ _ _ _ _ Hrec q' k') as Hlook.
    case_decide; [|done].
    destruct Hlook as (v & Hv & Hitem). exists v. split; [done|].
    by eapply reconcile_item_shape.
  - intros Hrun q' k'. apply mret_inr in Hrun as [-> _].
    by rewrite andb_false_r.
Qed.

(** Whenever assess_question_batch returns, its result set is
    structurally complete. *)
Lemma assess_question_batch_complete batch sent results sent' :
  assess_question_batch batch config thinking_models_lookup
    thinking_values_lookup sent = (inr results, sent') ->
  complete config batch results.
Proof.
  unfold assess_question_batch, model_keys. cbn [foldM].
  intros Hrun.
  apply mbind_inr in Hrun as (r1 & s1 & H1 & Hrun).
  apply mbind_inr in Hrun as (r2 & s2 & H2 & Hrun).
  apply mbind_inr in Hrun as (r3 & s3 & H3 & Hrun).
  apply mret_inr in Hrun as [-> _].
  intros q k.
  pose proof (assess_slot_post _ _ _ _ _ _ _ H1 q k) as P1.
  pose proof (assess_slot_post _ _ _ _ _ _ _ H2 q k) as P2.
  pose proof (assess_slot_post _ _ _ _ _ _ _ H3 q k) as P3.
  rewrite lookup_verdict_empty in P1.
  destruct k;
    repeat match goal with
    | P : context [bool_decide (?a = ?a)] |- _ =>
        rewrite (bool_decide_eq_true_2 (a = a) eq_refl) in P
    | P : context [bool_decide (?a = ?b)] |- _ =>
        rewrite (bool_decide_eq_false_2 (a = b)) in P by discriminate
    end;
    rewrite ?andb_true_r, ?andb_false_r in P1;
    rewrite ?andb_true_r, ?andb_false_r in P2;
    rewrite ?andb_true_r, ?andb_false_r in P3.
  - rewrite P3, P2. done.
  - rewrite P3. destruct (_ && _); [done|]. by rewrite P2.
  - destruct (_ && _); [done|]. by rewrite P3, P2.
Qed.
End AssessFacts.

(** ** When the batch step returns *)

Lemma numeric_default kv k :
  numeric_if_present kv k = true ->
  is_Some (py_number (default (JNum 0) (assoc k kv))).
Proof.
  unfold numeric_if_present. destruct (assoc k kv) as [j|]; simpl.
  - by intros ?%bool_decide_eq_true.
  - by eexists.
Qed.

Lemma py_gt_int_numeric j n :
  is_Some (py_number j) -> exists b, py_gt_int j n = ok b.
Proof. intros [z Hz]. unfold py_gt_int. rewrite Hz. eauto. Qed.

Lemma usage_counts_ok (usage : json) (f : json -> json -> json -> json) :
  well_formed_usage usage = true ->
  (forall a b c, f a b c = a \/ f a b c = b \/ f a b c = c) ->
  exists kv details,
    usage = JObj kv /\
    dict_get usage "completion_tokens_details" (JObj []) = ok (JObj details) /\
    is_Some (py_number
               (f (default (JNum 0) (assoc "reasoning_tokens" details))
                  (default (JNum 0) (assoc "reasoning_tokens" kv))
                  (default (JNum 0) (assoc "thinking_tokens" kv)))).
Proof.
  destruct usage as [| | | | |kv]; try discriminate. simpl.
  intros Hwf Hf.
  apply andb_prop in Hwf as [Hwf Hthink].
  apply andb_prop in Hwf as [Hdet Htop].
  assert (exists details,
             default (JObj []) (assoc "completion_tokens_details" kv)
             = JObj details /\
             numeric_if_present details "reasoning_tokens" = true)
    as (details & Hd & Hnum).
  { destruct (assoc "completion_tokens_details" kv) as [d|]; simpl.
    - destruct d; try discriminate. eauto.
    - by exists []. }
  exists kv, details. split; [done|]. rewrite Hd. split; [done|].
  destruct (Hf (default (JNum 0) (assoc "reasoning_tokens" details))
               (default (JNum 0) (assoc "reasoning_tokens" kv))
               (default (JNum 0) (assoc "thinking_tokens" kv)))
    as [->|[->| ->]]; by apply numeric_default.
Qed.

Lemma extract_model_batch_info_ok k full_model_name response lat :
  well_formed_response response = true ->
  exists i, extract_model_batch_info k full_model_name response lat = ok i.
Proof.
  intros Hwf. apply andb_prop in Hwf as [Husage _].
  assert (exists usage,
             (if py_truthy response
              then dict_get response "usage" (JObj []) else ok (JObj []))
             = ok usage /\ well_formed_usage usage = true)
    as (usage & Hu & Hwu).
  { destruct (py_truthy response); [|by exists (JObj [])].
    destruct response as [| | | | |kv]; try discriminate. simpl.
    destruct (assoc "usage" kv) as [u|]; simpl; [by exists u|].
    by exists (JObj []). }
  unfold extract_model_batch_info. rewrite Hu. simpl.
  destruct (usage_counts_ok usage
              (fun a b c =>
                 if py_eq_int (if py_eq_int a 0 then b else a) 0 then c
                 else if py_eq_int a 0 then b else a) Hwu)
    as (kv & details & -> & Hd & Hnum).
  { intros a b c. destruct (py_eq_int a 0); destruct (py_eq_int _ 0); auto. }
  rewrite Hd. simpl.
  destruct (py_gt_int_numeric _ 0 Hnum) as [b Hb]. rewrite Hb. simpl. eauto.
Qed.

Lemma response_content_exn response e :
  response_content response = inl e ->
  e = KeyError \/ e = IndexError \/ e = TypeError.
Proof.
  unfold response_content, subscript, subscript0, rbind, raise, ok.
  repeat (case_match; simplify_eq; try tauto); intros [= <-]; tauto.
Qed.

Lemma record_item_spec results_map item :
  recorded_objects results_map ->
  match record_item results_map item with
  | inr results_map' => recorded_objects results_map'
  | inl e => e = TypeError
  end.
Proof.
  intros Hall. unfold record_item.
  destruct item as [|b|z|s|l|kv]; simpl; try done.
  - by destruct (str_contains "questionid" s).
  - by destruct (existsb _ l).
  - destruct (assoc "questionid" kv) as [v|] eqn:Hv.
    + rewrite bool_decide_eq_true_2 by eauto. simpl.
      destruct v; simpl; try done;
        (apply map_Forall_insert_2; [|done]; exists kv; split; [done|];
         by intros ->).
    + rewrite bool_decide_eq_false_2; [done|]. by intros [? [=]].
Qed.

Lemma record_items_spec results_map items :
  recorded_objects results_map ->
  match record_items results_map items with
  | inr results_map' => recorded_objects results_map'
  | inl e => e = TypeError
  end.
Proof.
  revert results_map. induction items as [|item rest IH];
    intros results_map Hall; simpl; [done|].
  pose proof (record_item_spec results_map item Hall) as Hitem.
  destruct (record_item results_map item) as [e|m]; simpl; [done|].
  by apply IH.
Qed.

Lemma recorded_objects_empty : recorded_objects ∅.
Proof. apply map_Forall_empty. Qed.

Lemma reconcile_ok parsed_results_map batch k i results :
  recorded_objects parsed_results_map ->
  exists results', reconcile parsed_results_map batch k i results = ok results'.
Proof.
  intros Hall. revert results.
  induction batch as [|r rest IH]; intros results; cbn [reconcile];
    [by eexists|].
  assert (exists v, reconcile_item parsed_results_map (questionid r) i = ok v)
    as [v ->].
  { unfold reconcile_item.
    destruct (parsed_results_map !! questionid r) as [j|] eqn:Hj;
      [|by eexists].
    destruct (Hall _ _ Hj) as (kv & -> & _).
    destruct (py_truthy (JObj kv)); by eexists. }
  simpl. apply IH.
Qed.

Section ReturnFacts.
Context `{Oracles}.
Context (config : Config).
Context (thinking_models_lookup : gmap string cell).
Context (thinking_values_lookup : gmap string string).

(** Under the wire contract the batch parser does not raise, and what it
    records are non-empty objects. *)
Lemma parse_llm_batch_response_ok response batch :
  well_formed_response response = true ->
  exists results_map error,
    parse_llm_batch_response response batch = ok (results_map, error) /\
    recorded_objects results_map.
Proof.
  intros Hwf. apply andb_prop in Hwf as [_ Hcontent].
  unfold parse_llm_batch_response, parse_llm_batch_response_body.
  destruct (response_content response) as [e|c] eqn:Hc; simpl.
  - apply response_content_exn in Hc as [->|[->| ->]];
      eexists _, _; split; try done; apply recorded_objects_empty.
  - destruct c as [|b|z|s|l|kv]; try discriminate. simpl.
    destruct (json_loads (clean_batch_content s)) as [parsed|];
      [|eexists _, _; split; [done|apply recorded_objects_empty]].
    destruct parsed as [|b|z|s'|items|kv];
      try (eexists _, _; split; [done|apply recorded_objects_empty]).
    pose proof (record_items_spec ∅ items recorded_objects_empty) as Hrec.
    destruct (record_items ∅ items) as [e|m]; simpl.
    + subst e. eexists _, _; split; [done|apply recorded_objects_empty].
    + by eexists _, _.
Qed.

Lemma call_openrouter_api_sends model_name messages p sent :
  build_payload model_name messages config thinking_models_lookup
    thinking_values_lookup = ok p ->
  call_openrouter_api model_name messages config thinking_models_lookup
    thinking_values_lookup sent
  = (ok (classify (http_post p (length sent)).1, (http_post p (length sent)).2),
     sent ++ [p]).
Proof.
  intros Hp. unfold call_openrouter_api, mbind, lift, send, mret.
  rewrite Hp. simpl. by destruct (http_post p (length sent)).
Qed.

Lemma call_openrouter_api_raises model_name messages e sent :
  build_payload model_name messages config thinking_models_lookup
    thinking_values_lookup = raise e ->
  call_openrouter_api model_name messages config thinking_models_lookup
    thinking_values_lookup sent = (raise e, sent).
Proof.
  intros Hp. unfold call_openrouter_api, mbind, lift. by rewrite Hp.
Qed.

Lemma assess_slot_returns batch messages results k sent :
  requests_build config thinking_models_lookup thinking_values_lookup ->
  well_formed_world ->
  exists results' sent',
    assess_slot batch config thinking_models_lookup thinking_values_lookup
      messages results k sent = (inr results', sent').
Proof.
  intros Hbuild Hworld. unfold assess_slot.
  destruct (enabled config k) eqn:He; simpl; [|by eexists _, _].
  destruct (Hbuild k messages He) as [p Hp].
  rewrite (mbind_ok _ _ _ _ _ (call_openrouter_api_sends _ _ _ sent Hp)).
  specialize (Hworld p (length sent)).
  destruct (http_post p (length sent)) as [outcome lat]. simpl in *.
  destruct (classify outcome) as [response error]. simpl in *.
  destruct (extract_model_batch_info_ok k (model_name_of config k) response
              lat Hworld) as [i Hi].
  rewrite Hi, mbind_lift_ok.
  destruct (error_truthy error); [by eexists _, _|].
  destruct (parse_llm_batch_response_ok response batch Hworld)
    as (results_map & parse_error & Hparse & Hall).
  rewrite Hparse, mbind_lift_ok.
  destruct (error_truthy parse_error); [by eexists _, _|].
  destruct (reconcile_ok results_map batch k i results Hall) as [results' Hr].
  rewrite Hr. by eexists _, _.
Qed.

Lemma assess_question_batch_returns batch sent :
  requests_build config thinking_models_lookup thinking_values_lookup ->
  well_formed_world ->
  exists results sent',
    assess_question_batch batch config thinking_models_lookup
      thinking_values_lookup sent = (inr results, sent').
Proof.
  intros Hbuild Hworld. unfold assess_question_batch, model_keys.
  cbn [foldM].
  set (messages := [_; _]).
  destruct (assess_slot_returns batch messages ∅ model_1 sent Hbuild Hworld)
    as (r1 & s1 & H1).
  destruct (assess_slot_returns batch messages r1 model_2 s1 Hbuild Hworld)
    as (r2 & s2 & H2).
  destruct (assess_slot_returns batch messages r2 model_3 s2 Hbuild Hworld)
    as (r3 & s3 & H3).
  exists r3, s3. unfold mbind. by rewrite H1, H2, H3.
Qed.

(** The batch step: completeness whenever it returns, and a return
    whenever every enabled slot's request can be built and the gateway's
    answers follow the wire contract. *)
Lemma batch_assessment_complete batch sent :
  (forall results sent',
     assess_question_batch batch config thinking_models_lookup
       thinking_values_lookup sent = (inr results, sent') ->
     complete config batch results) /\
  (requests_build config thinking_models_lookup thinking_values_lookup ->
   well_formed_world ->
   exists results sent',
     assess_question_batch batch config thinking_models_lookup
       thinking_values_lookup sent = (inr results, sent') /\
     complete config batch results).
Proof.
  split.
  - intros results sent'. apply assess_question_batch_complete.
  - intros Hbuild Hworld.
    destruct (assess_question_batch_returns batch sent Hbuild Hworld)
      as (results & sent' & Hrun).
    exists results, sent'. split; [done|].
    by eapply assess_question_batch_complete.
Qed.
End ReturnFacts.

(** ** Configuration errors *)

Lemma openai_prefix_not_google (s : string) :
  startswith "openai/" s = true -> startswith "google/" s = false.
Proof.
  unfold startswith. destruct s as [|a s]; [discriminate|].
  cbn [String.prefix].
  destruct (Ascii.ascii_dec "o" a) as [<-|_]; [|discriminate].
  intros _. by destruct (Ascii.ascii_dec "g" "o").
Qed.

Lemma string_eqb_false (a b : string) : a <> b -> String.eqb a b = false.
Proof. intros Hne. by apply String.eqb_neq. Qed.

Section ConfigurationErrors.
Context `{Oracles}.
Context (config : Config).
Context (thinking_models_lookup : gmap string cell).
Context (thinking_values_lookup : gmap string string).
Context (k : model_key).
Context (Hinvalid :
  invalid_effort_for config thinking_models_lookup thinking_values_lookup k).

Lemma openai_reasoning_effort_invalid :
  exists msg,
    openai_reasoning_effort (model_name_of config k)
      (reasoning_effort_openai config) thinking_values_lookup
    = raise (ValueError msg).
Proof using Hinvalid.
  destruct Hinvalid as (_ & _ & _ & Hne & Hstrip & Hlegal).
  unfold openai_reasoning_effort.
  rewrite !string_eqb_false by done. simpl.
  destruct (thinking_values_lookup !! model_name_of config k) as [legal|];
    [|by eexists].
  destruct (_ || _); [by eexists|].
  rewrite bool_decide_eq_false_2 by (by apply Hlegal). by eexists.
Qed.

Lemma build_payload_invalid_effort messages :
  exists msg,
    build_payload (model_name_of config k) messages config
      thinking_models_lookup thinking_values_lookup = raise (ValueError msg).
Proof using Hinvalid.
  destruct openai_reasoning_effort_invalid as [msg Hmsg].
  destruct Hinvalid as (_ & Hthink & Hopenai & _).
  exists msg. unfold build_payload.
  rewrite Hthink, (openai_prefix_not_google _ Hopenai), Hopenai, Hmsg. done.
Qed.

(** The slot raises the configuration error before it sends anything. *)
Lemma assess_slot_invalid_effort batch messages results sent :
  exists msg,
    assess_slot batch config thinking_models_lookup thinking_values_lookup
      messages results k sent = (raise (ValueError msg), sent).
Proof using Hinvalid.
  destruct (build_payload_invalid_effort messages) as [msg Hmsg].
  exists msg. unfold assess_slot.
  destruct Hinvalid as (-> & _). simpl.
  unfold mbind. by rewrite (call_openrouter_api_raises _ _ _ _ _ _ _ Hmsg).
Qed.
End ConfigurationErrors.

(** ** Exceptions and sent requests along a run *)

Lemma mbind_raises {A B} (m : M A) (f : A -> M B) sent e s1 :
  m sent = (inl e, s1) -> mbind m f sent = (inl e, s1).
Proof. unfold mbind. by intros ->. Qed.

Lemma foldM_raises_at {A B} (f : A -> B -> M A) (b : B) (l : list B) :
  b ∈ l ->
  (forall a s, exists e s', f a b s = (inl e, s')) ->
  forall a s, exists e s', foldM f a l s = (inl e, s').
Proof.
  intros Hin Hb. induction l as [|x l IH]; intros a s;
    [by apply elem_of_nil in Hin|].
  cbn [foldM]. destruct (f a x s) as [[e|a'] s1] eqn:Hx.
  - exists e, s1. by apply mbind_raises.
  - rewrite (mbind_ok _ _ _ _ _ Hx).
    apply elem_of_cons in Hin as [->|Hin]; [|by apply IH].
    destruct (Hb a s) as (e & s' & He). congruence.
Qed.

Lemma sends_only_mret {A} P (a : A) : sends_only P (mret a).
Proof. by intros sent. Qed.

Lemma sends_only_lift {A} P (r : result A) : sends_only P (lift r).
Proof. by intros sent. Qed.

Lemma sends_only_mbind {A B} P (m : M A) (f : A -> M B) :
  sends_only P m -> (forall a, sends_only P (f a)) -> sends_only P (mbind m f).
Proof.
  intros Hm Hf sent Hsent. unfold mbind. specialize (Hm sent Hsent).
  destruct (m sent) as [[e|a] s1]; [done|]. by apply Hf.
Qed.

Lemma sends_only_foldM {A B} P (f : A -> B -> M A) (l : list B) :
  (forall a b, sends_only P (f a b)) -> forall a, sends_only P (foldM f a l).
Proof.
  intros Hf. induction l as [|b l IH]; intros a; cbn [foldM].
  - apply sends_only_mret.
  - apply sends_only_mbind; [apply Hf|]. intros a'. apply IH.
Qed.

Lemma build_payload_model model_name messages config
    (thinking_models_lookup : gmap string cell)
    (thinking_values_lookup : gmap string string) p :
  build_payload model_name messages config thinking_models_lookup
    thinking_values_lookup = ok p ->
  p_model p = model_name.
Proof.
  unfold build_payload.
  repeat case_match; try (intros [= <-]; done);
    intros (? & _ & [= <-])%rbind_ok; done.
Qed.

Section RunFacts.
Context `{Oracles}.
Context (config : Config).
Context (thinking_models_lookup : gmap string cell).
Context (thinking_values_lookup : gmap string string).

Lemma call_openrouter_api_sends_only P model_name messages :
  (forall p,
     build_payload model_name messages config thinking_models_lookup
       thinking_values_lookup = ok p -> P p) ->
  sends_only P
    (call_openrouter_api model_name messages config thinking_models_lookup
       thinking_values_lookup).
Proof.
  intros HP sent Hsent.
  destruct (build_payload model_name messages config thinking_models_lookup
              thinking_values_lookup) as [e|p] eqn:Hp.
  - by rewrite (call_openrouter_api_raises _ _ _ _ _ _ _ Hp).
  - rewrite (call_openrouter_api_sends _ _ _ _ _ _ _ Hp). simpl.
    apply Forall_app. split; [done|]. apply Forall_singleton. by apply HP.
Qed.

Lemma assess_slot_sends_only P batch messages results k :
  (forall p,
     build_payload (model_name_of config k) messages config
       thinking_models_lookup thinking_values_lookup = ok p -> P p) ->
  sends_only P
    (assess_slot batch config thinking_models_lookup thinking_values_lookup
       messages results k).
Proof.
  intros HP. unfold assess_slot.
  destruct (negb (enabled config k)); [apply sends_only_mret|].
  apply sends_only_mbind; [by apply call_openrouter_api_sends_only|].
  intros [[response error] lat].
  apply sends_only_mbind; [apply sends_only_lift|]. intros i.
  destruct (error_truthy error); [apply sends_only_mret|].
  apply sends_only_mbind; [apply sends_only_lift|].
  intros [parsed_results_map parse_error].
  destruct (error_truthy parse_error);
    [apply sends_only_mret|apply sends_only_lift].
Qed.

Lemma assess_questions_sends_only P cost_lookup df_all :
  (forall k messages p,
     build_payload (model_name_of config k) messages config
       thinking_models_lookup thinking_values_lookup = ok p -> P p) ->
  sends_only P
    (assess_questions config thinking_models_lookup thinking_values_lookup
       cost_lookup df_all).
Proof.
  intros HP. unfold assess_questions.
  apply sends_only_mbind; [apply sends_only_lift|]. intros n.
  apply sends_only_mbind; [|intros acc; apply sends_only_mret].
  apply sends_only_foldM. intros acc i. unfold process_batch.
  apply sends_only_mbind.
  { unfold assess_question_batch. apply sends_only_foldM.
    intros results k. apply assess_slot_sends_only. apply HP. }
  intros results.
  apply sends_only_mbind; [apply sends_only_lift|]. intros rows.
  apply sends_only_mbind; [apply sends_only_lift|]. intros metrics.
  apply sends_only_mret.
Qed.

Lemma assess_slot_disabled batch messages results k :
  enabled config k = false ->
  assess_slot batch config thinking_models_lookup thinking_values_lookup
    messages results k = mret results.
Proof. intros He. unfold assess_slot. by rewrite He. Qed.

Lemma first_batch_index (B : Z) (l : list row) :
  0 < B -> l <> [] ->
  exists n rest, total_batches B l = ok n /\ py_range n = 0 :: rest.
Proof.
  intros HB Hl. unfold total_batches.
  destruct (Z.eqb_spec B 0) as [?|_]; [lia|].
  destruct (total_batches_bounds B l _ HB eq_refl) as (Hq & _ & Hhi).
  assert (0 < Z.of_nat (length l)) by (destruct l; [done|simpl; lia]).
  destruct (Z.to_nat ((Z.of_nat (length l) + B - 1) / B)) as [|m] eqn:Hm;
    [nia|].
  exists ((Z.of_nat (length l) + B - 1) / B), (map Z.of_nat (seq 1 m)).
  split; [done|]. unfold py_range. by rewrite Hm.
Qed.
End RunFacts.

Lemma mbind_mret {A B} (a : A) (f : A -> M B) sent :
  mbind (mret a) f sent = f a sent.
Proof. done. Qed.

Section InvalidEffort.
Context `{Oracles}.
Context (config : Config).
Context (thinking_models_lookup : gmap string cell).
Context (thinking_values_lookup : gmap string string).
Context (cost_lookup : gmap string price) (df_all : list row).
Context (k : model_key).
Context (Hinvalid :
  invalid_effort_for config thinking_models_lookup thinking_values_lookup k).
Context (Hsize : 0 < batch_size config).
Context (Hitems : select_rows config df_all <> []).

Lemma assess_question_batch_invalid_effort batch sent :
  exists e sent',
    assess_question_batch batch config thinking_models_lookup
      thinking_values_lookup sent = (inl e, sent').
Proof using Hinvalid.
  unfold assess_question_batch. apply (foldM_raises_at _ k).
  - unfold model_keys.
    destruct k; [left | right; left | right; right; left].
  - intros results s.
    destruct (assess_slot_invalid_effort config thinking_models_lookup
                thinking_values_lookup k Hinvalid batch
                [ {| role := "system";
                     msg_content := Text (system_prompt config) |};
                  {| role := "user";
                     msg_content :=
                       JsonDump (prepare_question_batch_payload batch) |} ]
                results s) as [msg Hmsg].
    by exists (ValueError msg), s.
Qed.

Lemma assess_questions_never_completes sent :
  exists e sent',
    assess_questions config thinking_models_lookup thinking_values_lookup
      cost_lookup df_all sent = (inl e, sent').
Proof using Hinvalid Hsize Hitems.
  unfold assess_questions.
  destruct (first_batch_index (batch_size config) _ Hsize Hitems)
    as (n & rest & Hn & Hrange).
  rewrite Hn, mbind_lift_ok, Hrange.
  match goal with
  | |- context [foldM ?f ?acc0 (0 :: rest)] =>
      assert (exists e s', foldM f acc0 (0 :: rest) sent = (inl e, s'))
        as (e & s' & He)
  end.
  { apply (foldM_raises_at _ 0); [by left|].
    intros acc s. unfold process_batch.
    destruct (assess_question_batch_invalid_effort
                (batch_df (batch_size config) (select_rows config df_all) 0) s)
      as (e & s' & He).
    exists e, s'. by apply mbind_raises. }
  exists e, s'. by apply mbind_raises.
Qed.

Lemma assess_question_batch_first_slot batch :
  (forall k', (model_key_index k' < model_key_index k)%nat ->
              enabled config k' = false) ->
  exists msg,
    assess_question_batch batch config thinking_models_lookup
      thinking_values_lookup [] = (inl (ValueError msg), []).
Proof using Hinvalid.
  intros Hfirst. unfold assess_question_batch, model_keys.
  set (messages := [_; _]).
  assert (Hk : forall results,
             exists msg,
               assess_slot batch config thinking_models_lookup
                 thinking_values_lookup messages results k []
               = (inl (ValueError msg), [])).
  { intros results.
    apply (assess_slot_invalid_effort config thinking_models_lookup
             thinking_values_lookup k Hinvalid). }
  cbn [foldM]. destruct k.
  - destruct (Hk ∅) as [msg Hmsg]. exists msg. by apply mbind_raises.
  - rewrite assess_slot_disabled, mbind_mret by (apply Hfirst; simpl; lia).
    destruct (Hk ∅) as [msg Hmsg]. exists msg. by apply mbind_raises.
  - rewrite assess_slot_disabled, mbind_mret by (apply Hfirst; simpl; lia).
    rewrite assess_slot_disabled, mbind_mret by (apply Hfirst; simpl; lia).
    destruct (Hk ∅) as [msg Hmsg]. exists msg. by apply mbind_raises.
Qed.

End InvalidEffort.

(** *** Worked instances of the run-level statements *)

(** The OpenAI slot is enabled with the effort "extreme", which its
    table entry does not list: the batch assessment raises and the
    requested item is left without any verdict. *)
Lemma invalid_effort_leaves_item_without_verdict :
  enabled (sample_config (only model_2) 3 CBlank "extreme") model_2 = true /\
  @assess_question_batch two_of_three [sample_item 101]
    (sample_config (only model_2) 3 CBlank "extreme")
    sample_thinking_models sample_thinking_values []
  = (inl (ValueError "invalid reasoning_effort"), []) /\
  forall results sent',
    @assess_question_batch two_of_three [sample_item 101]
      (sample_config (only model_2) 3 CBlank "extreme")
      sample_thinking_models sample_thinking_values []
    <> (inr results, sent').
Proof.
  split; [reflexivity|].
  assert (E : @assess_question_batch two_of_three [sample_item 101]
                (sample_config (only model_2) 3 CBlank "extreme")
                sample_thinking_models sample_thinking_values []
              = (inl (ValueError "invalid reasoning_effort"), []))
    by (vm_compute; reflexivity).
  split; [exact E|]. intros results sent'. rewrite E. discriminate.
Qed.

Lemma sample_invalid_effort (tags : model_key -> Z) :
  tags model_2 = 1 ->
  invalid_effort_for (sample_config tags 3 CBlank "extreme")
    sample_thinking_models sample_thinking_values model_2.
Proof.
  intros Htag. unfold invalid_effort_for, enabled. simpl. rewrite Htag.
  split; [reflexivity|]. split; [vm_compute; reflexivity|].
  split; [reflexivity|]. split; [discriminate|].
  split; [vm_compute; discriminate|].
  intros legal Hlegal. vm_compute in Hlegal. injection Hlegal as <-.
  apply (bool_decide_eq_false_1
           ("extreme" ∈ py_strip <$> split_on "," "minimal, low, medium, high")).
  vm_compute. reflexivity.
Defined.



(** ** The layout of the result table *)

Lemma laid_out_app config t1 r1 t2 r2 :
  laid_out config t1 r1 -> laid_out config t2 r2 ->
  laid_out config (t1 ++ t2) (r1 ++ r2).
Proof.
  induction 1 as [|r k cr block triples rows Hb _ IH]; intros H2; [done|].
  rewrite <- !app_assoc, <- app_comm_cons. constructor; [done|]. by apply IH.
Qed.

Lemma laid_out_length config triples rows :
  laid_out config triples rows ->
  length rows = (4 * length triples)%nat.
Proof.
  induction 1 as [|r k cr block triples rows (o & w & i & -> & _) _ IH];
    [done|].
  simpl. rewrite IH. lia.
Qed.

Lemma rows_for_model_block config r model_result k rows :
  rows_for_model config r model_result k = ok rows ->
  is_block config r k (change_required_of model_result) rows.
Proof.
  unfold rows_for_model. intros Hrun.
  apply rbind_ok in Hrun as (rq & _ & Hrun).
  apply rbind_ok in Hrun as (ra & _ & Hrun).
  apply rbind_ok in Hrun as (iq & _ & Hrun).
  apply rbind_ok in Hrun as (ia & _ & Hrun).
  injection Hrun as <-. eexists _, _, _. split; [reflexivity|].
  repeat split; repeat constructor.
Qed.

Lemma rows_for_item_laid_out config r assessment ks rows :
  rows_for_item config r assessment ks = ok rows ->
  exists triples,
    triples.*1 = (fun k => (r, k)) <$> filter (fun k => enabled config k = true) ks /\
    laid_out config triples rows /\
    Forall (fun t => t.2 = change_required_of (assessment !! t.1.2)) triples.
Proof.
  revert rows. induction ks as [|k rest IH]; intros rows; cbn [rows_for_item].
  - intros [= <-]. exists []. repeat split; constructor.
  - rewrite filter_cons. case_decide as He.
    + rewrite He. cbn [negb]. intros Hrun.
      apply rbind_ok in Hrun as (block & Hblock & Hrun).
      apply rbind_ok in Hrun as (more & Hmore & Hrun).
      injection Hrun as <-.
      destruct (IH _ Hmore) as (triples & Hfst & Hlaid & Hcr).
      exists ((r, k, change_required_of (assessment !! k)) :: triples).
      split; [by rewrite !fmap_cons, Hfst|].
      split; [|by constructor].
      constructor; [|done]. by apply rows_for_model_block.
    + apply not_true_is_false in He. rewrite He. cbn [negb]. apply IH.
Qed.

Lemma item_pairs_cons config r rest :
  item_pairs config (r :: rest)
  = ((fun k => (r, k)) <$> enabled_keys config) ++ item_pairs config rest.
Proof. done. Qed.

Lemma item_pairs_app config l1 l2 :
  item_pairs config (l1 ++ l2) = item_pairs config l1 ++ item_pairs config l2.
Proof. unfold item_pairs. apply bind_app. Qed.

Lemma rows_for_batch_laid_out config batch results rows :
  rows_for_batch config batch results = ok rows ->
  exists triples,
    triples.*1 = item_pairs config batch /\
    laid_out config triples rows /\
    Forall (fun t => t.2 = change_required_of
                             (lookup_verdict results (questionid t.1.1) t.1.2))
           triples.
Proof.
  revert rows. induction batch as [|r rest IH]; intros rows;
    cbn [rows_for_batch].
  - intros [= <-]. exists []. repeat split; constructor.
  - intros Hrun. apply rbind_ok in Hrun as (block & Hblock & Hrun).
    apply rbind_ok in Hrun as (more & Hmore & Hrun).
    injection Hrun as <-.
    destruct (rows_for_item_laid_out _ _ _ _ _ Hblock) as (t1 & F1 & L1 & C1).
    destruct (IH _ Hmore) as (t2 & F2 & L2 & C2).
    exists (t1 ++ t2). rewrite fmap_app, F1, F2, item_pairs_cons.
    split; [done|]. split; [by apply laid_out_app|].
    apply Forall_app. split; [|done].
    assert (Hr : Forall (fun t => t.1.1 = r) t1).
    { apply Forall_fmap with (f := fst) (P := fun p => p.1 = r).
      rewrite F1. apply Forall_fmap, Forall_forall. done. }
    rewrite Forall_forall in C1, Hr. apply Forall_forall.
    intros t Ht. rewrite (C1 t Ht), (Hr t Ht). unfold lookup_verdict.
    by destruct (results !! questionid r).
Qed.

Section LayoutFacts.
Context `{Oracles}.
Context (config : Config).
Context (thinking_models_lookup : gmap string cell).
Context (thinking_values_lookup : gmap string string).
Context (df_to_process : list row).

(** One turn of the batch loop appends, for each item of the batch and
    each enabled slot, one block carrying the change-required value of
    the verdict that the batch step stored for that item and slot. *)
Lemma process_batch_appends acc i sent acc' sent' :
  process_batch config thinking_models_lookup thinking_values_lookup
    df_to_process acc i sent = (inr acc', sent') ->
  exists results s1 rows triples,
    assess_question_batch (batch_df (batch_size config) df_to_process i)
      config thinking_models_lookup thinking_values_lookup sent
    = (inr results, s1) /\
    results_data acc' = results_data acc ++ rows /\
    triples.*1
    = item_pairs config (batch_df (batch_size config) df_to_process i) /\
    laid_out config triples rows /\
    Forall (fun t => t.2 = change_required_of
                             (lookup_verdict results (questionid t.1.1) t.1.2))
           triples.
Proof.
  unfold process_batch. intros Hrun.
  apply mbind_inr in Hrun as (results & s1 & Hbatch & Hrun).
  apply mbind_inr in Hrun as (rows & s2 & [Hrows ->]%lift_inr & Hrun).
  apply mbind_inr in Hrun as (metrics & s3 & [Hmetrics ->]%lift_inr & Hrun).
  apply mret_inr in Hrun as [-> _].
  destruct (rows_for_batch_laid_out _ _ _ _ Hrows) as (triples & F & L & C).
  by exists results, s1, rows, triples.
Qed.

Lemma foldM_process_batch_laid_out indices :
  forall acc sent acc' sent' triples0,
    foldM (process_batch config thinking_models_lookup thinking_values_lookup
             df_to_process) acc indices sent = (inr acc', sent') ->
    laid_out config triples0 (results_data acc) ->
    exists triples,
      triples.*1
      = item_pairs config
          (concat (map (batch_df (batch_size config) df_to_process) indices)) /\
      laid_out config (triples0 ++ triples) (results_data acc').
Proof.
  induction indices as [|i rest IH]; intros acc sent acc' sent' triples0;
    cbn [foldM].
  - intros [-> _]%mret_inr Hlaid. exists []. by rewrite app_nil_r.
  - intros Hrun Hlaid.
    apply mbind_inr in Hrun as (acc1 & s1 & Hstep & Hrun).
    destruct (process_batch_appends _ _ _ _ _ Hstep)
      as (results & s2 & rows & t1 & _ & Hrows & F1 & L1 & _).
    destruct (IH acc1 s1 acc' sent' (triples0 ++ t1) Hrun)
      as (t2 & F2 & L2).
    { rewrite Hrows. by apply laid_out_app. }
    exists (t1 ++ t2). cbn [map concat].
    rewrite fmap_app, F1, F2, item_pairs_app, app_assoc. done.
Qed.

Lemma concat_batches n :
  0 < batch_size config ->
  total_batches (batch_size config) df_to_process = ok n ->
  concat (map (batch_df (batch_size config) df_to_process) (py_range n))
  = df_to_process.
Proof.
  intros HB Hn.
  pose proof (batches_eq (batch_size config) df_to_process HB) as Hb.
  unfold batches in Hb. rewrite Hn in Hb. simpl in Hb. injection Hb as ->.
  rewrite concat_chunks. apply take_ge.
  destruct (total_batches_bounds (batch_size config) df_to_process _ HB
              eq_refl) as (Hq & _ & Hhi).
  nia.
Qed.
End LayoutFacts.

(** ** Counting rows on the dashboard *)

Section CountingFacts.
Context (config : Config) (k : model_key).
Context (test : json -> bool).

Let kept (rows : list results_row) : Z :=
  Z.of_nat (length (filter (fun x => test (Change_Required x) = true)
                      (model_results_of (display_name config k) rows))).

Lemma model_results_of_app name rows1 rows2 :
  model_results_of name (rows1 ++ rows2)
  = model_results_of name rows1 ++ model_results_of name rows2.
Proof. unfold model_results_of. apply omap_app. Qed.

Lemma kept_block r k' cr block :
  is_block config r k' cr block ->
  (display_name config k' = display_name config k -> k' = k) ->
  kept block = if decide (k' = k /\ test cr = true) then 3 else 0.
Proof using Type.
  intros (o & w & i & -> & _ & _ & _ & Hall) Hdistinct.
  apply Forall_cons in Hall as [(Mo & _ & Co) Hall].
  apply Forall_cons in Hall as [(Mw & _ & Cw) Hall].
  apply Forall_cons in Hall as [(Mi & _ & Ci) _].
  unfold kept, model_results_of. cbn [omap list_omap].
  rewrite Mo, Mw, Mi.
  destruct (String.eqb (display_name config k') (display_name config k))
    eqn:Hname.
  - apply String.eqb_eq in Hname. specialize (Hdistinct Hname). subst k'.
    cbn [omap]. rewrite !filter_cons, filter_nil, Co, Cw, Ci.
    destruct (test cr) eqn:Ht.
    + rewrite !decide_True by done. done.
    + rewrite !decide_False by (try intros [_ ?]; done). done.
  - apply String.eqb_neq in Hname.
    rewrite decide_False by (intros [-> _]; done). done.
Qed.

Lemma kept_laid_out triples rows :
  laid_out config triples rows ->
  Forall (fun t => display_name config t.1.2 = display_name config k ->
                   t.1.2 = k) triples ->
  kept rows = 3 * count_triples k test triples.
Proof using Type.
  induction 1 as [|r k' cr block triples rows Hb _ IH]; intros Hdistinct;
    [done|].
  apply Forall_cons in Hdistinct as [Hd Hdistinct]. simpl in Hd.
  specialize (IH Hdistinct).
  pose proof (kept_block _ _ _ _ Hb Hd) as Hblock.
  unfold kept in *. rewrite model_results_of_app, filter_app, length_app.
  rewrite Nat2Z.inj_add, Hblock, IH.
  unfold count_triples. rewrite filter_cons. simpl.
  destruct (decide (k' = k /\ test cr = true)); simpl; lia.
Qed.
End CountingFacts.

Lemma filter_always_length {A} (l : list A) :
  length (filter (fun _ => true = true) l) = length l.
Proof.
  induction l as [|x l IH]; [done|].
  rewrite filter_cons, decide_True by done. simpl. by rewrite IH.
Qed.

Lemma item_pairs_enabled config items r k :
  (r, k) ∈ item_pairs config items -> enabled config k = true.
Proof.
  unfold item_pairs. intros (r' & Hin & _)%list_elem_of_bind.
  apply list_elem_of_fmap in Hin as (k' & [= -> ->] & Hk).
  unfold enabled_keys in Hk. by apply list_elem_of_filter in Hk as [? _].
Qed.

Lemma dashboard_entry_counts config cost_lookup system_prompt_tokens
    metrics_data results_data k e :
  dashboard_entry config cost_lookup system_prompt_tokens metrics_data
    results_data k = ok e ->
  let model_results :=
    model_results_of (display_name config k) results_data in
  Total_Items e = (inject_Z (Z.of_nat (length model_results)) / 3)%Q /\
  Successful_Items e = (inject_Z (count_notna model_results) / 3)%Q /\
  Changes_Recommended e = Qtrunc (inject_Z (count_eq_1 model_results) / 3).
Proof.
  intros He model_results.
  pose proof He as Hrun. unfold dashboard_entry in Hrun.
  apply rbind_ok in Hrun as (i & Hi & Hrun).
  apply rbind_ok in Hrun as (o & Ho & Hrun).
  apply rbind_ok in Hrun as (r & Hr & _).
  destruct (dashboard_entry_fields config cost_lookup system_prompt_tokens
              metrics_data results_data k i o r Hi Ho Hr)
    as (e' & He' & F).
  rewrite He in He'. injection He' as <-.
  destruct F as (_ & _ & _ & _ & _ & _ & _ & _ & _ & _ & _ & _ & Ht & Hs & Hc).
  done.
Qed.

(** ** The result set of a whole run *)

Section RunCompleteness.
Implicit Types (results : batch_results_t) (batch : list row).

Lemma set_verdict_dom results q k v q' :
  is_Some (set_verdict results q k v !! q') ->
  q' = q \/ is_Some (results !! q').
Proof.
  unfold set_verdict. destruct (decide (q = q')) as [->|Hne]; [by left|].
  rewrite lookup_insert_ne by done. by right.
Qed.

Lemma fail_batch_dom batch k error i results q :
  is_Some (fail_batch batch k error i results !! q) ->
  q ∈ questionid <$> batch \/ is_Some (results !! q).
Proof.
  unfold fail_batch. revert results.
  induction batch as [|r rest IH]; intros results; cbn [foldl]; [by right|].
  intros Hq. rewrite fmap_cons.
  destruct (IH _ Hq) as [Hin|Hset]; [left; by right|].
  apply set_verdict_dom in Hset as [->|Hres]; [left; by left|by right].
Qed.

Lemma reconcile_dom parsed_results_map batch k i results results' q :
  reconcile parsed_results_map batch k i results = ok results' ->
  is_Some (results' !! q) ->
  q ∈ questionid <$> batch \/ is_Some (results !! q).
Proof.
  revert results. induction batch as [|r rest IH]; intros results;
    cbn [reconcile].
  - intros [= <-]. by right.
  - intros Hrun Hq. apply rbind_ok in Hrun as (v & _ & Hrest).
    rewrite fmap_cons.
    destruct (IH _ Hrest Hq) as [Hin|Hset]; [left; by right|].
    apply set_verdict_dom in Hset as [->|Hres]; [left; by left|by right].
Qed.

Context `{Oracles}.
Context (config : Config).
Context (thinking_models_lookup : gmap string cell).
Context (thinking_values_lookup : gmap string string).

Lemma assess_slot_dom batch messages results k sent results' sent' q :
  assess_slot batch config thinking_models_lookup thinking_values_lookup
    messages results k sent = (inr results', sent') ->
  is_Some (results' !! q) ->
  q ∈ questionid <$> batch \/ is_Some (results !! q).
Proof.
  unfold assess_slot. destruct (negb (enabled config k)).
  { intros [-> _]%mret_inr. by right. }
  intros Hrun.
  apply mbind_inr in Hrun as ([[response error] lat] & s1 & _ & Hrun).
  apply mbind_inr in Hrun as (i & s2 & _ & Hrun).
  destruct (error_truthy error).
  { apply mret_inr in Hrun as [-> _]. apply fail_batch_dom. }
  apply mbind_inr in Hrun as ([parsed_results_map parse_error] & s3 & _ & Hrun).
  destruct (error_truthy parse_error).
  { apply mret_inr in Hrun as [-> _]. apply fail_batch_dom. }
  apply lift_inr in Hrun as [Hrec _]. by apply (reconcile_dom _ _ _ _ _ _ _ Hrec).
Qed.

(** The batch step stores verdicts for items of the batch only. *)
Lemma assess_question_batch_dom batch sent results sent' q :
  assess_question_batch batch config thinking_models_lookup
    thinking_values_lookup sent = (inr results, sent') ->
  is_Some (results !! q) -> q ∈ questionid <$> batch.
Proof.
  unfold assess_question_batch, model_keys. cbn [foldM]. intros Hrun.
  apply mbind_inr in Hrun as (r1 & s1 & H1 & Hrun).
  apply mbind_inr in Hrun as (r2 & s2 & H2 & Hrun).
  apply mbind_inr in Hrun as (r3 & s3 & H3 & Hrun).
  apply mret_inr in Hrun as [-> _]. intros Hq.
  destruct (assess_slot_dom _ _ _ _ _ _ _ _ H3 Hq) as [?|Hq2]; [done|].
  destruct (assess_slot_dom _ _ _ _ _ _ _ _ H2 Hq2) as [?|Hq1]; [done|].
  destruct (assess_slot_dom _ _ _ _ _ _ _ _ H1 Hq1) as [?|Hq0]; [done|].
  rewrite lookup_empty in Hq0. by destruct Hq0.
Qed.

(** Merging the complete result set of a batch into the complete result
    set of the items before it ([all_batch_results.update]) gives a
    complete result set for all of them. *)
Lemma complete_update items batch (all results : batch_results_t) :
  complete config items all ->
  complete config batch results ->
  (forall q, is_Some (results !! q) -> q ∈ questionid <$> batch) ->
  complete config (items ++ batch) (results ∪ all).
Proof.
  intros Hall Hres Hdom q k. specialize (Hall q k). specialize (Hres q k).
  assert (Hlook : lookup_verdict (results ∪ all) q k
                  = match results !! q with
                    | Some inner => inner !! k
                    | None => lookup_verdict all q k
                    end).
  { unfold lookup_verdict. rewrite lookup_union.
    destruct (results !! q) as [inner|] eqn:Hq.
    - by destruct (all !! q).
    - by destruct (all !! q). }
  rewrite Hlook. unfold lookup_verdict in Hres.
  rewrite fmap_app.
  destruct (decide (q ∈ questionid <$> batch)) as [Hin|Hnin].
  - rewrite (bool_decide_eq_true_2 (q ∈ _ ++ _))
      by (apply elem_of_app; by right).
    rewrite bool_decide_eq_true_2 in Hres by done. simpl in *.
    destruct (results !! q) as [inner|]; simpl in *.
    + done.
    + destruct (enabled config k); [by destruct Hres as (? & [=] & _)|].
      destruct (bool_decide _); simpl in Hall; done.
  - assert (results !! q = None) as ->.
    { apply eq_None_not_Some. intros Hs. by apply Hnin, Hdom. }
    destruct (decide (q ∈ questionid <$> items)) as [Hin'|Hnin'].
    + rewrite (bool_decide_eq_true_2 (q ∈ _ ++ _))
        by (apply elem_of_app; by left).
      by rewrite bool_decide_eq_true_2 in Hall by done.
    + rewrite (bool_decide_eq_false_2 (q ∈ _ ++ _))
        by (intros [?|?]%elem_of_app; done).
      by rewrite bool_decide_eq_false_2 in Hall by done.
Qed.

Lemma foldM_process_batch_complete df_to_process indices :
  forall acc sent acc' sent' items,
    foldM (process_batch config thinking_models_lookup thinking_values_lookup
             df_to_process) acc indices sent = (inr acc', sent') ->
    complete config items (all_batch_results acc) ->
    complete config
      (items ++ concat (map (batch_df (batch_size config) df_to_process)
                          indices))
      (all_batch_results acc').
Proof.
  induction indices as [|i rest IH]; intros acc sent acc' sent' items;
    cbn [foldM].
  - intros [-> _]%mret_inr Hc. by rewrite app_nil_r.
  - intros Hrun Hc.
    apply mbind_inr in Hrun as (acc1 & s1 & Hstep & Hrun).
    cbn [map concat]. rewrite app_assoc. apply (IH _ _ _ _ _ Hrun).
    unfold process_batch in Hstep.
    apply mbind_inr in Hstep as (results & s2 & Hbatch & Hstep).
    apply mbind_inr in Hstep as (rows & s3 & _ & Hstep).
    apply mbind_inr in Hstep as (metrics & s4 & _ & Hstep).
    apply mret_inr in Hstep as [-> _]. simpl.
    apply complete_update; [done| |].
    + by eapply assess_question_batch_complete.
    + intros q. by eapply assess_question_batch_dom.
Qed.

(** A run that completes leaves a structurally complete result set for
    the selected item range. *)
Lemma assess_questions_complete cost_lookup df_all sent out sent' :
  0 < batch_size config ->
  assess_questions config thinking_models_lookup thinking_values_lookup
    cost_lookup df_all sent = (inr out, sent') ->
  complete config (select_rows config df_all) (out_all_batch_results out).
Proof.
  intros HB Hrun. unfold assess_questions in Hrun.
  apply mbind_inr in Hrun as (n & s1 & [Hn ->]%lift_inr & Hrun).
  apply mbind_inr in Hrun as (acc & s2 & Hfold & Hrun).
  apply mret_inr in Hrun as [-> _]. simpl.
  pose proof (foldM_process_batch_complete _ _ _ _ _ _ [] Hfold) as Hc.
  rewrite (concat_batches _ _ _ HB Hn) in Hc. apply Hc.
  intros q k. simpl. apply lookup_verdict_empty.
Qed.
End RunCompleteness.

(** ** When the run returns *)

Lemma feedback_cell_ok fb k field d :
  entry_ok fb k = true ->
  exists c, feedback_cell (JObj fb) k field d = ok c.
Proof.
  unfold entry_ok, feedback_cell. simpl.
  destruct (assoc k fb) as [j|]; simpl; [|by eexists].
  destruct j; try discriminate. by eexists.
Qed.

Lemma answer_cells_ok fb field js :
  forallb (fun j => entry_ok fb (answer_key j)) js = true ->
  exists cs, answer_cells (JObj fb) field js = ok cs.
Proof.
  induction js as [|j rest IH]; cbn [forallb answer_cells]; [by eexists|].
  intros [Hj Hrest]%andb_prop.
  destruct (feedback_cell_ok fb (answer_key j) field (JStr "") Hj) as [c ->].
  destruct (IH Hrest) as [cs ->]. by eexists.
Qed.

Lemma well_formed_members_nil : well_formed_members [].
Proof. reflexivity. Qed.

Lemma rows_for_model_ok config r model_result k :
  match model_result with
  | Some v => well_formed_members (result_members v)
  | None => True
  end ->
  exists rows, rows_for_model config r model_result k = ok rows.
Proof.
  intros Hwf. unfold rows_for_model.
  assert (exists fb,
             match model_result with
             | Some v => default (JObj []) (assoc "feedback" (result_members v))
             | None => JObj []
             end = JObj fb /\
             well_formed_feedback (JObj fb) = true) as (fb & -> & Hfb).
  { destruct model_result as [v|]; [|by exists []].
    unfold well_formed_members in Hwf.
    destruct (default _ _) as [| | | | |fb]; try discriminate. by exists fb. }
  simpl in Hfb. apply andb_prop in Hfb as [Hq Ha].
  destruct (feedback_cell_ok fb "question" "rewrite" (JStr "") Hq) as [rq ->].
  destruct (answer_cells_ok fb "rewrite" one_to_five Ha) as [ra ->].
  match goal with
  | |- context [feedback_cell (JObj fb) "question" "issue" ?d] =>
      destruct (feedback_cell_ok fb "question" "issue" d Hq) as [iq ->]
  end.
  destruct (answer_cells_ok fb "issue" one_to_five Ha) as [ia ->].
  by eexists.
Qed.

Lemma rows_for_item_ok config r (assessment : gmap model_key verdict) ks :
  (forall k v, assessment !! k = Some v ->
               well_formed_members (result_members v)) ->
  exists rows, rows_for_item config r assessment ks = ok rows.
Proof.
  intros Hwf. induction ks as [|k rest [more IH]]; cbn [rows_for_item];
    [by eexists|].
  destruct (negb (enabled config k)); [by eexists|].
  destruct (rows_for_model_ok config r (assessment !! k) k) as [rows ->].
  { destruct (assessment !! k) as [v|] eqn:Hv; [|done]. by eapply Hwf. }
  rewrite IH. by eexists.
Qed.

Lemma rows_for_batch_ok config batch results :
  verdicts_well_formed results ->
  exists rows, rows_for_batch config batch results = ok rows.
Proof.
  intros Hwf. induction batch as [|r rest [more IH]]; cbn [rows_for_batch];
    [by eexists|].
  destruct (rows_for_item_ok config r
              (default ∅ (results !! questionid r)) model_keys) as [rows ->].
  { intros k v Hv. apply (Hwf (questionid r) k). unfold lookup_verdict.
    destruct (results !! questionid r); [done|].
    simpl in Hv. by rewrite lookup_empty in Hv. }
  rewrite IH. by eexists.
Qed.

Lemma metrics_for_batch_ok config batch_number batch results ks :
  batch <> [] ->
  exists metrics,
    metrics_for_batch config batch_number batch results ks = ok metrics.
Proof.
  intros Hne. induction ks as [|k rest [more IH]];
    cbn [metrics_for_batch]; [by eexists|].
  destruct (negb (enabled config k)); [by eexists|].
  destruct batch as [|first others]; [done|].
  rewrite IH. by eexists.
Qed.

Lemma record_items_well_formed results_map items results_map' :
  Forall (fun item => match item with
                      | JObj members => well_formed_members members
                      | _ => True
                      end) items ->
  recorded_well_formed results_map ->
  record_items results_map items = ok results_map' ->
  recorded_well_formed results_map'.
Proof.
  intros Hitems. revert results_map.
  induction Hitems as [|item rest Hitem _ IH]; intros results_map Hmap;
    cbn [record_items].
  - by intros [= <-].
  - intros (m & Hm & Hrest)%rbind_ok. apply (IH m); [|done].
    unfold record_item in Hm.
    apply rbind_ok in Hm as (has & _ & Hm).
    destruct has; [|by injection Hm as <-].
    apply rbind_ok in Hm as (v & _ & Hm).
    apply rbind_ok in Hm as (key & _ & Hm).
    injection Hm as <-. by apply map_Forall_insert_2.
Qed.

Section RunReturns.
Context `{Oracles}.
Context (config : Config).
Context (thinking_models_lookup : gmap string cell).
Context (thinking_values_lookup : gmap string string).
Context (Hverdicts : well_formed_verdicts).

Lemma parse_llm_batch_response_well_formed response batch results_map error :
  parse_llm_batch_response response batch = ok (results_map, error) ->
  recorded_well_formed results_map.
Proof using Hverdicts.
  unfold parse_llm_batch_response.
  destruct (parse_llm_batch_response_body response) as [e|[m err]] eqn:Hbody.
  { destruct e; intros [= <- _]; apply map_Forall_empty. }
  intros [= <- _]. unfold parse_llm_batch_response_body in Hbody.
  apply rbind_ok in Hbody as (c & _ & Hbody).
  apply rbind_ok in Hbody as (text & _ & Hbody).
  destruct (json_loads (clean_batch_content text)) as [parsed|] eqn:Hloads;
    [|discriminate].
  destruct parsed as [|b|z|s|items|kv];
    try (injection Hbody as <- _; apply map_Forall_empty).
  apply rbind_ok in Hbody as (m' & Hrec & [= <- _]).
  eapply record_items_well_formed; [|apply map_Forall_empty|exact Hrec].
  by eapply Hverdicts.
Qed.

Lemma reconcile_item_well_formed parsed_results_map q i v :
  recorded_well_formed parsed_results_map ->
  reconcile_item parsed_results_map q i = ok v ->
  well_formed_members (result_members v).
Proof.
  intros Hmap. unfold reconcile_item.
  destruct (parsed_results_map !! q) as [j|] eqn:Hj;
    [|intros [= <-]; apply well_formed_members_nil].
  destruct (py_truthy j); [|intros [= <-]; apply well_formed_members_nil].
  specialize (Hmap _ _ Hj). simpl in Hmap.
  destruct j; intros [= <-]. exact Hmap.
Qed.

Lemma assess_slot_well_formed batch messages results k sent results' sent' :
  assess_slot batch config thinking_models_lookup thinking_values_lookup
    messages results k sent = (inr results', sent') ->
  verdicts_well_formed results ->
  verdicts_well_formed results'.
Proof using Hverdicts.
  unfold assess_slot. destruct (negb (enabled config k)).
  { by intros [-> _]%mret_inr. }
  intros Hrun Hwf.
  apply mbind_inr in Hrun as ([[response error] lat] & s1 & _ & Hrun).
  apply mbind_inr in Hrun as (i & s2 & _ & Hrun).
  assert (Hfail : forall msg,
             verdicts_well_formed (fail_batch batch k msg i results)).
  { intros msg q' k' v. rewrite lookup_verdict_fail_batch.
    case_decide; [|apply Hwf]. intros [= <-]. apply well_formed_members_nil. }
  destruct (error_truthy error).
  { apply mret_inr in Hrun as [-> _]. apply Hfail. }
  apply mbind_inr in Hrun
    as ([parsed_results_map parse_error] & s3 & [Hparse _]%lift_inr & Hrun).
  destruct (error_truthy parse_error).
  { apply mret_inr in Hrun as [-> _]. apply Hfail. }
  apply lift_inr in Hrun as [Hrec _].
  intros q' k' v Hv.
  pose proof (reconcile_lookup _ _ _ _ _ _ Hrec q' k') as Hlook.
  case_decide.
  - destruct Hlook as (v' & Hv' & Hitem). rewrite Hv' in Hv.
    injection Hv as <-.
    eapply reconcile_item_well_formed; [|exact Hitem].
    by eapply parse_llm_batch_response_well_formed.
  - rewrite Hlook in Hv. by eapply Hwf.
Qed.

Lemma assess_question_batch_well_formed batch sent results sent' :
  assess_question_batch batch config thinking_models_lookup
    thinking_values_lookup sent = (inr results, sent') ->
  verdicts_well_formed results.
Proof using Hverdicts.
  unfold assess_question_batch, model_keys. cbn [foldM]. intros Hrun.
  apply mbind_inr in Hrun as (r1 & s1 & H1 & Hrun).
  apply mbind_inr in Hrun as (r2 & s2 & H2 & Hrun).
  apply mbind_inr in Hrun as (r3 & s3 & H3 & Hrun).
  apply mret_inr in Hrun as [-> _].
  eapply assess_slot_well_formed; [exact H3|].
  eapply assess_slot_well_formed; [exact H2|].
  eapply assess_slot_well_formed; [exact H1|].
  intros q k v. by rewrite lookup_verdict_empty.
Qed.

Context (Hbuild :
  requests_build config thinking_models_lookup thinking_values_lookup).
Context (Hworld : well_formed_world).

Lemma process_batch_returns df_to_process acc i sent :
  batch_df (batch_size config) df_to_process i <> [] ->
  exists acc' sent',
    process_batch config thinking_models_lookup thinking_values_lookup
      df_to_process acc i sent = (inr acc', sent').
Proof using Hverdicts Hbuild Hworld.
  intros Hne. unfold process_batch.
  destruct (assess_question_batch_returns config thinking_models_lookup
              thinking_values_lookup
              (batch_df (batch_size config) df_to_process i) sent
              Hbuild Hworld) as (results & s1 & Hbatch).
  rewrite (mbind_ok _ _ _ _ _ Hbatch).
  destruct (rows_for_batch_ok config
              (batch_df (batch_size config) df_to_process i) results)
    as [rows ->].
  { by eapply assess_question_batch_well_formed. }
  rewrite mbind_lift_ok.
  destruct (metrics_for_batch_ok config (i + 1)
              (batch_df (batch_size config) df_to_process i) results
              model_keys Hne) as [metrics ->].
  rewrite mbind_lift_ok. by eexists _, _.
Qed.

Lemma foldM_process_batch_returns df_to_process indices :
  (forall i, i ∈ indices ->
             batch_df (batch_size config) df_to_process i <> []) ->
  forall acc sent,
  exists acc' sent',
    foldM (process_batch config thinking_models_lookup thinking_values_lookup
             df_to_process) acc indices sent = (inr acc', sent').
Proof using Hverdicts Hbuild Hworld.
  induction indices as [|i rest IH]; intros Hne acc sent; cbn [foldM].
  - by eexists _, _.
  - destruct (process_batch_returns df_to_process acc i sent)
      as (acc1 & s1 & Hstep); [apply Hne; by left|].
    rewrite (mbind_ok _ _ _ _ _ Hstep).
    apply IH. intros j Hj. apply Hne. by right.
Qed.

Lemma batch_df_nonempty (df_to_process : list row) n i :
  0 < batch_size config ->
  total_batches (batch_size config) df_to_process = ok n ->
  i ∈ py_range n ->
  batch_df (batch_size config) df_to_process i <> [].
Proof.
  intros HB Hn Hi. unfold total_batches in Hn.
  destruct (Z.eqb_spec (batch_size config) 0) as [?|_]; [lia|].
  injection Hn as <-.
  destruct (total_batches_bounds (batch_size config) df_to_process _ HB
              eq_refl) as (Hq & Hlo & _).
  unfold py_range in Hi. change (map ?f ?l) with (f <$> l) in Hi.
  apply list_elem_of_fmap in Hi as (j & -> & Hj).
  apply elem_of_seq in Hj. rewrite batch_df_take_drop by done.
  intros Hnil. apply (f_equal length) in Hnil.
  rewrite length_take, length_drop in Hnil. simpl in Hnil. nia.
Qed.

(** Under the wire contract, with requests that build and decoded
    verdicts whose feedback maps are well formed, a run with a positive
    batch size completes. *)
Lemma assess_questions_returns cost_lookup df_all sent :
  0 < batch_size config ->
  exists out sent',
    assess_questions config thinking_models_lookup thinking_values_lookup
      cost_lookup df_all sent = (inr out, sent').
Proof using Hverdicts Hbuild Hworld.
  intros HB. unfold assess_questions.
  destruct (total_batches (batch_size config) (select_rows config df_all))
    as [e|n] eqn:Hn.
  { unfold total_batches in Hn.
    destruct (Z.eqb_spec (batch_size config) 0); [lia|discriminate]. }
  rewrite mbind_lift_ok.
  match goal with
  | |- context [foldM ?f ?acc0 (py_range n)] =>
      destruct (foldM_process_batch_returns (select_rows config df_all)
                  (py_range n)) with (acc := acc0) (sent := sent)
        as (acc' & s' & Hfold)
  end.
  { intros i Hi. by eapply batch_df_nonempty. }
  rewrite (mbind_ok _ _ _ _ _ Hfold). by eexists _, _.
Qed.
End RunReturns.


Lemma sample_requests_build (tags : model_key -> Z) (size : Z) :
  requests_build (sample_config tags size CBlank "")
    sample_thinking_models sample_thinking_values.
Proof.
  intros k messages _. destruct k; eexists; vm_compute; reflexivity.
Defined.

Lemma two_of_three_well_formed : @well_formed_world two_of_three.
Proof. intros p n. destruct n as [|n]; vm_compute; reflexivity. Defined.

Lemma two_of_three_verdicts : @well_formed_verdicts two_of_three.
Proof.
  intros text items Hloads.
  unfold json_loads, two_of_three, scripted in Hloads.
  cbn [assoc] in Hloads.
  destruct (String.eqb "[two verdicts]" text); [|discriminate].
  injection Hloads as <-. repeat constructor.
Defined.




(** *** Two further worked runs *)

(** C1, at the input where the code departs from it. One slot is
    enabled and the gateway answers the request for the item 1 with
    status 200 and a chat completion whose message content is null. The
    call itself succeeds, with a response and no error message, so the
    branch that files a per-item error verdict for a failed call is not
    taken. The batch parser then calls [strip] on the content; the
    [AttributeError] is not among the exceptions its handler catches and
    the parser is called outside any handler of assess_question_batch,
    which the exception leaves after the request has been sent. No
    result set is returned: the requested item has no verdict for the
    enabled model, not even an error verdict, and the run over that item
    ends in the same exception with nothing to write. *)
Lemma non_text_content_leaves_item_without_verdict :
  let config := sample_config (only model_1) 3 CBlank "" in
  enabled config model_1 = true /\
  (exists response latency p,
     @call_openrouter_api null_content_answer (model_name_of config model_1)
       (batch_messages config [sample_item 1]) config
       sample_thinking_models sample_thinking_values []
     = (inr (response, None, latency), [p]) /\
     response_content response = ok JNull) /\
  (exists p,
     @assess_question_batch null_content_answer [sample_item 1] config
       sample_thinking_models sample_thinking_values []
     = (inl AttributeError, [p])) /\
  (forall results sent',
     @assess_question_batch null_content_answer [sample_item 1] config
       sample_thinking_models sample_thinking_values []
     <> (inr results, sent')) /\
  (exists p,
     @assess_questions null_content_answer config
       sample_thinking_models sample_thinking_values sample_costs
       [sample_item 1] []
     = (inl AttributeError, [p])).
Proof.
  intros config.
  assert (E : exists p,
             @assess_question_batch null_content_answer [sample_item 1] config
               sample_thinking_models sample_thinking_values []
             = (inl AttributeError, [p]))
    by (eexists; vm_compute; reflexivity).
  split; [reflexivity|].
  split; [eexists _, _, _; split; vm_compute; reflexivity|].
  split; [exact E|].
  split.
  - intros results sent'. destruct E as [p ->]. discriminate.
  - eexists. vm_compute. reflexivity.
Qed.

(** Two enabled slots whose models share the display name: the rows of
    both slots are counted for each of them, and the dashboard shows two
    items and two recommended changes for a run over one item. *)
Lemma shared_display_name_doubles_item_counts :
  exists out sent e1 e2,
    @assess_questions two_answers twin_config ∅ ∅ ∅ [sample_item 1] []
    = (inr out, sent) /\
    length (out_results out) = 8%nat /\
    out_dashboard out = Some [e1; e2] /\
    (Total_Items e1 == 2)%Q /\
    (Successful_Items e1 == 2)%Q /\
    Changes_Recommended e1 = 2.
Proof.
  eexists _, _, _, _. split; [vm_compute; reflexivity|].
  repeat split; vm_compute; reflexivity.
Qed.

(** ** Further properties of the pipeline *)

(** ** Strings *)

Lemma string_app_cons (a : ascii) (s t : string) :
  String a s +:+ t = String a (s +:+ t).
Proof. reflexivity. Qed.

Lemma string_app_nil_l (s : string) : "" +:+ s = s.
Proof. reflexivity. Qed.

Lemma string_app_nil_r (s : string) : s +:+ "" = s.
Proof.
  induction s as [|a s IH]; [done|]. by rewrite string_app_cons, IH.
Qed.

Lemma string_app_assoc (s t u : string) : (s +:+ t) +:+ u = s +:+ (t +:+ u).
Proof.
  induction s as [|a s IH]; [done|]. by rewrite !string_app_cons, IH.
Qed.

Lemma string_length_app (s t : string) :
  String.length (s +:+ t) = (String.length s + String.length t)%nat.
Proof.
  induction s as [|a s IH]; [done|].
  rewrite string_app_cons. simpl. by rewrite IH.
Qed.

Lemma string_rev_app_acc (s acc : string) :
  String.rev_app s acc = String.rev s +:+ acc.
Proof.
  unfold String.rev. revert acc.
  induction s as [|a s IH]; intros acc; simpl; [done|].
  rewrite (IH (String a acc)), (IH (String a "")).
  by rewrite string_app_assoc.
Qed.

Lemma string_rev_cons (a : ascii) (s : string) :
  String.rev (String a s) = String.rev s +:+ String a "".
Proof. unfold String.rev at 1. simpl. apply string_rev_app_acc. Qed.

Lemma string_rev_app (s t : string) :
  String.rev (s +:+ t) = String.rev t +:+ String.rev s.
Proof.
  induction s as [|a s IH].
  - by rewrite string_app_nil_l, string_app_nil_r.
  - by rewrite string_app_cons, !string_rev_cons, IH, string_app_assoc.
Qed.

Lemma string_rev_involutive (s : string) : String.rev (String.rev s) = s.
Proof.
  induction s as [|a s IH]; [done|].
  by rewrite string_rev_cons, string_rev_app, IH.
Qed.

Lemma string_length_rev (s : string) :
  String.length (String.rev s) = String.length s.
Proof.
  induction s as [|a s IH]; [done|].
  rewrite string_rev_cons, string_length_app, IH. simpl. lia.
Qed.

(** [find_char], [startswith] and slices of a concatenation *)

Lemma find_char_app_None (c : ascii) (s t : string) :
  find_char c (s +:+ t) = None <-> find_char c s = None /\ find_char c t = None.
Proof.
  induction s as [|a s IH]; [rewrite string_app_nil_l; simpl; tauto|].
  rewrite string_app_cons. simpl. destruct (Ascii.eqb a c).
  - split; [done|]. by intros [? _].
  - by rewrite !fmap_None.
Qed.

Lemma find_char_app_first (c : ascii) (s t : string) :
  find_char c s = None ->
  find_char c (s +:+ String c t) = Some (String.length s).
Proof.
  induction s as [|a s IH]; intros Hs.
  - rewrite string_app_nil_l. simpl. by rewrite Ascii.eqb_refl.
  - rewrite string_app_cons. simpl in *.
    destruct (Ascii.eqb a c); [done|].
    apply fmap_None in Hs. by rewrite (IH Hs).
Qed.

Lemma find_char_rev_None (c : ascii) (s : string) :
  find_char c s = None -> find_char c (String.rev s) = None.
Proof.
  induction s as [|a s IH]; [done|]. simpl.
  destruct (Ascii.eqb a c) eqn:E; [done|]. intros Hs%fmap_None.
  rewrite string_rev_cons. apply find_char_app_None. split; [by apply IH|].
  simpl. by rewrite E.
Qed.

Lemma rfind_char_app_last (c : ascii) (s t : string) :
  find_char c t = None ->
  rfind_char c (s +:+ String c t) = Some (String.length s).
Proof.
  intros Ht. unfold rfind_char.
  rewrite string_rev_app, string_rev_cons, string_app_assoc.
  rewrite string_app_cons, string_app_nil_l.
  rewrite find_char_app_first by by apply find_char_rev_None.
  simpl. f_equal. rewrite string_length_rev, string_length_app. simpl. lia.
Qed.

Lemma substring_app_skip (s t : string) (n : nat) :
  String.substring (String.length s) n (s +:+ t) = String.substring 0 n t.
Proof.
  induction s as [|a s IH]; [done|]. by rewrite string_app_cons.
Qed.

Lemma substring_app_take (s t : string) :
  String.substring 0 (String.length s) (s +:+ t) = s.
Proof.
  induction s as [|a s IH]; [by destruct t|].
  rewrite string_app_cons. simpl. by rewrite IH.
Qed.

(** ** An array embedded in prose *)

Lemma prefix_app_true (p q s : string) :
  String.prefix (p +:+ q) s = true -> String.prefix p s = true.
Proof.
  revert s. induction p as [|a p IH]; intros s; [by destruct s|].
  rewrite string_app_cons. destruct s as [|b s]; simpl; [done|].
  destruct (ascii_dec a b); [apply IH|done].
Qed.

Lemma startswith_char_false (c : ascii) (s t : string) :
  s <> "" -> find_char c s = None ->
  startswith (String c "") (s +:+ t) = false.
Proof.
  destruct s as [|a s]; [done|]. intros _. simpl.
  destruct (Ascii.eqb_spec a c) as [->|Hne]; [done|]. intros _.
  unfold startswith. rewrite ?string_app_cons. simpl.
  destruct (ascii_dec c a); [by subst|done].
Qed.

(** X1. An array embedded in prose (parse_llm_batch_response, the
    cleaning steps). For a trimmed text without code fences that consists
    of a non-empty lead-in free of opening brackets, a bracketed body, and
    a tail free of closing brackets, the cleaning steps return exactly the
    bracketed part, from the first opening bracket to the last closing
    one. *)
Theorem clean_batch_content_extracts_array (pre body post : string) :
  let content := pre +:+ "[" +:+ body +:+ "]" +:+ post in
  py_strip content = content ->
  startswith "```" content = false ->
  endswith "```" content = false ->
  pre <> "" ->
  find_char "[" pre = None ->
  find_char "]" post = None ->
  clean_batch_content content = "[" +:+ body +:+ "]".
Proof.
  intros content Hstrip Hopen Hclose Hpre Hfirst Hlast.
  unfold clean_batch_content. cbv zeta. rewrite Hstrip.
  assert (startswith "```json" content = false) as ->.
  { destruct (startswith "```json" content) eqn:E; [|done].
    apply (prefix_app_true "```" "json") in E.
    unfold startswith in Hopen. congruence. }
  rewrite Hopen, Hclose.
  unfold content at 1. rewrite startswith_char_false by done.
  change content with (pre +:+ String "[" (body +:+ String "]" post)) at 1.
  rewrite find_char_app_first by done.
  assert (content = (pre +:+ "[" +:+ body) +:+ String "]" post) as Hassoc.
  { unfold content. by rewrite !string_app_assoc. }
  rewrite Hassoc at 1. rewrite rfind_char_app_last by done.
  unfold str_slice. unfold content. rewrite substring_app_skip.
  replace (S (String.length (pre +:+ "[" +:+ body)) - String.length pre)%nat
    with (String.length ("[" +:+ body +:+ "]")).
  2:{ rewrite !string_length_app. simpl. lia. }
  rewrite <- (substring_app_take ("[" +:+ body +:+ "]") post) at 2.
  by rewrite !string_app_assoc.
Qed.

(** The reply of the worked example of the specification. *)
Lemma clean_batch_content_extracts_array_witness :
  clean_batch_content "Here is the result: [1, 2] done." = "[1, 2]".
Proof.
  apply (clean_batch_content_extracts_array "Here is the result: " "1, 2" " done.");
    [reflexivity|reflexivity|reflexivity|discriminate|reflexivity|reflexivity].
Defined.

(** ** Short model names *)

Lemma str_contains_char (c : ascii) (s : string) :
  str_contains (String c "") s = bool_decide (is_Some (find_char c s)).
Proof.
  unfold str_contains. apply bool_decide_ext.
  induction s as [|a s IH]; simpl.
  - split; intros [? ?]; done.
  - destruct (ascii_dec c a) as [->|Hne].
    + rewrite Ascii.eqb_refl.
      replace (String.prefix "" s) with true by by destruct s.
      split; intros _; eauto.
    + destruct (Ascii.eqb_spec a c) as [->|_]; [done|].
      rewrite fmap_is_Some, <- IH.
      destruct (String.index 0 (String c "") s); split; intros [? ?]; eauto; done.
Qed.

Lemma split_on_nonempty (sep : ascii) (s : string) : split_on sep s <> [].
Proof.
  induction s as [|a s IH]; simpl; [done|].
  destruct (Ascii.eqb a sep); [done|]. by destruct (split_on sep s).
Qed.

Lemma split_on_no_sep (sep : ascii) (s : string) :
  find_char sep s = None -> split_on sep s = [s].
Proof.
  induction s as [|a s IH]; simpl; [done|].
  destruct (Ascii.eqb a sep); [done|]. intros Hs%fmap_None.
  by rewrite (IH Hs).
Qed.

Lemma split_on_app (sep : ascii) (s t : string) :
  split_on sep (s +:+ String sep t) = split_on sep s ++ split_on sep t.
Proof.
  induction s as [|a s IH].
  - rewrite string_app_nil_l. simpl. by rewrite Ascii.eqb_refl.
  - rewrite string_app_cons. simpl. destruct (Ascii.eqb a sep).
    + by rewrite IH.
    + rewrite IH. pose proof (split_on_nonempty sep s).
      by destruct (split_on sep s).
Qed.

Lemma split_on_parts (sep : ascii) (s : string) :
  Forall (fun w => find_char sep w = None) (split_on sep s).
Proof.
  induction s as [|a s IH]; simpl; [by repeat constructor|].
  destruct (Ascii.eqb a sep) eqn:E; [by constructor|].
  destruct (split_on sep s) as [|w ws]; [repeat constructor; simpl; by rewrite E|].
  inversion IH as [|? ? Hw Hws]; subst. constructor; [|done].
  simpl. by rewrite E, Hw.
Qed.

Lemma last_app_nonempty {A} (l1 l2 : list A) (d : A) :
  l2 <> [] -> List.last (l1 ++ l2) d = List.last l2 d.
Proof.
  intros Hl2. induction l1 as [|x l1 IH]; [done|].
  simpl. rewrite IH. destruct (l1 ++ l2) eqn:E; [|done].
  by apply app_eq_nil in E as [_ ?].
Qed.

Lemma last_Forall {A} (P : A -> Prop) (l : list A) (d : A) :
  l <> [] -> Forall P l -> P (List.last l d).
Proof.
  intros Hl HP. induction HP as [|x l Hx HP IH]; [done|].
  destruct l as [|y l]; [done|]. by apply IH.
Qed.

Lemma find_char_app_is_Some (c : ascii) (s t : string) :
  is_Some (find_char c (s +:+ String c t)).
Proof.
  induction s as [|a s IH].
  - rewrite string_app_nil_l. simpl. rewrite Ascii.eqb_refl. eauto.
  - rewrite string_app_cons. simpl. destruct (Ascii.eqb a c); [eauto|].
    by apply fmap_is_Some.
Qed.

(** X2. get_short_model_name returns the part of the name after its last
    slash: a name without a slash is returned unchanged, a name of the
    form provider/name with no slash in name gives name whatever the
    provider part is, and the result never contains a slash. Two models
    of different providers with the same last segment therefore share a
    display name. *)
Theorem short_model_name_is_last_segment :
  (forall name,
     find_char "/" name = None -> get_short_model_name name = name) /\
  (forall provider name,
     find_char "/" name = None ->
     get_short_model_name (provider +:+ "/" +:+ name) = name) /\
  (forall full, find_char "/" (get_short_model_name full) = None).
Proof.
  split; [|split].
  - intros name Hname. unfold get_short_model_name.
    by rewrite str_contains_char, Hname.
  - intros provider name Hname. unfold get_short_model_name.
    change (provider +:+ "/" +:+ name) with (provider +:+ String "/" name).
    rewrite str_contains_char, bool_decide_true
      by apply find_char_app_is_Some.
    rewrite split_on_app, (split_on_no_sep _ name) by done.
    by rewrite last_app_nonempty.
  - intros full. unfold get_short_model_name.
    rewrite str_contains_char.
    destruct (find_char "/" full) eqn:E.
    + apply (last_Forall (fun w => find_char "/" w = None));
        [apply split_on_nonempty|apply split_on_parts].
    + done.
Qed.

(** ** Trimming *)

Lemma lstrip_head (s : string) : head_not_space (lstrip s).
Proof.
  induction s as [|a s IH]; simpl; [done|].
  by destruct (is_space a) eqn:E.
Qed.

Lemma lstrip_fixed (s : string) : head_not_space s -> lstrip s = s.
Proof. destruct s as [|a s]; simpl; [done|]. by intros ->. Qed.

Lemma lstrip_app_last (s : string) (a : ascii) :
  is_space a = false ->
  lstrip (s +:+ String a "") = lstrip s +:+ String a "".
Proof.
  intros Ha. induction s as [|b s IH].
  - rewrite string_app_nil_l. simpl. by rewrite Ha.
  - rewrite string_app_cons. simpl. by destruct (is_space b).
Qed.

Lemma rstrip_head (s : string) : head_not_space s -> head_not_space (rstrip s).
Proof.
  destruct s as [|a s]; [done|]. simpl. intros Ha. unfold rstrip.
  by rewrite string_rev_cons, lstrip_app_last, string_rev_app.
Qed.

Lemma py_strip_idempotent (s : string) : py_strip (py_strip s) = py_strip s.
Proof.
  unfold py_strip.
  rewrite (lstrip_fixed (rstrip (lstrip s)))
    by apply rstrip_head, lstrip_head.
  unfold rstrip. rewrite string_rev_involutive.
  by rewrite (lstrip_fixed (lstrip _)) by apply lstrip_head.
Qed.

Lemma str_replace_absent (c : ascii) (old new s : string) :
  find_char c s = None -> str_replace (String c old) new s = s.
Proof.
  unfold str_replace. induction s as [|a s IH]; [done|].
  simpl. destruct (Ascii.eqb_spec a c) as [->|Hne]; [done|].
  intros Hs%fmap_None. destruct (ascii_dec c a); [by subst|].
  by rewrite IH.
Qed.

(** X3. _clean_text maps an empty cell to the empty text; its result is
    always trimmed, so that trimming it again changes nothing; and on a
    text without an ampersand it does nothing but trim. *)
Theorem clean_text_is_trimmed :
  _clean_text None = "" /\
  (forall text, py_strip (_clean_text text) = _clean_text text) /\
  (forall text_str,
     find_char "&" text_str = None ->
     _clean_text (Some text_str) = py_strip text_str).
Proof.
  split; [done|split].
  - intros [text_str|]; [|done]. apply py_strip_idempotent.
  - intros text_str Habsent. unfold _clean_text.
    cbv zeta.
    rewrite (str_replace_absent "&" "nbsp;" _ text_str) by done.
    rewrite (str_replace_absent "&" "lt;" _ text_str) by done.
    rewrite (str_replace_absent "&" "gt;" _ text_str) by done.
    rewrite (str_replace_absent "&" "quot;" _ text_str) by done.
    by rewrite (str_replace_absent "&" "amp;" _ text_str) by done.
Qed.

(** A question text with blanks around it and no entity. *)
Lemma clean_text_is_trimmed_witness :
  _clean_text (Some "  What is 2 + 2?  ") = "What is 2 + 2?".
Proof.
  rewrite (proj2 (proj2 clean_text_is_trimmed) "  What is 2 + 2?  ");
    reflexivity.
Defined.

(** ** Durations *)

Lemma Qfloor_unique (x : Q) (z : Z) :
  (inject_Z z <= x)%Q -> (x < inject_Z (z + 1))%Q -> Qfloor x = z.
Proof.
  intros Hle Hlt.
  pose proof (Qfloor_le x) as Hf1. pose proof (Qlt_floor x) as Hf2.
  assert (inject_Z z < inject_Z (Qfloor x + 1))%Q as H1 by lra.
  assert (inject_Z (Qfloor x) < inject_Z (z + 1))%Q as H2 by lra.
  rewrite <- Zlt_Qlt in H1, H2. lia.
Qed.

Lemma Qfloor_bounds (x : Q) :
  (inject_Z (Qfloor x) <= x /\ x < inject_Z (Qfloor x) + 1)%Q.
Proof.
  split; [apply Qfloor_le|].
  pose proof (Qlt_floor x) as H. rewrite inject_Z_plus in H. exact H.
Qed.

Lemma Qtrunc_nonneg (x : Q) : (0 <= x)%Q -> Qtrunc x = Qfloor x.
Proof.
  destruct x as [n d]. unfold Qle, Qtrunc, Qfloor. simpl. intros H.
  apply Z.quot_div_nonneg; lia.
Qed.

(** X4. format_time_hms splits a duration into hours, minutes and
    seconds that add up to the whole seconds of the duration, with minutes
    and seconds between 0 and 59; the hours are not negative when the
    duration is not. (Durations are rationals, the idealisation of
    floats used throughout.) *)
Theorem format_time_hms_decomposes (seconds : Q) :
  let t := format_time_hms seconds in
  hours t * 3600 + minutes t * 60 + secs t = Qfloor seconds /\
  0 <= minutes t < 60 /\
  0 <= secs t < 60 /\
  ((0 <= seconds)%Q -> 0 <= hours t).
Proof.
  unfold format_time_hms. destruct (Qeq_bool seconds 0) eqn:E.
  - apply Qeq_bool_eq in E. cbn [hours minutes secs].
    rewrite (Qfloor_comp _ _ E). change (Qfloor 0) with 0.
    repeat split; intros; lia.
  - clear E. cbn [hours minutes secs]. unfold Qmod.
    set (h := Qfloor (seconds / 3600)).
    set (f := Qfloor (seconds / 60)).
    set (r := (seconds - 3600 * inject_Z h)%Q).
    set (m := Qfloor (r / 60)).
    set (c := (seconds - 60 * inject_Z f)%Q).
    destruct (Qfloor_bounds (seconds / 3600)) as [Hh1 Hh2]. fold h in Hh1, Hh2.
    destruct (Qfloor_bounds (seconds / 60)) as [Hf1 Hf2]. fold f in Hf1, Hf2.
    destruct (Qfloor_bounds (r / 60)) as [Hm1 Hm2]. fold m in Hm1, Hm2.
    destruct (Qfloor_bounds c) as [Hc1 Hc2].
    assert (seconds / 3600 == seconds * (1 # 3600))%Q as E1 by field.
    assert (seconds / 60 == seconds * (1 # 60))%Q as E2 by field.
    assert (r / 60 == r * (1 # 60))%Q as E3 by field.
    rewrite E1 in Hh1, Hh2. rewrite E2 in Hf1, Hf2. rewrite E3 in Hm1, Hm2.
    assert (r == seconds - 3600 * inject_Z h)%Q as Hr by reflexivity.
    assert (c == seconds - 60 * inject_Z f)%Q as Hc by reflexivity.
    assert (0 <= c)%Q as Hc0 by lra.
    rewrite (Qtrunc_nonneg c Hc0).
    clearbody h f r m c. clear E1 E2 E3.
    assert (forall z : Z, (0 <= inject_Z z + 1)%Q -> (0 < inject_Z z + 1)%Q
                          -> 0 <= z) as Hnonneg.
    { intros z _ Hz. apply Z.lt_succ_r. unfold Z.succ.
      rewrite Zlt_Qlt, inject_Z_plus. exact Hz. }
    assert (forall z : Z, (inject_Z z < 60)%Q -> z < 60) as Hlt60.
    { intros z Hz. by rewrite Zlt_Qlt. }
    assert (0 <= m < 60) as Hm by (split; [apply Hnonneg|apply Hlt60]; lra).
    assert (0 <= Qfloor c < 60) as Hs
      by (split; [apply Hnonneg|apply Hlt60]; lra).
    assert (inject_Z f == 60 * inject_Z h + inject_Z m)%Q as Hf.
    { assert (f = 60 * h + m) as ->.
      - assert (inject_Z f < inject_Z (60 * h + m + 1))%Q as H1.
        { rewrite !inject_Z_plus, inject_Z_mult.
          change (inject_Z 60) with 60%Q. change (inject_Z 1) with 1%Q. lra. }
        assert (inject_Z (60 * h + m) < inject_Z (f + 1))%Q as H2.
        { rewrite !inject_Z_plus, inject_Z_mult.
          change (inject_Z 60) with 60%Q. change (inject_Z 1) with 1%Q. lra. }
        rewrite <- Zlt_Qlt in H1, H2. lia.
      - rewrite inject_Z_plus, inject_Z_mult. reflexivity. }
    split; [|split; [done|split; [done|]]].
    + symmetry. apply Qfloor_unique;
        rewrite ?inject_Z_plus, ?inject_Z_mult;
        change (inject_Z 3600) with 3600%Q; change (inject_Z 60) with 60%Q;
        change (inject_Z 1) with 1%Q; lra.
    + intros Hpos. apply Hnonneg; lra.
Qed.

(** ** The batch parser *)

Lemma record_item_inv results_map item results_map' :
  record_item results_map item = ok results_map' ->
  match item_id item with
  | Some q => results_map' = <[q := item]> results_map
  | None => results_map' = results_map
  end.
Proof.
  unfold record_item.
  destruct item as [|b|z|s|l|kv]; simpl; try done.
  - destruct (str_contains "questionid" s); simpl; [done|]. by intros [= <-].
  - destruct (existsb _ l); simpl; [done|]. by intros [= <-].
  - destruct (assoc "questionid" kv) as [v|] eqn:Hv.
    + rewrite bool_decide_eq_true_2 by eauto. simpl.
      destruct (hashable v) as [e|q]; simpl; [done|]. by intros [= <-].
    + rewrite bool_decide_eq_false_2 by (by intros [? [=]]). by intros [= <-].
Qed.

Lemma record_items_lookup results_map items results_map' q :
  record_items results_map items = ok results_map' ->
  results_map' !! q
  = match last (filter (fun item => item_id item = Some q) items) with
    | Some item => Some item
    | None => results_map !! q
    end.
Proof.
  revert results_map. induction items as [|item rest IH];
    intros results_map; cbn [record_items]; [by intros [= <-]|].
  intros (m & Hitem & Hrest)%rbind_ok.
  rewrite (IH _ Hrest). apply record_item_inv in Hitem.
  rewrite filter_cons. destruct (decide (item_id item = Some q)) as [Hq|Hq].
  - rewrite Hq in Hitem. subst m. rewrite last_cons.
    destruct (last _); [done|]. by rewrite lookup_insert_eq.
  - destruct (last _); [done|].
    destruct (item_id item) as [q'|]; subst m; [|done].
    rewrite lookup_insert_ne; [done|]. by intros ->.
Qed.

Section ParserFacts.
Context `{Oracles}.

(** X5. parse_llm_batch_response is all or nothing: whenever it returns
    an error message, the result map it returns with it is empty, and the
    message is a non-empty text, so that the caller's test
    [if parse_error:] succeeds and the whole batch is marked failed. *)
Theorem batch_parser_error_leaves_no_results response batch results_map msg :
  parse_llm_batch_response response batch = ok (results_map, Some msg) ->
  results_map = ∅ /\ error_truthy (Some msg) = true.
Proof.
  unfold parse_llm_batch_response, parse_llm_batch_response_body.
  destruct (response_content response) as [e|c]; simpl.
  - destruct e; intros [= <- <-]; done.
  - destruct (as_str c) as [e|s]; simpl.
    + destruct e; intros [= <- <-]; done.
    + destruct (json_loads (clean_batch_content s)) as [parsed|]; simpl;
        [|by intros [= <- <-]].
      destruct parsed as [|b|z|s'|items|kv]; try by intros [= <- <-].
      destruct (record_items ∅ items) as [e|m]; simpl; [|done].
      destruct e; intros [= <- <-]; done.
Qed.

(** X6. What parse_llm_batch_response returns without an error: the
    message content was a text whose cleaned form decoded to an array,
    and the result map holds, for each identifier, the last item of the
    array that is an object carrying that identifier under questionid
    (a later item replaces an earlier one with the same identifier);
    items without an identifier are ignored, and identifiers that no item
    carries have no entry. *)
Theorem batch_parser_keeps_last_object response batch results_map :
  parse_llm_batch_response response batch = ok (results_map, None) ->
  exists content items,
    response_content response = ok (JStr content) /\
    json_loads (clean_batch_content content) = Some (JArr items) /\
    forall q,
      results_map !! q
      = last (filter (fun item => item_id item = Some q) items).
Proof.
  unfold parse_llm_batch_response, parse_llm_batch_response_body.
  destruct (response_content response) as [e|c]; simpl.
  - by destruct e.
  - destruct c as [|b|z|content|l|kv]; simpl; try done.
    destruct (json_loads (clean_batch_content content)) as [parsed|] eqn:Hp;
      simpl; [|done].
    destruct parsed as [|b|z|s'|items|kv]; try done.
    destruct (record_items ∅ items) as [e|m] eqn:Hm; simpl;
      [by destruct e|].
    intros [= <-]. exists content, items. repeat split; [done|]. intros q.
    rewrite (record_items_lookup _ _ _ q Hm), lookup_empty.
    by destruct (last _).
Qed.
End ParserFacts.

(** ** The single-item parser *)

Lemma assoc_dict_set_eq k v kv : assoc k (dict_set k v kv) = Some v.
Proof.
  induction kv as [|[k' v'] kv IH]; simpl.
  - by rewrite String.eqb_refl.
  - destruct (String.eqb k' k) eqn:E; simpl; by rewrite E.
Qed.

Lemma assoc_dict_set_ne k k' v kv :
  k <> k' -> assoc k' (dict_set k v kv) = assoc k' kv.
Proof.
  intros Hne. induction kv as [|[k0 v0] kv IH]; simpl.
  - by rewrite string_eqb_false.
  - destruct (String.eqb_spec k0 k) as [->|Hk]; simpl.
    + by rewrite !string_eqb_false.
    + by rewrite IH.
Qed.

Lemma normalize_feedback_item_normalized item_feedback item_feedback' :
  normalize_feedback_item item_feedback = ok item_feedback' ->
  normalized_entry item_feedback'.
Proof.
  unfold normalize_feedback_item.
  destruct item_feedback as [|b|z|s|l|kv];
    try (intros [= <-]; eexists; split; [done|]; by intros [[=] _]).
  destruct (blank_member kv "issue") as [e|[]] eqn:Hi; simpl; [done| |].
  - destruct (blank_member kv "rewrite") as [e|[]] eqn:Hr; simpl; [done| |].
    + intros [= <-]. eexists; split; [done|]. intros [Hblank _].
      unfold blank_member in Hblank. by rewrite assoc_dict_set_eq in Hblank.
    + intros [= <-]. eexists; split; [done|]. intros [_ Hblank].
      by rewrite Hr in Hblank.
  - intros [= <-]. eexists; split; [done|]. intros [Hblank _].
    by rewrite Hi in Hblank.
Qed.

Lemma normalize_feedback_spec feedback feedback' :
  normalize_feedback feedback = ok feedback' ->
  feedback'.*1 = feedback.*1 /\ Forall (fun e => normalized_entry e.2) feedback'.
Proof.
  revert feedback'. induction feedback as [|[k v] rest IH]; intros feedback';
    cbn [normalize_feedback]; [by intros [= <-]|].
  intros (v' & Hv & (rest' & Hrest & [= <-])%rbind_ok)%rbind_ok.
  destruct (IH _ Hrest) as [Hkeys Hall]. split; [simpl; by f_equal|].
  constructor; [|done]. by eapply normalize_feedback_item_normalized.
Qed.

Lemma assoc_is_Some_keys {V W} k (kv : list (string * V))
    (kv' : list (string * W)) :
  kv'.*1 = kv.*1 -> is_Some (assoc k kv) -> is_Some (assoc k kv').
Proof.
  revert kv'. induction kv as [|[k0 v0] kv IH]; intros kv' Hkeys; simpl.
  - by intros [? ?].
  - destruct kv' as [|[k1 v1] kv']; [done|]. simpl in *.
    injection Hkeys as -> Hkeys.
    destruct (String.eqb k0 k); [eauto|]. by apply IH.
Qed.

Section SingleParserFacts.
Context `{Oracles}.

(** X7. parse_llm_response, the single-item parser, validates and
    normalises: a value it accepts is an object whose change_required is
    0 or 1 and whose feedback is an object with a question entry, and in
    the returned feedback every entry is an object that does not have
    both a blank issue and a blank rewrite (such an entry has been given
    the issue text for no change, and an entry that was not an object has
    been replaced). *)
Theorem single_parser_accepts_only_valid_shape response parsed :
  parse_llm_response response = ok (Some parsed) ->
  exists members flag fb,
    parsed = JObj members /\
    assoc "change_required" members = Some flag /\
    (py_eq_int flag 0 = true \/ py_eq_int flag 1 = true) /\
    assoc "feedback" members = Some (JObj fb) /\
    is_Some (assoc "question" fb) /\
    Forall (fun entry => normalized_entry entry.2) fb.
Proof.
  unfold parse_llm_response, parse_llm_response_body.
  destruct (response_content response) as [e|c]; simpl; [by destruct e|].
  destruct (as_printable_str c) as [e|s]; simpl; [by destruct e|].
  destruct (json_loads (clean_single_content s)) as [j|]; simpl; [|done].
  destruct (py_in "change_required" j) as [e|has_flag] eqn:Hflag; simpl;
    [by destruct e|].
  destruct (py_in "feedback" j) as [e|has_feedback] eqn:Hfb; simpl;
    [by destruct e|].
  destruct has_flag, has_feedback; simpl; try done.
  destruct (subscript j "change_required") as [e|flag] eqn:Hf; simpl;
    [by destruct e|].
  destruct (py_eq_int flag 0 || py_eq_int flag 1) eqn:Hval; simpl; [|done].
  destruct (subscript j "feedback") as [e|feedback] eqn:Hfeedback; simpl;
    [by destruct e|].
  destruct feedback as [|b|z|s'|l|fb]; try done.
  destruct j as [|b|z|s'|l|members]; try done.
  destruct (assoc "question" fb) as [question|] eqn:Hq; [|done].
  destruct (normalize_feedback fb) as [e|fb'] eqn:Hnorm; simpl;
    [by destruct e|].
  intros [= <-]. apply normalize_feedback_spec in Hnorm as [Hkeys Hall].
  simpl in Hf. destruct (assoc "change_required" members) as [flag'|] eqn:Hm;
    [|done]. injection Hf as ->.
  exists (dict_set "feedback" (JObj fb') members), flag, fb'.
  repeat split; try done.
  - by rewrite assoc_dict_set_ne.
  - by apply orb_prop.
  - apply assoc_dict_set_eq.
  - eapply assoc_is_Some_keys; [done|]. rewrite Hq. eauto.
Qed.
End SingleParserFacts.

(** ** The request array *)

Lemma item_id_question_obj (r : row) :
  item_id (question_obj r) = Some (questionid r).
Proof. unfold question_obj. simpl. by destruct (questionid r). Qed.

Lemma record_items_question_objs (batch : list row) results_map :
  exists results_map',
    record_items results_map (question_obj <$> batch) = ok results_map'.
Proof.
  revert results_map. induction batch as [|r rest IH]; intros results_map;
    [by eexists|].
  rewrite fmap_cons. cbn [record_items].
  assert (record_item results_map (question_obj r)
          = ok (<[questionid r := question_obj r]> results_map)) as ->.
  { unfold record_item, question_obj. simpl.
    by destruct (questionid r). }
  apply IH.
Qed.


(** ** How an error reaches the result table *)

(** X9. How an error reaches the result table. For an item whose verdict
    is an error verdict the four rows are produced without an exception:
    the Original row shows the cleaned question, the Rewrite row is
    empty, the Issues row carries the error message in its Question
    cell and nothing in its answer cells, and the change-required value
    of all three rows is None, which is what makes the dashboard count
    the item as failed. *)
Theorem error_verdict_rows (config : Config) (r : row) (k : model_key)
    (msg : string) (i : model_batch_info) :
  exists original rewrite issues,
    rows_for_model config r (Some (error_verdict msg i)) k
    = ok [ItemRow original; ItemRow rewrite; ItemRow issues; SeparatorRow] /\
    Question original = JStr (_clean_text (question r)) /\
    Question rewrite = JStr "" /\
    Answers rewrite = replicate 5 (JStr "") /\
    Question issues = JStr msg /\
    Answers issues = replicate 5 (JStr "") /\
    Forall (fun x => Change_Required x = JNull /\
                     notna (Change_Required x) = false)
           [original; rewrite; issues].
Proof.
  eexists _, _, _. split; [reflexivity|]. simpl.
  repeat split; repeat constructor.
Qed.

(** ** The gateway *)

(** X10. call_openrouter_api never returns both a response and an error
    message. There is no error message exactly when the gateway answered
    with status 200, a body that is not blank and that decodes as JSON,
    and then the response is the decoded body, whatever it decodes to;
    for every other outcome (time-out, another exception, another
    status, a blank body, a body that is not JSON) there is an error
    message and the response is None. The decoded body is not checked:
    a body that decodes to null gives the response None without an
    error message, the one case in which neither is returned. *)
Theorem gateway_error_excludes_response (o : http_outcome) :
  match classify o with
  | (response, None) =>
      exists text, o = Response 200 text (Some response) /\ py_strip text <> ""
  | (response, Some msg) =>
      response = JNull /\
      ~ exists text body, o = Response 200 text (Some body) /\ py_strip text <> ""
  end /\
  (classify o = (JNull, None) <->
   exists text, o = Response 200 text (Some JNull) /\ py_strip text <> "").
Proof.
  assert (Hnull : forall text,
             py_strip text <> "" ->
             classify (Response 200 text (Some JNull)) = (JNull, None)).
  { intros text Hs. simpl.
    destruct (String.eqb_spec text "") as [->|_]; [by destruct Hs|].
    by destruct (String.eqb_spec (py_strip text) ""). }
  split; [|split;
           [|by intros (text & -> & Hs); apply Hnull]].
  2: {
    destruct o as [|msg|status_code text body]; simpl; try done.
    destruct (Z.eqb_spec status_code 200) as [->|Hne]; [|done].
    destruct (String.eqb_spec text "") as [->|Htext]; simpl; [done|].
    destruct (String.eqb_spec (py_strip text) "") as [Hs|Hs]; [done|].
    destruct body as [response_json|]; [|done].
    intros [= ->]. by exists text. }
  destruct o as [|msg|status_code text body]; simpl.
  - split; [done|]. by intros (? & ? & [=] & _).
  - split; [done|]. by intros (? & ? & [=] & _).
  - destruct (Z.eqb_spec status_code 200) as [->|Hne].
    + destruct (String.eqb_spec text "") as [->|Htext]; simpl.
      { split; [done|]. intros (t & b & Ho & Hs). injection Ho as <- _.
        by apply Hs. }
      destruct (String.eqb_spec (py_strip text) "") as [Hs|Hs].
      { split; [done|]. intros (t & b & Ho & Hs'). injection Ho as <- _.
        by apply Hs'. }
      destruct body as [response_json|].
      * by exists text.
      * split; [done|]. by intros (? & ? & [=] & _).
    + split; [done|]. intros (t & b & Ho & _). injection Ho as ? _ _. done.
Qed.

Lemma classify_error_no_response (o : http_outcome) msg :
  (classify o).2 = Some msg -> (classify o).1 = JNull.
Proof.
  destruct o as [|m|status_code text body]; simpl; try done.
  destruct (status_code =? 200); [|done].
  destruct (String.eqb text "" || String.eqb (py_strip text) ""); [done|].
  by destruct body.
Qed.

Lemma parse_llm_batch_response_recorded `{Oracles} response batch
    results_map error :
  parse_llm_batch_response response batch = ok (results_map, error) ->
  recorded_objects results_map.
Proof.
  unfold parse_llm_batch_response, parse_llm_batch_response_body.
  destruct (response_content response) as [e|c]; simpl.
  { destruct e; intros [= <- <-]; apply recorded_objects_empty. }
  destruct (as_str c) as [e|s]; simpl.
  { destruct e; intros [= <- <-]; apply recorded_objects_empty. }
  destruct (json_loads (clean_batch_content s)) as [parsed|]; simpl;
    [|intros [= <- <-]; apply recorded_objects_empty].
  destruct parsed as [|b|z|s'|items|kv];
    try (intros [= <- <-]; apply recorded_objects_empty).
  pose proof (record_items_spec ∅ items recorded_objects_empty) as Hrec.
  destruct (record_items ∅ items) as [e|m]; simpl.
  - subst e. intros [= <- <-]. apply recorded_objects_empty.
  - by intros [= <- <-].
Qed.

(** ** One turn of the loop over the slots *)

Section SlotFacts.
Context `{Oracles}.
Context (config : Config).
Context (thinking_models_lookup : gmap string cell).
Context (thinking_values_lookup : gmap string string).

(** X11. A failed call fails the whole batch for that model only. When
    the request of an enabled slot is built and the call comes back with
    a non-empty error message, the slot's turn of the loop of
    assess_question_batch sends exactly that one request, does not raise,
    and gives every item of the batch the same error verdict for that
    slot, carrying the message, the measured latency, token counts of 0
    and no raw response; every other verdict is left as it was. *)
Theorem failed_call_fails_whole_batch batch messages results k sent p msg :
  enabled config k = true ->
  build_payload (model_name_of config k) messages config
    thinking_models_lookup thinking_values_lookup = ok p ->
  (classify (http_post p (length sent)).1).2 = Some msg ->
  msg <> "" ->
  exists results',
    assess_slot batch config thinking_models_lookup thinking_values_lookup
      messages results k sent = (ok results', sent ++ [p]) /\
    forall q k',
      lookup_verdict results' q k'
      = if decide (q ∈ questionid <$> batch /\ k' = k)
        then Some (error_verdict msg
                     (empty_batch_info k (model_name_of config k)
                        (http_post p (length sent)).2))
        else lookup_verdict results q k'.
Proof.
  intros He Hp Hmsg Hne. unfold assess_slot. rewrite He. simpl.
  rewrite (mbind_ok _ _ _ _ _
             (call_openrouter_api_sends _ _ _ _ _ _ sent Hp)).
  pose proof (classify_error_no_response _ _ Hmsg) as Hnull.
  destruct (http_post p (length sent)) as [outcome lat]. simpl in *.
  destruct (classify outcome) as [response error]. simpl in *. subst.
  change (extract_model_batch_info k (model_name_of config k) JNull lat)
    with (ok (empty_batch_info k (model_name_of config k) lat)).
  rewrite mbind_lift_ok. simpl.
  rewrite (string_eqb_false msg "") by done. simpl.
  eexists. split; [done|]. intros q k'. apply lookup_verdict_fail_batch.
Qed.

(** X12. An answered call. When the request of an enabled slot is built,
    the call returns a response without an error, the token bookkeeping
    succeeds and the batch parser returns a result map without an error,
    the slot's turn of the loop of assess_question_batch sends exactly
    that one request, does not raise, and gives each item of the batch
    the object filed under its identifier as a parsed verdict, or the
    missing-response error when the map has no entry for it; entries of
    the map for identifiers outside the batch are discarded, and every
    other verdict is left as it was. *)
Theorem answered_call_gives_each_item_its_object batch messages results k sent
    p response i parsed_results_map :
  enabled config k = true ->
  build_payload (model_name_of config k) messages config
    thinking_models_lookup thinking_values_lookup = ok p ->
  classify (http_post p (length sent)).1 = (response, None) ->
  extract_model_batch_info k (model_name_of config k) response
    (http_post p (length sent)).2 = ok i ->
  parse_llm_batch_response response batch = ok (parsed_results_map, None) ->
  exists results',
    assess_slot batch config thinking_models_lookup thinking_values_lookup
      messages results k sent = (ok results', sent ++ [p]) /\
    forall q k',
      lookup_verdict results' q k'
      = if decide (q ∈ questionid <$> batch /\ k' = k)
        then Some (match parsed_results_map !! q with
                   | Some (JObj members) => parsed_verdict members i
                   | _ => error_verdict missing_response i
                   end)
        else lookup_verdict results q k'.
Proof.
  intros He Hp Hclass Hi Hparse. unfold assess_slot. rewrite He. simpl.
  rewrite (mbind_ok _ _ _ _ _
             (call_openrouter_api_sends _ _ _ _ _ _ sent Hp)).
  destruct (http_post p (length sent)) as [outcome lat]. simpl in *.
  rewrite Hclass, Hi, mbind_lift_ok. simpl.
  rewrite Hparse, mbind_lift_ok. simpl.
  pose proof (parse_llm_batch_response_recorded _ _ _ _ Hparse) as Hall.
  destruct (reconcile_ok parsed_results_map batch k i results Hall)
    as [results' Hr].
  rewrite Hr. exists results'. split; [done|]. intros q k'.
  pose proof (reconcile_lookup _ _ _ _ _ _ Hr q k') as Hq.
  destruct (decide (q ∈ questionid <$> batch /\ k' = k)); [|done].
  destruct Hq as (v & -> & Hv). f_equal.
  unfold reconcile_item in Hv.
  destruct (parsed_results_map !! q) as [j|] eqn:Hj; [|by injection Hv].
  destruct (Hall _ _ Hj) as (kv & -> & Hkv).
  destruct kv; [done|]. simpl in Hv. by injection Hv.
Qed.
End SlotFacts.

(** ** Exceptions that leave the batch step *)

Section EscapingExceptions.
Context `{Oracles}.
Context (config : Config).
Context (thinking_models_lookup : gmap string cell).
Context (thinking_values_lookup : gmap string string).

(** X13. A message content that is not a text (null, a number, a list or
    an object) is not handled: the batch parser calls [strip] on it, the
    AttributeError is not among the exceptions its handler catches, and
    it leaves assess_question_batch after the request has been sent,
    with no verdict recorded for the batch. *)
Theorem non_text_content_aborts_after_sending batch messages results k sent p
    response i content :
  enabled config k = true ->
  build_payload (model_name_of config k) messages config
    thinking_models_lookup thinking_values_lookup = ok p ->
  classify (http_post p (length sent)).1 = (response, None) ->
  extract_model_batch_info k (model_name_of config k) response
    (http_post p (length sent)).2 = ok i ->
  response_content response = ok content ->
  (forall text, content <> JStr text) ->
  parse_llm_batch_response response batch = raise AttributeError /\
  assess_slot batch config thinking_models_lookup thinking_values_lookup
    messages results k sent = (raise AttributeError, sent ++ [p]).
Proof.
  intros He Hp Hclass Hi Hcontent Htext.
  assert (parse_llm_batch_response response batch = raise AttributeError)
    as Hparse.
  { unfold parse_llm_batch_response, parse_llm_batch_response_body.
    rewrite Hcontent. simpl.
    destruct content as [|b|z|text|l|kv]; try done. by destruct (Htext text). }
  split; [done|]. unfold assess_slot. rewrite He. simpl.
  rewrite (mbind_ok _ _ _ _ _
             (call_openrouter_api_sends _ _ _ _ _ _ sent Hp)).
  destruct (http_post p (length sent)) as [outcome lat]. simpl in *.
  rewrite Hclass, Hi, mbind_lift_ok. simpl. by rewrite Hparse.
Qed.

(** X14. A thinking budget that cannot be read as an integer. For an
    enabled slot bound to a budget-family model with extended reasoning,
    a budget cell holding a text that is not blank and is not an integer
    literal makes [int(budget_val)] raise a ValueError while the request
    is built: the exception leaves assess_question_batch and nothing is
    sent. (The text of the exception is abbreviated.) *)
Theorem unreadable_budget_aborts_before_sending batch messages results k sent
    text :
  enabled config k = true ->
  is_thinking_model thinking_models_lookup (model_name_of config k) = true ->
  startswith "google/" (model_name_of config k) = true ->
  thinking_budget_gemini config = CText text ->
  py_strip text <> "" ->
  int_of_string text = None ->
  assess_slot batch config thinking_models_lookup thinking_values_lookup
    messages results k sent
  = (raise (ValueError "invalid literal for int()"), sent).
Proof.
  intros He Hthinking Hgoogle Hcell Hblank Hint. unfold assess_slot.
  rewrite He. simpl.
  assert (build_payload (model_name_of config k) messages config
            thinking_models_lookup thinking_values_lookup
          = raise (ValueError "invalid literal for int()")) as Hp.
  { unfold build_payload, gemini_thinking_budget.
    rewrite Hthinking, Hgoogle, Hcell. simpl.
    by rewrite (string_eqb_false _ _ Hblank), Hint. }
  by rewrite (mbind_raises _ _ _ _ _
                (call_openrouter_api_raises _ _ _ _ _ _ sent Hp)).
Qed.
End EscapingExceptions.

(** ** Every request respects the configuration *)

Lemma gemini_thinking_budget_limits model_name budget_val budget :
  gemini_thinking_budget model_name budget_val = ok (Some budget) ->
  budget <> 0 /\
  (0 < budget -> min_val model_name <= budget <= max_val model_name).
Proof.
  unfold gemini_thinking_budget.
  intros (b & _ & Hb)%rbind_ok. revert Hb.
  assert (min_val model_name <= max_val model_name) as Hmm
    by (unfold min_val, max_val; destruct (is_pro model_name); lia).
  destruct (Z.ltb_spec 0 b).
  - destruct (Z.ltb_spec b (min_val model_name)).
    + destruct (Z.eqb_spec (min_val model_name) 0); intros [= <-]. lia.
    + destruct (Z.ltb_spec (max_val model_name) b).
      * destruct (Z.eqb_spec (max_val model_name) 0); intros [= <-]. lia.
      * destruct (Z.eqb_spec b 0); intros [= <-]. lia.
  - destruct (Z.eqb_spec b 0); intros [= <-]. lia.
Qed.

Lemma openai_reasoning_effort_limits model_name user_effort
    (thinking_values_lookup : gmap string string) effort :
  openai_reasoning_effort model_name user_effort thinking_values_lookup
  = ok (Some effort) ->
  effort = user_effort /\
  exists legal,
    thinking_values_lookup !! model_name = Some legal /\
    effort ∈ py_strip <$> split_on "," legal.
Proof.
  unfold openai_reasoning_effort.
  destruct (negb (String.eqb user_effort "")
            && negb (String.eqb (py_strip user_effort) "")); [|done].
  destruct (thinking_values_lookup !! model_name) as [legal|]; [|done].
  destruct (String.eqb legal "" || String.eqb (py_strip legal) ""); [done|].
  case_bool_decide as Hin; [|done]. intros [= <-]. eauto.
Qed.

Lemma build_payload_within_limits config
    (thinking_models_lookup : gmap string cell)
    (thinking_values_lookup : gmap string string) k messages p :
  enabled config k = true ->
  build_payload (model_name_of config k) messages config
    thinking_models_lookup thinking_values_lookup = ok p ->
  request_within_limits config thinking_values_lookup p.
Proof.
  intros He. unfold build_payload.
  destruct (is_thinking_model _ _).
  2:{ intros [= <-]. split; [by exists k|]. done. }
  destruct (startswith "google/" (model_name_of config k)) eqn:Hg.
  { intros (budget & Hb & [= <-])%rbind_ok.
    split; [by exists k|]. repeat split. simpl.
    destruct budget as [b|]; [|done].
    apply gemini_thinking_budget_limits in Hb. tauto. }
  destruct (startswith "openai/" (model_name_of config k)) eqn:Ho.
  { intros (effort & Hb & [= <-])%rbind_ok.
    split; [by exists k|]. repeat split. simpl.
    destruct effort as [e|]; [|done].
    apply openai_reasoning_effort_limits in Hb. tauto. }
  intros [= <-]. split; [by exists k|]. done.
Qed.

Section LimitFacts.
Context `{Oracles}.
Context (config : Config).
Context (thinking_models_lookup : gmap string cell).
Context (thinking_values_lookup : gmap string string).

Lemma assess_slot_sends_enabled P batch messages results k :
  (enabled config k = true ->
   forall p,
     build_payload (model_name_of config k) messages config
       thinking_models_lookup thinking_values_lookup = ok p -> P p) ->
  sends_only P
    (assess_slot batch config thinking_models_lookup thinking_values_lookup
       messages results k).
Proof.
  intros HP. destruct (enabled config k) eqn:He.
  - apply assess_slot_sends_only. by apply HP.
  - rewrite assess_slot_disabled by done. apply sends_only_mret.
Qed.

Lemma assess_questions_sends_enabled P cost_lookup df_all :
  (forall k messages p,
     enabled config k = true ->
     build_payload (model_name_of config k) messages config
       thinking_models_lookup thinking_values_lookup = ok p -> P p) ->
  sends_only P
    (assess_questions config thinking_models_lookup thinking_values_lookup
       cost_lookup df_all).
Proof.
  intros HP. unfold assess_questions.
  apply sends_only_mbind; [apply sends_only_lift|]. intros n.
  apply sends_only_mbind; [|intros acc; apply sends_only_mret].
  apply sends_only_foldM. intros acc i. unfold process_batch.
  apply sends_only_mbind.
  { unfold assess_question_batch. apply sends_only_foldM.
    intros results k. apply assess_slot_sends_enabled. intros He p.
    by apply HP. }
  intros results.
  apply sends_only_mbind; [apply sends_only_lift|]. intros rows.
  apply sends_only_mbind; [apply sends_only_lift|]. intros metrics.
  apply sends_only_mret.
Qed.

(** X15. Every request a run sends, whether the run completes or is cut
    short by an exception, respects the configuration: it is addressed to
    the model of an enabled slot (nothing is ever sent for a disabled
    slot); it carries the configured temperature, top_p and max_tokens;
    it never carries both a thinking budget and a reasoning effort; a
    thinking budget goes only to a budget-family model, is never 0 and,
    when positive, lies within the bounds of that model; a reasoning
    effort goes only to an effort-family model, is the configured effort,
    and is one of the efforts the table lists for that model. *)
Theorem every_request_respects_configuration cost_lookup df_all :
  Forall (request_within_limits config thinking_values_lookup)
    (assess_questions config thinking_models_lookup thinking_values_lookup
       cost_lookup df_all []).2.
Proof.
  apply (assess_questions_sends_enabled
           (request_within_limits config thinking_values_lookup));
    [|constructor].
  intros k messages p He Hp. by eapply build_payload_within_limits.
Qed.
End LimitFacts.

(** ** The requests of a run *)

Lemma foldM_trace {A B} (f : A -> B -> M A) (T : B -> list payload -> Prop)
    (l : list B) :
  (forall a b s a' s',
     f a b s = (inr a', s') -> exists ps, s' = s ++ ps /\ T b ps) ->
  forall a s a' s',
    foldM f a l s = (inr a', s') ->
    exists pss, s' = s ++ concat pss /\ Forall2 T l pss.
Proof.
  intros Hf. induction l as [|b l IH]; intros a s a' s'; cbn [foldM].
  - intros [-> ->]%mret_inr. exists []. by rewrite app_nil_r.
  - intros (a1 & s1 & H1 & H2)%mbind_inr.
    destruct (Hf _ _ _ _ _ H1) as (ps & -> & Hps).
    destruct (IH _ _ _ _ H2) as (pss & -> & Hpss).
    exists (ps :: pss). split; [by rewrite <- app_assoc|by constructor].
Qed.

Section TraceFacts.
Context `{Oracles}.
Context (config : Config).
Context (thinking_models_lookup : gmap string cell).
Context (thinking_values_lookup : gmap string string).

Lemma assess_slot_trace batch messages results k sent results' sent' :
  assess_slot batch config thinking_models_lookup thinking_values_lookup
    messages results k sent = (inr results', sent') ->
  if enabled config k
  then exists p,
         build_payload (model_name_of config k) messages config
           thinking_models_lookup thinking_values_lookup = ok p /\
         sent' = sent ++ [p]
  else sent' = sent.
Proof.
  unfold assess_slot. destruct (enabled config k); simpl;
    [|by intros [_ ->]%mret_inr].
  destruct (build_payload (model_name_of config k) messages config
              thinking_models_lookup thinking_values_lookup) as [e|p] eqn:Hp.
  { by rewrite (mbind_raises _ _ _ _ _
                  (call_openrouter_api_raises _ _ _ _ _ _ sent Hp)). }
  rewrite (mbind_ok _ _ _ _ _
             (call_openrouter_api_sends _ _ _ _ _ _ sent Hp)).
  intros Hrun. exists p. split; [done|].
  destruct (classify _) as [response error].
  apply mbind_inr in Hrun as (i & s1 & [_ ->]%lift_inr & Hrun).
  destruct (error_truthy error); [by apply mret_inr in Hrun as [_ ->]|].
  apply mbind_inr in Hrun as ([m parse_error] & s2 & [_ ->]%lift_inr & Hrun).
  destruct (error_truthy parse_error); [by apply mret_inr in Hrun as [_ ->]|].
  by apply lift_inr in Hrun as [_ ->].
Qed.

Lemma foldM_assess_slot_trace batch messages ks :
  forall results sent results' sent',
    foldM (assess_slot batch config thinking_models_lookup
             thinking_values_lookup messages) results ks sent
    = (inr results', sent') ->
    exists ps,
      sent' = sent ++ ps /\
      Forall2 (fun k p =>
                 build_payload (model_name_of config k) messages config
                   thinking_models_lookup thinking_values_lookup = ok p)
              (filter (fun k => enabled config k = true) ks) ps.
Proof.
  induction ks as [|k ks IH]; intros results sent results' sent';
    cbn [foldM].
  - intros [_ ->]%mret_inr. exists []. by rewrite app_nil_r.
  - intros (r1 & s1 & H1 & H2)%mbind_inr.
    apply assess_slot_trace in H1.
    destruct (IH _ _ _ _ H2) as (ps & -> & Hps).
    rewrite filter_cons. destruct (enabled config k).
    + destruct H1 as (p & Hp & ->). exists (p :: ps).
      rewrite decide_True by done.
      split; [by rewrite <- app_assoc|by constructor].
    + subst s1. exists ps. by rewrite decide_False by done.
Qed.

Lemma assess_question_batch_trace batch sent results sent' :
  assess_question_batch batch config thinking_models_lookup
    thinking_values_lookup sent = (inr results, sent') ->
  exists ps,
    sent' = sent ++ ps /\
    batch_requests config thinking_models_lookup thinking_values_lookup
      batch (enabled_keys config) ps.
Proof.
  intros Hrun.
  exact (foldM_assess_slot_trace batch (batch_messages config batch)
           model_keys ∅ sent results sent' Hrun).
Qed.

Lemma process_batch_trace df_to_process acc i sent acc' sent' :
  process_batch config thinking_models_lookup thinking_values_lookup
    df_to_process acc i sent = (inr acc', sent') ->
  exists ps,
    sent' = sent ++ ps /\
    batch_requests config thinking_models_lookup thinking_values_lookup
      (batch_df (batch_size config) df_to_process i) (enabled_keys config) ps.
Proof.
  unfold process_batch.
  intros (results & s1 & Hbatch & Hrest)%mbind_inr.
  apply mbind_inr in Hrest as (rows & s2 & [_ ->]%lift_inr & Hrest).
  apply mbind_inr in Hrest as (metrics & s3 & [_ ->]%lift_inr & Hrest).
  apply mret_inr in Hrest as [_ ->].
  by apply assess_question_batch_trace in Hbatch.
Qed.

(** X16. The requests of a completed run. A run that completes has sent,
    after the requests sent before it, exactly one request per batch and
    enabled slot, batch by batch and within a batch in slot order, each
    being the payload built for that slot's model from the system prompt
    and the JSON of that batch. There is no retry and no request is
    skipped, whatever the outcomes of the calls were; the number of
    requests is the number of batches times the number of enabled
    slots. *)
Theorem run_sends_one_request_per_batch_and_slot cost_lookup df_all sent out
    sent' :
  assess_questions config thinking_models_lookup thinking_values_lookup
    cost_lookup df_all sent = (inr out, sent') ->
  exists n pss,
    total_batches (batch_size config) (select_rows config df_all) = ok n /\
    sent' = sent ++ concat pss /\
    Forall2 (fun i ps =>
               batch_requests config thinking_models_lookup
                 thinking_values_lookup
                 (batch_df (batch_size config) (select_rows config df_all) i)
                 (enabled_keys config) ps)
            (py_range n) pss /\
    length sent'
    = (length sent + Z.to_nat n * length (enabled_keys config))%nat.
Proof.
  unfold assess_questions.
  intros (n & s1 & [Hn ->]%lift_inr & Hrun)%mbind_inr.
  apply mbind_inr in Hrun as (acc & s2 & Hfold & [_ ->]%mret_inr).
  apply (foldM_trace _ (fun i ps =>
           batch_requests config thinking_models_lookup
             thinking_values_lookup
             (batch_df (batch_size config) (select_rows config df_all) i)
             (enabled_keys config) ps)) in Hfold as (pss & -> & Hpss);
    [|intros ? ? ? ? ?; apply process_batch_trace].
  exists n, pss. repeat split; [done|done|].
  rewrite length_app. f_equal.
  assert (length (py_range n) = Z.to_nat n) as <-
    by (unfold py_range; by rewrite length_map, length_seq).
  clear Hn. induction Hpss as [|i ps rest pss Hps _ IH]; [done|].
  cbn [concat length]. rewrite length_app, IH.
  apply Forall2_length in Hps. lia.
Qed.

Lemma rows_for_item_disabled r assessment ks :
  (forall k, enabled config k = false) ->
  rows_for_item config r assessment ks = ok [].
Proof.
  intros Hoff. induction ks as [|k ks IH]; [done|].
  cbn [rows_for_item]. by rewrite Hoff.
Qed.

Lemma rows_for_batch_disabled batch results :
  (forall k, enabled config k = false) ->
  rows_for_batch config batch results = ok [].
Proof.
  intros Hoff. induction batch as [|r rest IH]; [done|].
  cbn [rows_for_batch]. by rewrite rows_for_item_disabled, IH.
Qed.

Lemma metrics_for_batch_disabled batch_number batch results ks :
  (forall k, enabled config k = false) ->
  metrics_for_batch config batch_number batch results ks = ok [].
Proof.
  intros Hoff. induction ks as [|k ks IH]; [done|].
  cbn [metrics_for_batch]. by rewrite Hoff.
Qed.

Lemma foldM_assess_slot_disabled batch messages ks results sent :
  (forall k, enabled config k = false) ->
  foldM (assess_slot batch config thinking_models_lookup
           thinking_values_lookup messages) results ks sent
  = (ok results, sent).
Proof.
  intros Hoff. induction ks as [|k ks IH]; [done|].
  cbn [foldM]. by rewrite assess_slot_disabled, mbind_mret.
Qed.

Lemma assess_question_batch_disabled batch sent :
  (forall k, enabled config k = false) ->
  assess_question_batch batch config thinking_models_lookup
    thinking_values_lookup sent = (ok ∅, sent).
Proof. intros Hoff. by apply foldM_assess_slot_disabled. Qed.

Lemma process_batch_disabled df_to_process i sent :
  (forall k, enabled config k = false) ->
  process_batch config thinking_models_lookup thinking_values_lookup
    df_to_process
    {| all_batch_results := ∅; results_data := []; api_metrics_data := [] |}
    i sent
  = (ok {| all_batch_results := ∅; results_data := [];
           api_metrics_data := [] |}, sent).
Proof.
  intros Hoff. unfold process_batch.
  rewrite (mbind_ok _ _ _ _ _
             (assess_question_batch_disabled _ sent Hoff)).
  rewrite rows_for_batch_disabled, mbind_lift_ok by done.
  rewrite metrics_for_batch_disabled, mbind_lift_ok by done.
  unfold mret. cbn [all_batch_results results_data api_metrics_data app].
  by rewrite (left_id_L ∅ (∪)).
Qed.

Lemma foldM_process_batch_disabled df_to_process indices sent :
  (forall k, enabled config k = false) ->
  foldM (process_batch config thinking_models_lookup thinking_values_lookup
           df_to_process)
    {| all_batch_results := ∅; results_data := []; api_metrics_data := [] |}
    indices sent
  = (ok {| all_batch_results := ∅; results_data := [];
           api_metrics_data := [] |}, sent).
Proof.
  intros Hoff. induction indices as [|i indices IH]; [done|].
  cbn [foldM].
  by rewrite (mbind_ok _ _ _ _ _ (process_batch_disabled _ i sent Hoff)).
Qed.

End TraceFacts.

(** ** The metrics table of a run *)

Lemma metrics_for_batch_calls config batch_number batch results ks metrics :
  complete config batch results ->
  batch <> [] ->
  metrics_for_batch config batch_number batch results ks = ok metrics ->
  (fun m => (Question_ID m, Model_Key m)) <$> metrics
  = batch_calls batch_number (filter (fun k => enabled config k = true) ks).
Proof.
  intros Hcomplete Hne. revert metrics.
  induction ks as [|k ks IH]; intros metrics; cbn [metrics_for_batch].
  - by intros [= <-].
  - rewrite filter_cons. destruct (decide (enabled config k = true)) as [He|He].
    + rewrite He. cbn [negb].
      destruct batch as [|first others]; [done|].
      intros (more & Hmore & [= <-])%rbind_ok.
      specialize (Hcomplete (questionid first) k).
      rewrite He, bool_decide_eq_true_2 in Hcomplete
        by (rewrite fmap_cons; left).
      destruct Hcomplete as (v & Hv & _). unfold lookup_verdict in Hv.
      destruct (results !! questionid first) as [a|]; [|done].
      simpl in Hv. simpl. rewrite Hv. simpl.
      f_equal. by apply IH.
    + apply not_true_is_false in He. rewrite He. cbn [negb]. apply IH.
Qed.

Section MetricsFacts.
Context `{Oracles}.
Context (config : Config).
Context (thinking_models_lookup : gmap string cell).
Context (thinking_values_lookup : gmap string string).

Lemma process_batch_metrics df_to_process acc i sent acc' sent' :
  batch_df (batch_size config) df_to_process i <> [] ->
  process_batch config thinking_models_lookup thinking_values_lookup
    df_to_process acc i sent = (inr acc', sent') ->
  (fun m => (Question_ID m, Model_Key m)) <$> api_metrics_data acc'
  = ((fun m => (Question_ID m, Model_Key m)) <$> api_metrics_data acc)
    ++ batch_calls (i + 1) (enabled_keys config).
Proof.
  intros Hne. unfold process_batch.
  intros (results & s1 & Hbatch & Hrest)%mbind_inr.
  apply mbind_inr in Hrest as (rows & s2 & [_ ->]%lift_inr & Hrest).
  apply mbind_inr in Hrest as (metrics & s3 & [Hmetrics ->]%lift_inr & Hrest).
  apply mret_inr in Hrest as [-> _]. cbn [api_metrics_data].
  rewrite fmap_app. f_equal.
  eapply metrics_for_batch_calls; [|done|done].
  by eapply assess_question_batch_complete.
Qed.

Lemma foldM_process_batch_metrics df_to_process indices :
  (forall i, i ∈ indices ->
             batch_df (batch_size config) df_to_process i <> []) ->
  forall acc sent acc' sent',
    foldM (process_batch config thinking_models_lookup thinking_values_lookup
             df_to_process) acc indices sent = (inr acc', sent') ->
    (fun m => (Question_ID m, Model_Key m)) <$> api_metrics_data acc'
    = ((fun m => (Question_ID m, Model_Key m)) <$> api_metrics_data acc)
      ++ (i ← indices; batch_calls (i + 1) (enabled_keys config)).
Proof.
  induction indices as [|i rest IH]; intros Hne acc sent acc' sent';
    cbn [foldM].
  - intros [-> _]%mret_inr. by rewrite app_nil_r.
  - intros (a1 & s1 & H1 & H2)%mbind_inr.
    apply process_batch_metrics in H1; [|apply Hne; by left].
    rewrite (IH (fun j Hj => Hne j (list_elem_of_further _ _ _ Hj))
               _ _ _ _ H2), H1.
    by rewrite bind_cons, app_assoc.
Qed.

Lemma count_calls_of_slot k n ks :
  NoDup ks ->
  length (filter (fun c : string * model_key => c.2 = k)
            (i ← py_range n; batch_calls (i + 1) ks))
  = if decide (k ∈ ks) then Z.to_nat n else 0%nat.
Proof.
  intros Hnodup.
  assert (forall b, length (filter (fun c : string * model_key => c.2 = k)
                              (batch_calls b ks))
                    = if decide (k ∈ ks) then 1%nat else 0%nat) as Hone.
  { intros b. unfold batch_calls. clear n.
    induction Hnodup as [|k0 ks Hnotin Hnodup IH]; [done|].
    rewrite fmap_cons, filter_cons. simpl.
    destruct (decide (k0 = k)) as [->|Hk].
    - rewrite decide_True by left. simpl. rewrite IH.
      by rewrite decide_False.
    - rewrite IH. destruct (decide (k ∈ ks)).
      + rewrite decide_True; [done|by right].
      + rewrite decide_False; [done|]. by intros [->|?]%elem_of_cons. }
  assert (forall m start,
            length (filter (fun c : string * model_key => c.2 = k)
                      (i ← map Z.of_nat (seq start m);
                       batch_calls (i + 1) ks))
            = if decide (k ∈ ks) then m else 0%nat) as Hall.
  { induction m as [|m IH]; intros start; cbn [seq map].
    - by destruct (decide _).
    - rewrite bind_cons, filter_app, length_app, Hone, IH.
      by destruct (decide _). }
  apply Hall.
Qed.

Lemma run_metrics_calls cost_lookup df_all sent out sent' :
  0 < batch_size config ->
  assess_questions config thinking_models_lookup thinking_values_lookup
    cost_lookup df_all sent = (inr out, sent') ->
  exists n,
    total_batches (batch_size config) (select_rows config df_all) = ok n /\
    0 <= n /\
    (fun m => (Question_ID m, Model_Key m)) <$> out_metrics out
    = (i ← py_range n; batch_calls (i + 1) (enabled_keys config)).
Proof.
  intros HB. unfold assess_questions.
  intros (n & s1 & [Hn ->]%lift_inr & Hrun)%mbind_inr.
  apply mbind_inr in Hrun as (acc & s2 & Hfold & [-> _]%mret_inr).
  cbn [out_metrics out_results].
  apply foldM_process_batch_metrics in Hfold;
    [|intros i Hi; by eapply batch_df_nonempty].
  simpl in Hfold. exists n. split; [done|]. split; [|done].
  unfold total_batches in Hn.
  destruct (Z.eqb_spec (batch_size config) 0) as [?|_]; [lia|].
  injection Hn as <-.
  by destruct (total_batches_bounds (batch_size config)
                 (select_rows config df_all) _ HB eq_refl) as [? _].
Qed.

Lemma dashboard_entry_total_calls cost_lookup system_prompt_tokens
    metrics_data results_data k e n :
  0 <= n ->
  (fun m => (Question_ID m, Model_Key m)) <$> metrics_data
  = (i ← py_range n; batch_calls (i + 1) (enabled_keys config)) ->
  dashboard_entry config cost_lookup system_prompt_tokens metrics_data
    results_data k = ok e ->
  Total_API_Calls e = if enabled config k then n else 0.
Proof.
  intros Hpos Hmetrics He.
  unfold dashboard_entry in He.
  apply rbind_ok in He as (ti & _ & He).
  apply rbind_ok in He as (to & _ & He).
  apply rbind_ok in He as (tr & _ & He).
  apply rbind_ok in He as (share & _ & He).
  apply rbind_ok in He as (tq & _ & He).
  apply rbind_ok in He as (tc & _ & He).
  apply rbind_ok in He as (cq & _ & He).
  apply rbind_ok in He as (cr & _ & He).
  injection He as <-. cbn [Total_API_Calls].
  assert (length (filter (fun m => Model_Key m = k) metrics_data)
          = length (filter (fun c : string * model_key => c.2 = k)
                      ((fun m => (Question_ID m, Model_Key m))
                       <$> metrics_data))) as ->.
  { clear. induction metrics_data as [|m l IH]; [done|].
    rewrite fmap_cons, !filter_cons. simpl.
    destruct (decide (Model_Key m = k)); simpl; by rewrite IH. }
  rewrite Hmetrics, count_calls_of_slot.
  2:{ unfold enabled_keys. apply NoDup_filter. compute_done. }
  unfold enabled_keys.
  destruct (enabled config k) eqn:He.
  - rewrite decide_True; [lia|].
    apply list_elem_of_filter. split; [done|]. destruct k; compute_done.
  - rewrite decide_False; [done|].
    intros [Hk _]%list_elem_of_filter. congruence.
Qed.

(** X18. The metrics table of a completed run with a positive batch size
    has exactly one record per batch and enabled slot, in the order of
    the calls, labelled Batch_1, Batch_2, ... by batch number; hence the
    dashboard's Total API Calls of an enabled slot is the number of
    batches, and that of a disabled slot is 0. *)
Theorem one_metrics_record_per_call cost_lookup df_all sent out sent' :
  0 < batch_size config ->
  assess_questions config thinking_models_lookup thinking_values_lookup
    cost_lookup df_all sent = (inr out, sent') ->
  exists n,
    total_batches (batch_size config) (select_rows config df_all) = ok n /\
    (fun m => (Question_ID m, Model_Key m)) <$> out_metrics out
    = (i ← py_range n; batch_calls (i + 1) (enabled_keys config)) /\
    forall system_prompt_tokens k e,
      dashboard_entry config cost_lookup system_prompt_tokens
        (out_metrics out) (out_results out) k = ok e ->
      Total_API_Calls e = if enabled config k then n else 0.
Proof.
  intros HB Hrun.
  destruct (run_metrics_calls _ _ _ _ _ HB Hrun) as (n & Hn & Hpos & Hm).
  exists n. split; [done|]. split; [done|].
  intros system_prompt_tokens k e.
  by apply dashboard_entry_total_calls.
Qed.
End MetricsFacts.

(** ** The columns of the dashboard *)

Lemma remove_dups_NoDup {A} `{EqDecision A} (l : list A) :
  NoDup l -> remove_dups l = l.
Proof.
  induction 1 as [|x l Hx _ IH]; [done|]. simpl.
  destruct (decide_rel _ x l); [done|]. by rewrite IH.
Qed.

Lemma remove_dups_app_covered {A} `{EqDecision A} (l1 l2 : list A) :
  l1 ⊆ l2 -> remove_dups (l1 ++ l2) = remove_dups l2.
Proof.
  induction l1 as [|x l1 IH]; intros Hsub; [done|]. simpl.
  destruct (decide_rel _ x (l1 ++ l2)) as [_|Hx].
  - apply IH. intros y Hy. apply Hsub. by right.
  - destruct Hx. apply elem_of_app. right. apply Hsub. by left.
Qed.

Lemma calls_keys (ks : list model_key) (m : nat) (start : nat) :
  NoDup ks ->
  remove_dups (snd <$> (i ← map Z.of_nat (seq start (S m));
                        batch_calls (i + 1) ks)) = ks.
Proof.
  intros Hnodup.
  assert (forall b, snd <$> batch_calls b ks = ks) as Hsnd.
  { intros b. unfold batch_calls. rewrite <- list_fmap_compose.
    apply list_fmap_id. }
  revert start. induction m as [|m IH]; intros start.
  - cbn [seq map]. rewrite bind_cons.
    change (@nil Z ≫= _) with (@nil (string * model_key)).
    rewrite app_nil_r, Hsnd. by apply remove_dups_NoDup.
  - change (seq start (S (S m))) with (start :: seq (S start) (S m)).
    cbn [map]. rewrite bind_cons, fmap_app, Hsnd.
    rewrite remove_dups_app_covered; [apply IH|].
    intros k Hk. cbn [seq map]. rewrite bind_cons, fmap_app, Hsnd.
    apply elem_of_app. by left.
Qed.

Lemma dashboard_entries_models config cost_lookup system_prompt_tokens
    metrics_data results_data ks rows :
  dashboard_entries config cost_lookup system_prompt_tokens metrics_data
    results_data ks = ok rows ->
  Forall2 (fun k e =>
             dashboard_entry config cost_lookup system_prompt_tokens
               metrics_data results_data k = ok e) ks rows.
Proof.
  revert rows. induction ks as [|k ks IH]; intros rows;
    cbn [dashboard_entries]; [intros [= <-]; constructor|].
  intros (e & He & (es & Hes & [= <-])%rbind_ok)%rbind_ok.
  constructor; [done|by apply IH].
Qed.

Section DashboardColumns.
Context `{Oracles}.
Context (config : Config).
Context (thinking_models_lookup : gmap string cell).
Context (thinking_values_lookup : gmap string string).

(** X19. The dashboard of a completed run with a positive batch size,
    when one is built, has exactly one entry per enabled slot, in slot
    order, under the short name of the slot's model, and each entry
    reports the number of batches as its Total API Calls. On the
    metrics table of a run the distinct model keys are the enabled slots
    in slot order. *)
Theorem dashboard_has_one_entry_per_enabled_slot cost_lookup df_all sent out
    sent' rows :
  0 < batch_size config ->
  assess_questions config thinking_models_lookup thinking_values_lookup
    cost_lookup df_all sent = (inr out, sent') ->
  out_dashboard out = Some rows ->
  active_models (out_metrics out) = enabled_keys config /\
  d_Model <$> rows = display_name config <$> enabled_keys config /\
  exists n,
    total_batches (batch_size config) (select_rows config df_all) = ok n /\
    Forall (fun e => Total_API_Calls e = n) rows.
Proof.
  intros HB Hrun Hdash.
  destruct (run_metrics_calls _ _ _ _ _ _ _ _ HB Hrun)
    as (n & Hn & Hpos & Hmetrics).
  assert (out_dashboard out
          = build_and_write_dashboard config cost_lookup (out_metrics out)
              (out_results out) (system_prompt config)) as Hout.
  { unfold assess_questions in Hrun.
    apply mbind_inr in Hrun as (n' & s1 & _ & Hrun).
    by apply mbind_inr in Hrun as (acc & s2 & _ & [-> _]%mret_inr). }
  rewrite Hout in Hdash. unfold build_and_write_dashboard in Hdash.
  remember (out_metrics out) as metrics eqn:Hm.
  destruct metrics as [|m0 ms]; [done|]. clear Hm.
  destruct (existsb _ _); [|done].
  destruct (dashboard_entries _ _ _ _ _ _) as [e|rows'] eqn:Hrows; [done|].
  injection Hdash as ->.
  assert (active_models (m0 :: ms) = enabled_keys config) as Hactive.
  { unfold active_models.
    replace (Model_Key <$> m0 :: ms)
      with (snd <$> ((fun m => (Question_ID m, Model_Key m)) <$> m0 :: ms))
      by (by rewrite <- list_fmap_compose).
    unfold py_range in Hmetrics. rewrite Hmetrics.
    destruct (Z.to_nat n) as [|k]; [done|].
    apply calls_keys. unfold enabled_keys. apply NoDup_filter.
      compute_done. }
  split; [done|]. rewrite Hactive in Hrows.
  apply dashboard_entries_models in Hrows. split.
  - clear -Hrows. induction Hrows as [|k e ks es He _ IH]; [done|].
    rewrite !fmap_cons, IH. f_equal.
    unfold dashboard_entry in He.
    apply rbind_ok in He as (ti & _ & He).
    apply rbind_ok in He as (to & _ & He).
    apply rbind_ok in He as (tr & _ & He).
    apply rbind_ok in He as (share & _ & He).
    apply rbind_ok in He as (tq & _ & He).
    apply rbind_ok in He as (tc & _ & He).
    apply rbind_ok in He as (cq & _ & He).
    apply rbind_ok in He as (cr & _ & He).
    by injection He as <-.
  - exists n. split; [done|].
    apply Forall_forall. intros e [i Hi]%list_elem_of_lookup.
    destruct (Forall2_lookup_r _ _ _ _ _ Hrows Hi) as (k & Hk & He).
    rewrite (dashboard_entry_total_calls _ _ _ _ _ _ _ n Hpos Hmetrics He).
    apply list_elem_of_lookup_2 in Hk. unfold enabled_keys in Hk.
    by apply list_elem_of_filter in Hk as [-> _].
Qed.
End DashboardColumns.

(** ** Row selection *)

Lemma iloc_slice_from_to {A} (a b : Z) (l : list A) :
  0 <= a -> 0 <= b ->
  iloc_slice a b l = drop (Z.to_nat a) (take (Z.to_nat b) l).
Proof.
  intros Ha Hb. destruct (Z.le_gt_cases a b) as [Hab|Hab].
  - rewrite iloc_slice_nonneg by done.
    rewrite take_drop_commute. do 2 f_equal. lia.
  - unfold iloc_slice, clamp_index.
    destruct (Z.ltb_spec a 0) as [?|_]; [lia|].
    destruct (Z.ltb_spec b 0) as [?|_]; [lia|].
    replace (Z.to_nat (Z.min b _ - Z.min a _)) with 0%nat by lia.
    rewrite (drop_ge (take _ _)); [done|]. rewrite length_take. lia.
Qed.

Lemma iloc_slice_from_end {A} (a b : Z) (l : list A) :
  0 <= a -> b < 0 ->
  iloc_slice a b l
  = drop (Z.to_nat a) (take (Z.to_nat (Z.of_nat (length l) + b)) l).
Proof.
  intros Ha Hb. unfold iloc_slice, clamp_index.
  destruct (Z.ltb_spec a 0) as [?|_]; [lia|].
  destruct (Z.ltb_spec b 0) as [_|?]; [|lia].
  set (len := Z.of_nat (length l)).
  destruct (Z.le_gt_cases (Z.min a len) (Z.max 0 (len + b))) as [Hab|Hab].
  - rewrite take_drop_commute.
    destruct (Z.le_gt_cases a len) as [Hle|Hgt].
    + rewrite (Z.min_l a len) by lia. do 2 f_equal. lia.
    + rewrite !drop_ge; [done| |]; rewrite length_take; lia.
  - replace (Z.to_nat (Z.max 0 (len + b) - Z.min a len)) with 0%nat by lia.
    rewrite (drop_ge (take _ _)); [done|]. rewrite length_take. lia.
Qed.

Lemma select_rows_unbounded (config : Config) (df_all : list row) :
  2 <= start_row config ->
  end_row config = None ->
  select_rows config df_all = drop (Z.to_nat (start_row config - 2)) df_all.
Proof.
  intros Hstart Hend. unfold select_rows. rewrite Hend.
  destruct (Z.ltb_spec (start_row config - 2) 0) as [?|_]; [lia|].
  rewrite iloc_slice_from_to by lia. by rewrite take_ge by lia.
Qed.

Lemma select_rows_bounded (config : Config) (df_all : list row) e :
  2 <= start_row config ->
  end_row config = Some e ->
  1 <= e ->
  select_rows config df_all
  = drop (Z.to_nat (start_row config - 2)) (take (Z.to_nat (e - 1)) df_all).
Proof.
  intros Hstart Hend He. unfold select_rows. rewrite Hend.
  destruct (Z.ltb_spec (start_row config - 2) 0) as [?|_]; [lia|].
  destruct (Z.ltb_spec (Z.of_nat (length df_all)) (e - 1)).
  - rewrite iloc_slice_from_to by lia. by rewrite !take_ge by lia.
  - by rewrite iloc_slice_from_to by lia.
Qed.

(** X20. Row selection (assess_questions, step 4) with a start row of at
    least 2. Sheet row 1 is the header, so sheet row r is item r - 2 of
    the table: with a blank end row the selected items are those from
    the start row to the end of the table; with an end row of at least
    1 they are those of the sheet rows from the start row to the end row
    inclusive (none when the end row precedes the start row, and only
    those that exist when it lies past the table); an end row of 0 or
    less is not rejected but counts from the end of the table. *)
Theorem select_rows_is_sheet_range (config : Config) (df_all : list row) :
  2 <= start_row config ->
  let first := Z.to_nat (start_row config - 2) in
  match end_row config with
  | None => select_rows config df_all = drop first df_all
  | Some e =>
      (1 <= e ->
       select_rows config df_all = drop first (take (Z.to_nat (e - 1)) df_all)) /\
      (e <= 0 ->
       select_rows config df_all
       = drop first
           (take (Z.to_nat (Z.of_nat (length df_all) + (e - 1))) df_all))
  end.
Proof.
  intros Hstart first.
  destruct (end_row config) as [e|] eqn:Hend.
  - split; intros He; [by apply select_rows_bounded|].
    unfold select_rows. rewrite Hend.
    destruct (Z.ltb_spec (start_row config - 2) 0) as [?|_]; [lia|].
    destruct (Z.ltb_spec (Z.of_nat (length df_all)) (e - 1)); [lia|].
    by rewrite iloc_slice_from_end by lia.
  - by apply select_rows_unbounded.
Qed.

Lemma take_take_drop {A} (n m k : nat) (l : list A) :
  take n (drop k (take m l)) = drop k (take (Nat.min (k + n) m) l).
Proof.
  by rewrite take_drop_commute, take_take.
Qed.


(** ** The judge payload *)

Lemma judge_answers_of_ids original_data feedback js answers_list :
  judge_answers_of original_data feedback js = ok answers_list ->
  answer_id <$> answers_list
  = answer_key <$> filter (fun i => answer_present original_data i = true) js.
Proof.
  revert answers_list. induction js as [|i rest IH]; intros answers_list;
    cbn [judge_answers_of]; [by intros [= <-]|].
  rewrite filter_cons.
  destruct (answer_present original_data i).
  - intros (af & _ & (rw & _ & (rs & _ & (more & Hmore & [= <-])%rbind_ok)
                                %rbind_ok)%rbind_ok)%rbind_ok.
    rewrite decide_True by done. rewrite !fmap_cons. f_equal. by apply IH.
  - rewrite decide_False by done. apply IH.
Qed.

Lemma judge_item_of_spec q original_data v item :
  judge_item_of q original_data v = ok item ->
  match item with
  | Some j =>
      py_truthy (verdict_error v) = false /\
      question_id j = q /\
      assessing_model j = info_model_name (info v) /\
      original_question j = _clean_text (question original_data) /\
      answer_id <$> judge_answers j = listed_answers original_data
  | None => py_truthy (verdict_error v) = true
  end.
Proof.
  unfold judge_item_of. destruct (py_truthy (verdict_error v));
    [by intros [= <-]|].
  intros (answers_list & Ha & (rw & _ & (rs & _ & [= <-])%rbind_ok)
                               %rbind_ok)%rbind_ok.
  repeat split. exact (judge_answers_of_ids _ _ _ _ Ha).
Qed.

Lemma judge_items_of_models_spec q original_data models_assessment items :
  judge_items_of_models q original_data models_assessment = ok items ->
  (fun j => (question_id j, assessing_model j)) <$> items
  = (fun kv : model_key * verdict => (q, info_model_name (info kv.2)))
    <$> filter (fun kv => py_truthy (verdict_error kv.2) = false)
          models_assessment /\
  Forall (fun j =>
            question_id j = q /\
            original_question j = _clean_text (question original_data) /\
            answer_id <$> judge_answers j = listed_answers original_data) items.
Proof.
  revert items. induction models_assessment as [|[k v] rest IH];
    intros items; cbn [judge_items_of_models]; [by intros [= <-]|].
  intros (item & Hitem & (more & Hmore & [= <-])%rbind_ok)%rbind_ok.
  destruct (IH _ Hmore) as [IH1 IH2]. apply judge_item_of_spec in Hitem.
  rewrite filter_cons. simpl. destruct item as [j|].
  - destruct Hitem as (Herr & Hq & Hm & Ho & Ha).
    rewrite decide_True by done. split.
    + rewrite !fmap_cons, IH1. simpl. by rewrite Hq, Hm.
    + by constructor.
  - by rewrite decide_False by (by rewrite Hitem).
Qed.

(** X22. _create_judge_json_output, when it returns, lists exactly the
    assessments of items of the table whose verdict has no error, in the
    order of the result set and, for an item, of its models, each under
    the item's identifier and the full model name; a failed assessment
    and an item that is not in the table are skipped. Each entry shows
    the cleaned original question of its item and lists those of the
    answers 1 to 5 for which the item has a text that is not empty. It
    returns only for a table whose identifiers are distinct. *)
Theorem judge_payload_lists_the_successful_assessments all_results
    original_questions_df judge_payload :
  _create_judge_json_output all_results original_questions_df
  = ok judge_payload ->
  NoDup (questionid <$> original_questions_df) /\
  (fun j => (question_id j, assessing_model j)) <$> judge_payload
  = judged all_results original_questions_df /\
  Forall (judge_item_ok original_questions_df) judge_payload.
Proof.
  unfold _create_judge_json_output, originals_lookup.
  case_bool_decide as Hnodup; [|done]. simpl. intros Hrun. split; [done|].
  revert judge_payload Hrun.
  induction all_results as [|[q ms] rest IH]; intros judge_payload;
    cbn [judge_items_of_results]; [by intros [= <-]|].
  unfold judged. rewrite bind_cons. fold (judged rest original_questions_df).
  simpl.
  destruct (list_to_map _ !! q) as [original_data|] eqn:Hq.
  - intros (items & Hitems & (more & Hmore & [= <-])%rbind_ok)%rbind_ok.
    apply elem_of_list_to_map_2 in Hq.
    apply list_elem_of_fmap in Hq as (r & [= -> ->] & Hr).
    rewrite bool_decide_eq_true_2
      by (apply list_elem_of_fmap; by exists r).
    destruct (IH _ Hmore) as [IH1 IH2].
    destruct (judge_items_of_models_spec _ _ _ _ Hitems) as [H1 H2].
    split; [by rewrite fmap_app, H1, IH1|].
    apply Forall_app. split; [|done].
    eapply Forall_impl; [exact H2|]. intros j (Hj & Ho & Ha).
    by exists r.
  - intros Hmore. apply not_elem_of_list_to_map_2 in Hq.
    rewrite <- list_fmap_compose in Hq.
    rewrite bool_decide_eq_false_2 by done. by apply IH.
Qed.

(** ** When a reasoning parameter is sent *)

(** X23. When a reasoning parameter is sent (call_openrouter_api). A
    model that the table does not mark as a thinking model, and a model of
    neither family, gets neither parameter, whatever the configuration
    says, and no error is raised. For a thinking model of the effort
    family a blank effort sends no parameter, and a configured effort
    that is one of the trimmed, comma-separated efforts the table lists
    for the model is sent unchanged, with no thinking budget. *)
Theorem reasoning_parameters_by_family (config : Config)
    (thinking_models_lookup : gmap string cell)
    (thinking_values_lookup : gmap string string) (model_name : string)
    (messages : list message) :
  let built budget effort :=
    exists p,
      build_payload model_name messages config thinking_models_lookup
        thinking_values_lookup = ok p /\
      p_thinking_budget p = budget /\ p_reasoning_effort p = effort in
  (is_thinking_model thinking_models_lookup model_name = false ->
   built None None) /\
  (startswith "google/" model_name = false ->
   startswith "openai/" model_name = false ->
   built None None) /\
  (is_thinking_model thinking_models_lookup model_name = true ->
   startswith "openai/" model_name = true ->
   (py_strip (reasoning_effort_openai config) = "" -> built None None) /\
   (forall legal,
      py_strip (reasoning_effort_openai config) <> "" ->
      thinking_values_lookup !! model_name = Some legal ->
      py_strip legal <> "" ->
      reasoning_effort_openai config ∈ py_strip <$> split_on "," legal ->
      built None (Some (reasoning_effort_openai config)))).
Proof.
  intros built. unfold built, build_payload. split; [|split].
  - intros ->. by eexists.
  - intros -> ->. destruct (is_thinking_model _ _); by eexists.
  - intros -> Hopenai.
    rewrite (openai_prefix_not_google _ Hopenai), Hopenai.
    unfold openai_reasoning_effort. split.
    + intros Hblank. rewrite Hblank. simpl. rewrite andb_false_r.
      by eexists.
    + intros legal Heffort Hlegal Hnonblank Hin.
      assert (reasoning_effort_openai config <> "") as Hne
        by (intros Heq; by rewrite Heq in Heffort).
      rewrite (string_eqb_false _ _ Hne), (string_eqb_false _ _ Heffort).
      simpl. rewrite Hlegal.
      assert (legal <> "") as Hl
        by (intros Heq; by rewrite Heq in Hnonblank).
      rewrite (string_eqb_false _ _ Hl), (string_eqb_false _ _ Hnonblank).
      simpl. rewrite bool_decide_eq_true_2 by done. by eexists.
Qed.

(** The effort low is listed for the sample model of the effort family. *)
Lemma reasoning_parameters_by_family_witness :
  exists p,
    build_payload "openai/gpt-5-mini" []
      (sample_config (only model_2) 5 CBlank "low")
      sample_thinking_models sample_thinking_values = ok p /\
    p_thinking_budget p = None /\ p_reasoning_effort p = Some "low".
Proof.
  destruct (reasoning_parameters_by_family
              (sample_config (only model_2) 5 CBlank "low")
              sample_thinking_models sample_thinking_values
              "openai/gpt-5-mini" []) as (_ & _ & Hopenai).
  destruct (Hopenai eq_refl eq_refl) as [_ Hlegal].
  apply (Hlegal "minimal, low, medium, high");
    [discriminate|reflexivity|discriminate|].
  compute_done.
Defined.

(** ** The item count of the dashboard *)

Lemma count_pairs_of_slot (config : Config) (k : model_key) (items : list row)
    (triples : list (row * model_key * json)) :
  enabled config k = true ->
  triples.*1 = item_pairs config items ->
  count_triples k (fun _ => true) triples = Z.of_nat (length items).
Proof.
  intros He Hfst. unfold count_triples. f_equal.
  assert (length (filter (fun t : row * model_key * json =>
                            t.1.2 = k /\ true = true) triples)
          = length (filter (fun p : row * model_key => p.2 = k) triples.*1))
    as ->.
  { clear. induction triples as [|[[r k'] cr] triples IH]; [done|].
    rewrite fmap_cons, !filter_cons. simpl.
    destruct (decide (k' = k)) as [->|Hne].
    - rewrite decide_True by done. simpl. by rewrite IH.
    - rewrite decide_False by (by intros [? _]). done. }
  rewrite Hfst. clear Hfst triples.
  assert (forall r : row,
            length (filter (fun p : row * model_key => p.2 = k)
                      ((fun k' => (r, k')) <$> enabled_keys config)) = 1%nat)
    as Hone.
  { intros r. unfold enabled_keys, model_keys.
    rewrite !filter_cons, filter_nil.
    destruct k; rewrite He;
      destruct (enabled config model_1), (enabled config model_2),
        (enabled config model_3); try discriminate; reflexivity. }
  induction items as [|r items IH]; [done|].
  rewrite item_pairs_cons, filter_app, length_app, Hone, IH. done.
Qed.

Section ItemCount.
Context `{Oracles}.
Context (config : Config).
Context (thinking_models_lookup : gmap string cell).
Context (thinking_values_lookup : gmap string string).

(** X24. The item counts of the dashboard. For a completed run with a
    positive batch size and an enabled slot whose display name no other
    enabled slot shares, the dashboard's Total Items is the number of
    selected items (not the number of calls times the batch size, which
    the time and cost averages use), Successful Items and Failed Items
    add up to it, and Successful Items lies between 0 and it. *)
Theorem total_items_is_number_of_selected_items cost_lookup df_all sent out
    sent' system_prompt_tokens k e :
  0 < batch_size config ->
  assess_questions config thinking_models_lookup thinking_values_lookup
    cost_lookup df_all sent = (inr out, sent') ->
  enabled config k = true ->
  (forall k', enabled config k' = true ->
              display_name config k' = display_name config k -> k' = k) ->
  dashboard_entry config cost_lookup system_prompt_tokens
    (out_metrics out) (out_results out) k = ok e ->
  (Total_Items e
   == inject_Z (Z.of_nat (length (select_rows config df_all))))%Q /\
  (Successful_Items e + Failed_Items e == Total_Items e)%Q /\
  (0 <= Successful_Items e <= Total_Items e)%Q.
Proof.
  intros HB Hrun He Hdistinct Hentry.
  unfold assess_questions in Hrun.
  apply mbind_inr in Hrun as (n & s1 & [Hn ->]%lift_inr & Hrun).
  apply mbind_inr in Hrun as (acc & s2 & Hfold & Hrun).
  apply mret_inr in Hrun as [-> _]. simpl in Hentry.
  destruct (foldM_process_batch_laid_out _ _ _ _ _ _ _ _ _ [] Hfold)
    as (triples & Hfst & Hlaid); [constructor|].
  rewrite (concat_batches _ _ _ HB Hn) in Hfst. simpl in Hlaid.
  assert (Hall : Forall (fun t => display_name config t.1.2
                                  = display_name config k -> t.1.2 = k)
                        triples).
  { apply Forall_forall. intros [[r k'] cr] Ht' Hname. simpl in *.
    apply Hdistinct; [|done].
    apply (item_pairs_enabled config (select_rows config df_all) r).
    rewrite <- Hfst. apply list_elem_of_fmap. by exists (r, k', cr). }
  destruct (dashboard_entry_counts _ _ _ _ _ _ _ Hentry) as (Ht & Hs & _).
  cbv zeta in Ht, Hs.
  pose proof (kept_laid_out config k (fun _ => true) _ _ Hlaid Hall) as K1.
  pose proof (kept_laid_out config k notna _ _ Hlaid Hall) as K2.
  simpl in K1. rewrite filter_always_length in K1.
  rewrite (count_pairs_of_slot config k _ _ He Hfst) in K1.
  assert (0 <= count_notna
                 (model_results_of (display_name config k) (results_data acc))
          <= Z.of_nat (length (model_results_of (display_name config k)
                                 (results_data acc)))) as Hbound.
  { unfold count_notna. split; [lia|]. apply inj_le, length_filter. }
  assert (Failed_Items e = (Total_Items e - Successful_Items e)%Q) as Hf.
  { unfold dashboard_entry in Hentry.
    apply rbind_ok in Hentry as (ti & _ & Hentry).
    apply rbind_ok in Hentry as (to & _ & Hentry).
    apply rbind_ok in Hentry as (tr & _ & Hentry).
    apply rbind_ok in Hentry as (share & _ & Hentry).
    apply rbind_ok in Hentry as (tq & _ & Hentry).
    apply rbind_ok in Hentry as (tc & _ & Hentry).
    apply rbind_ok in Hentry as (cq & _ & Hentry).
    apply rbind_ok in Hentry as (cr & _ & Hentry).
    by injection Hentry as <-. }
  rewrite Hf, Ht, Hs, K1.
  set (c := count_notna _) in *.
  set (len := Z.of_nat (length (select_rows config df_all))) in *.
  rewrite K1 in Hbound.
  assert (inject_Z (3 * len) == 3 * inject_Z len)%Q as E3
    by (rewrite inject_Z_mult; reflexivity).
  assert (0 <= inject_Z c)%Q as Hc0
    by (change 0%Q with (inject_Z 0); rewrite <- Zle_Qle; lia).
  assert (inject_Z c <= 3 * inject_Z len)%Q as Hc1
    by (rewrite <- E3, <- Zle_Qle; lia).
  repeat split.
  - rewrite E3. field.
  - field.
  - apply Qle_shift_div_l; [reflexivity|]. lra.
  - rewrite E3. apply Qle_shift_div_r; [reflexivity|]. 
    assert (3 * inject_Z len / 3 * 3 == 3 * inject_Z len)%Q as -> by field.
    done.
Qed.
End ItemCount.

(** Three items and one enabled slot: three items on the dashboard. *)
Lemma total_items_is_number_of_selected_items_witness :
  exists out sent' e,
    @assess_questions two_of_three (sample_config (only model_1) 3 CBlank "")
      sample_thinking_models sample_thinking_values sample_costs
      [sample_item 101; sample_item 102; sample_item 103] []
    = (inr out, sent') /\
    dashboard_entry (sample_config (only model_1) 3 CBlank "") sample_costs 11
      (out_metrics out) (out_results out) model_1 = ok e /\
    (Total_Items e == 3)%Q.
Proof.
  eexists _, _, _. split; [vm_compute; reflexivity|].
  split; [vm_compute; reflexivity|].
  match goal with
  | |- (Total_Items ?e == _)%Q =>
      destruct (@total_items_is_number_of_selected_items two_of_three
                  (sample_config (only model_1) 3 CBlank "")
                  sample_thinking_models sample_thinking_values sample_costs
                  [sample_item 101; sample_item 102; sample_item 103] []
                  _ _ 11 model_1 e eq_refl
                  ltac:(vm_compute; reflexivity) eq_refl
                  ltac:(intros [] He Hn;
                        first [reflexivity|discriminate He])
                  ltac:(vm_compute; reflexivity))
        as [Htotal _]
  end.
  rewrite Htotal. reflexivity.
Defined.

(** ** Runs without a batch *)

Section NoBatch.
Context `{Oracles}.
Context (config : Config).
Context (thinking_models_lookup : gmap string cell).
Context (thinking_values_lookup : gmap string string).

Lemma assess_questions_no_batch cost_lookup df_all sent n :
  total_batches (batch_size config) (select_rows config df_all) = ok n ->
  n <= 0 ->
  assess_questions config thinking_models_lookup thinking_values_lookup
    cost_lookup df_all sent = (ok empty_run, sent).
Proof.
  intros Hn Hle. unfold assess_questions. rewrite Hn, mbind_lift_ok.
  unfold py_range. by replace (Z.to_nat n) with 0%nat by lia.
Qed.

(** X25. Runs that process nothing. A batch size of 0 makes the run
    raise ZeroDivisionError before anything is sent. With a positive
    batch size and an empty selection (a start row past the table, for
    instance) the run completes with empty tables and no dashboard,
    having sent nothing. A negative batch size is not rejected: when the
    selection has at least 1 - batch_size items the number of batches
    computed is not positive and the run completes in the same way,
    having assessed nothing. *)
Theorem run_without_batches cost_lookup df_all sent :
  let run :=
    assess_questions config thinking_models_lookup thinking_values_lookup
      cost_lookup df_all sent in
  let selected := Z.of_nat (length (select_rows config df_all)) in
  (batch_size config = 0 -> run = (raise ZeroDivisionError, sent)) /\
  (0 < batch_size config -> selected = 0 -> run = (ok empty_run, sent)) /\
  (batch_size config < 0 -> 1 - batch_size config <= selected ->
   run = (ok empty_run, sent)).
Proof.
  intros run selected. subst run. split; [|split].
  - intros HB. unfold assess_questions, total_batches. by rewrite HB.
  - intros HB Hsel.
    apply (assess_questions_no_batch _ _ _
             ((selected + batch_size config - 1) / batch_size config)).
    + unfold total_batches.
      by destruct (Z.eqb_spec (batch_size config) 0) as [?|_]; [lia|].
    + rewrite Hsel, Z.div_small by lia. lia.
  - intros HB Hsel.
    apply (assess_questions_no_batch _ _ _
             ((selected + batch_size config - 1) / batch_size config)).
    + unfold total_batches.
      by destruct (Z.eqb_spec (batch_size config) 0) as [?|_]; [lia|].
    + pose proof (Z.div_mod (selected + batch_size config - 1)
                    (batch_size config)) as Hdm.
      pose proof (Z.mod_neg_bound (selected + batch_size config - 1)
                    (batch_size config) HB) as Hm.
      nia.
Qed.
End NoBatch.

(** Three items and a batch size of -1: nothing is assessed. *)
Lemma run_without_batches_witness :
  @assess_questions two_of_three (sample_config (only model_1) (-1) CBlank "")
    sample_thinking_models sample_thinking_values sample_costs
    [sample_item 101; sample_item 102; sample_item 103] []
  = (ok empty_run, []).
Proof.
  apply (@run_without_batches two_of_three
           (sample_config (only model_1) (-1) CBlank "")
           sample_thinking_models sample_thinking_values sample_costs
           [sample_item 101; sample_item 102; sample_item 103] []);
    [reflexivity|vm_compute; discriminate].
Defined.

(** *** Worked instances of the further properties *)

(** A name with a provider part. *)
Lemma short_model_name_is_last_segment_witness :
  get_short_model_name "openai/gpt-4o-mini" = "gpt-4o-mini".
Proof.
  apply (proj1 (proj2 short_model_name_is_last_segment) "openai" "gpt-4o-mini").
  reflexivity.
Defined.

(** One hour, two minutes and five seconds. *)
Lemma format_time_hms_decomposes_witness :
  0 <= hours (format_time_hms 3725).
Proof.
  apply (format_time_hms_decomposes 3725). unfold Qle. simpl. lia.
Defined.

(** A reply that does not decode. *)
Lemma batch_parser_error_leaves_no_results_witness :
  (∅ : gmap qid json) = ∅ /\
  error_truthy (Some "Failed to parse LLM batch response: JSONDecodeError")
  = true.
Proof.
  apply (@batch_parser_error_leaves_no_results two_of_three
           (sample_body "no array here" 100 20) [sample_item 101]).
  vm_compute. reflexivity.
Defined.

(** A reply with verdicts for two of three items. *)
Lemma batch_parser_keeps_last_object_witness :
  exists content items,
    response_content (sample_body "[two verdicts]" 100 20)
    = ok (JStr content) /\
    @json_loads two_of_three (clean_batch_content content)
    = Some (JArr items) /\
    forall q,
      ({[ QInt 102 := sample_object 102 0; QInt 103 := sample_object 103 1 ]}
         : gmap qid json) !! q
      = last (filter (fun item => item_id item = Some q) items).
Proof.
  apply (@batch_parser_keeps_last_object two_of_three
           (sample_body "[two verdicts]" 100 20) [sample_item 101]).
  vm_compute. reflexivity.
Defined.

(** A well-shaped verdict with a blank feedback entry. *)
Lemma single_parser_accepts_only_valid_shape_witness :
  exists members flag fb,
    JObj [("questionid", JNum 1); ("change_required", JNum 0);
          ("feedback",
           JObj [("question",
                  JObj [("issue", JStr "No changes needed.");
                        ("rewrite", JStr "")])])]
    = JObj members /\
    assoc "change_required" members = Some flag /\
    (py_eq_int flag 0 = true \/ py_eq_int flag 1 = true) /\
    assoc "feedback" members = Some (JObj fb) /\
    is_Some (assoc "question" fb) /\
    Forall (fun entry => normalized_entry entry.2) fb.
Proof.
  apply (@single_parser_accepts_only_valid_shape blank_answer
           (sample_body "{blank}" 100 20)).
  vm_compute. reflexivity.
Defined.

(** A call that times out, for a batch of two items. *)
Lemma failed_call_fails_whole_batch_witness :
  exists results',
    @assess_slot no_answer [sample_item 101; sample_item 102]
      (sample_config (only model_1) 5 CBlank "")
      sample_thinking_models sample_thinking_values [] ∅ model_1 []
    = (ok results', [] ++ [sample_request []]) /\
    forall q k',
      lookup_verdict results' q k'
      = if decide (q ∈ questionid <$> [sample_item 101; sample_item 102]
                   /\ k' = model_1)
        then Some (error_verdict "Timeout after 30s"
                     (empty_batch_info model_1
                        "anthropic/claude-3-5-haiku-20241022"
                        (@http_post no_answer (sample_request []) 0).2))
        else lookup_verdict ∅ q k'.
Proof.
  apply (@failed_call_fails_whole_batch no_answer
           (sample_config (only model_1) 5 CBlank "")
           sample_thinking_models sample_thinking_values
           [sample_item 101; sample_item 102] [] ∅ model_1 []
           (sample_request []) "Timeout after 30s");
    [reflexivity|reflexivity|reflexivity|discriminate].
Defined.

(** A reply without a verdict for the first of three items. *)
Lemma answered_call_gives_each_item_its_object_witness :
  exists results',
    @assess_slot two_of_three
      [sample_item 101; sample_item 102; sample_item 103]
      (sample_config (only model_1) 5 CBlank "")
      sample_thinking_models sample_thinking_values [] ∅ model_1 []
    = (ok results', [] ++ [sample_request []]) /\
    lookup_verdict results' (QInt 101) model_1
    = Some (error_verdict missing_response
              {| info_model_key := model_1;
                 info_model_name := "anthropic/claude-3-5-haiku-20241022";
                 latency := 3 # 2;
                 tokens := {| tok_input := JNum 100; tok_output := JNum 20;
                              tok_reasoning := JNum 0;
                              tok_total := JNum 120 |};
                 raw_response := Some (sample_body "[two verdicts]" 100 20) |}).
Proof.
  destruct (@answered_call_gives_each_item_its_object two_of_three
              (sample_config (only model_1) 5 CBlank "")
              sample_thinking_models sample_thinking_values
              [sample_item 101; sample_item 102; sample_item 103] [] ∅
              model_1 [] (sample_request [])
              (sample_body "[two verdicts]" 100 20)
              {| info_model_key := model_1;
                 info_model_name := "anthropic/claude-3-5-haiku-20241022";
                 latency := 3 # 2;
                 tokens := {| tok_input := JNum 100; tok_output := JNum 20;
                              tok_reasoning := JNum 0;
                              tok_total := JNum 120 |};
                 raw_response := Some (sample_body "[two verdicts]" 100 20) |}
              {[ QInt 102 := sample_object 102 0;
                 QInt 103 := sample_object 103 1 ]})
    as (results' & Hrun & Hlookup);
    [reflexivity|reflexivity|reflexivity|reflexivity
    |vm_compute; reflexivity|].
  exists results'. split; [exact Hrun|].
  rewrite Hlookup. vm_compute. reflexivity.
Defined.

(** One batch and one enabled slot: one request. *)
Lemma run_sends_one_request_per_batch_and_slot_witness :
  exists out sent',
    @assess_questions two_of_three (sample_config (only model_1) 3 CBlank "")
      sample_thinking_models sample_thinking_values sample_costs
      [sample_item 101; sample_item 102; sample_item 103] []
    = (inr out, sent') /\
    length sent' = 1%nat.
Proof.
  eexists _, _. split; [vm_compute; reflexivity|].
  match goal with
  | |- length ?s = _ =>
      destruct (@run_sends_one_request_per_batch_and_slot two_of_three
                  (sample_config (only model_1) 3 CBlank "")
                  sample_thinking_models sample_thinking_values sample_costs
                  [sample_item 101; sample_item 102; sample_item 103] []
                  _ s ltac:(vm_compute; reflexivity))
        as (n & pss & Hn & _ & _ & Hlen)
  end.
  rewrite Hlen. injection Hn as <-. vm_compute. reflexivity.
Defined.


(** Two batches of one item, the second call failing. *)
Lemma one_metrics_record_per_call_witness :
  exists out sent',
    @assess_questions one_call_fails
      (sample_config (only model_1) 1 CBlank "")
      sample_thinking_models sample_thinking_values sample_costs
      [sample_item 1; sample_item 2] []
    = (inr out, sent') /\
    (fun m => (Question_ID m, Model_Key m)) <$> out_metrics out
    = [("Batch_1", model_1); ("Batch_2", model_1)].
Proof.
  eexists _, _. split; [vm_compute; reflexivity|].
  match goal with
  | |- _ <$> out_metrics ?o = _ =>
      destruct (@one_metrics_record_per_call one_call_fails
                  (sample_config (only model_1) 1 CBlank "")
                  sample_thinking_models sample_thinking_values sample_costs
                  [sample_item 1; sample_item 2] [] o _ eq_refl
                  ltac:(vm_compute; reflexivity))
        as (n & Hn & Hmetrics & _)
  end.
  rewrite Hmetrics. injection Hn as <-. vm_compute. reflexivity.
Defined.

(** Sheet rows 3 to 4 of a table of four items. *)
Lemma select_rows_is_sheet_range_witness :
  select_rows (sample_range 3 4 5)
    [sample_item 1; sample_item 2; sample_item 3; sample_item 4]
  = [sample_item 2; sample_item 3].
Proof.
  destruct (select_rows_is_sheet_range (sample_range 3 4 5)
              [sample_item 1; sample_item 2; sample_item 3; sample_item 4])
    as [Hrange _]; [simpl; lia|].
  rewrite Hrange by lia. reflexivity.
Defined.


(** One parsed verdict and one error verdict. *)
Lemma judge_payload_lists_the_successful_assessments_witness :
  exists judge_payload,
    _create_judge_json_output sample_assessments
      [sample_item 101; sample_item 102] = ok judge_payload /\
    (fun j => (question_id j, assessing_model j)) <$> judge_payload
    = [(QInt 101, "anthropic/claude-3-5-haiku-20241022")].
Proof.
  eexists. split; [vm_compute; reflexivity|].
  match goal with
  | |- _ <$> ?p = _ =>
      destruct (judge_payload_lists_the_successful_assessments
                  sample_assessments [sample_item 101; sample_item 102] p
                  ltac:(vm_compute; reflexivity))
        as (_ & Hlisted & _)
  end.
  rewrite Hlisted. vm_compute. reflexivity.
Defined.

(** Two batches and one enabled slot. *)
Lemma dashboard_has_one_entry_per_enabled_slot_witness :
  exists out sent' rows,
    @assess_questions one_call_fails
      (sample_config (only model_1) 1 CBlank "")
      sample_thinking_models sample_thinking_values sample_costs
      [sample_item 1; sample_item 2] []
    = (inr out, sent') /\
    out_dashboard out = Some rows /\
    d_Model <$> rows = ["claude-3-5-haiku-20241022"].
Proof.
  eexists _, _, _. split; [vm_compute; reflexivity|].
  split; [vm_compute; reflexivity|].
  match goal with
  | |- d_Model <$> ?r = _ =>
      destruct (@dashboard_has_one_entry_per_enabled_slot one_call_fails
                  (sample_config (only model_1) 1 CBlank "")
                  sample_thinking_models sample_thinking_values sample_costs
                  [sample_item 1; sample_item 2] [] _ _ r eq_refl
                  ltac:(vm_compute; reflexivity)
                  ltac:(vm_compute; reflexivity))
        as (_ & Hmodels & _)
  end.
  rewrite Hmodels. vm_compute. reflexivity.
Defined.

(** A reply whose message content is null. *)
Lemma non_text_content_aborts_after_sending_witness :
  @parse_llm_batch_response null_content_answer
    (JObj [("choices",
            JArr [JObj [("message", JObj [("content", JNull)])]])])
    [sample_item 1]
  = raise AttributeError /\
  @assess_slot null_content_answer [sample_item 1]
    (sample_config (only model_1) 3 CBlank "")
    sample_thinking_models sample_thinking_values [] ∅ model_1 []
  = (raise AttributeError, [] ++ [sample_request []]).
Proof.
  eapply (@non_text_content_aborts_after_sending null_content_answer
            (sample_config (only model_1) 3 CBlank "")
            sample_thinking_models sample_thinking_values
            [sample_item 1] [] ∅ model_1 [] (sample_request [])
            (JObj [("choices",
                    JArr [JObj [("message", JObj [("content", JNull)])]])])
            _ JNull);
    [reflexivity|reflexivity|reflexivity|vm_compute; reflexivity|reflexivity
    |discriminate].
Defined.

(** A budget cell that holds the text high. *)
Lemma unreadable_budget_aborts_before_sending_witness :
  @assess_slot no_answer [sample_item 1]
    (sample_config (only model_3) 3 (CText "high") "")
    sample_thinking_models sample_thinking_values [] ∅ model_3 []
  = (raise (ValueError "invalid literal for int()"), []).
Proof.
  apply (@unreadable_budget_aborts_before_sending no_answer
           (sample_config (only model_3) 3 (CText "high") "")
           sample_thinking_models sample_thinking_values
           [sample_item 1] [] ∅ model_3 [] "high");
    [reflexivity|vm_compute; reflexivity|reflexivity|reflexivity
    |discriminate|reflexivity].
Defined.
